(** * Order fulfillment pipeline of the store backend

    A shallow embedding of the webhook reconciler, the fulfillment engine,
    the delivery coordinator and the checkout of the storefront backend
    (controllers/webhookController, controllers/paymentController,
    controllers/serverController, controllers/adminController,
    controllers/userController, services/fivemService, services/efiService,
    utils/crypto, storage).

    The relational tables are lists of rows, the handlers are programs in a
    state-and-exception monad over the store, and everything the process does
    not decide itself (the game server, the payment provider, the HMAC
    primitive, JSON parsing, UUID generation, database failures) is an
    explicit oracle of the environment. *)

From Stdlib Require Import ZArith List String Ascii Bool Lia Permutation Sorted.
Import ListNotations.
Open Scope string_scope.
Open Scope list_scope.
Open Scope Z_scope.

(** ** JavaScript numbers used for money

    Prices and amounts are SQLite REAL columns and JavaScript numbers.  The
    checkout only adds subtotals and multiplies a price by a quantity, so the
    carrier and its operations stay abstract: no algebraic law is assumed, and
    whatever is proved holds for IEEE doubles as well as for integer cents. *)
Class Number := {
  num : Type;
  num_zero : num;
  num_add : num -> num -> num;
  num_times : num -> Z -> num;
  num_le_zero : num -> bool
}.

(** A JSON field read by a handler: absent, [null], or a string. *)
Inductive jstr := Undefined | Null | Str (s : string).

(** Truthiness of a JavaScript value, as used by [!x], [x || y], [x && y]. *)
Definition truthy_string (s : string) : bool := negb (s =? "")%string.
Definition truthy_jstr (v : jstr) : bool :=
  match v with Str s => truthy_string s | _ => false end.
Definition truthy_ostring (v : option string) : bool :=
  match v with Some s => truthy_string s | None => false end.

(** [a || b] on optional values with a default. *)
Definition or_string (v : option string) (d : string) : string :=
  match v with Some s => if truthy_string s then s else d | None => d end.
Definition or_int (v : option Z) (d : Z) : Z :=
  match v with Some n => if (n =? 0)%Z then d else n | None => d end.
Definition or_jstr (a b : jstr) : jstr := if truthy_jstr a then a else b.

(** [t.paymentId === webhookData.paymentId]: a TEXT column (NULL or text)
    against a JSON field, without coercion. *)
Definition strict_eq_column (col : option string) (v : jstr) : bool :=
  match col, v with
  | None, Null => true
  | Some a, Str b => (a =? b)%string
  | _, _ => false
  end.

(** ** Buffers *)

(** Value of one hexadecimal digit, if it is one. *)
Definition hex_digit (c : ascii) : option N :=
  let n := N_of_ascii c in
  if ((48 <=? n) && (n <=? 57))%N then Some (n - 48)%N
  else if ((97 <=? n) && (n <=? 102))%N then Some (n - 87)%N
  else if ((65 <=? n) && (n <=? 70))%N then Some (n - 55)%N
  else None.

(** [Buffer.from(s, "hex")]: pairs of digits are decoded until the first pair
    that is not hexadecimal; a trailing single digit is dropped. *)
Fixpoint hex_decode (s : string) : list N :=
  match s with
  | String a (String b rest) =>
      match hex_digit a, hex_digit b with
      | Some h, Some l => (16 * h + l)%N :: hex_decode rest
      | _, _ => []
      end
  | _ => []
  end.

(** [Buffer.from(s)]: the bytes of the string. *)
Definition utf8_bytes (s : string) : list N := map N_of_ascii (list_ascii_of_string s).

Fixpoint bytes_eqb (a b : list N) : bool :=
  match a, b with
  | [], [] => true
  | x :: a', y :: b' => (x =? y)%N && bytes_eqb a' b'
  | _, _ => false
  end.

(** [crypto.timingSafeEqual(a, b)]: a RangeError when the lengths differ,
    otherwise whether the bytes are equal. *)
Definition timingSafeEqual (a b : list N) : option bool :=
  if (List.length a =? List.length b)%nat then Some (bytes_eqb a b) else None.

(** ** ORDER BY ... DESC *)

Section Sorting.
Context {A : Type} (key : A -> Z).

(** Inserts [x] before the first row with a smaller key.  SQL leaves the
    order of rows with equal keys open; here the row inserted last comes
    first. *)
Fixpoint insert_desc (x : A) (l : list A) : list A :=
  match l with
  | [] => [x]
  | y :: l' => if (key y <? key x)%Z then x :: y :: l' else y :: insert_desc x l'
  end.

Definition order_by_desc (l : list A) : list A :=
  fold_right insert_desc [] l.

End Sorting.

(** [JSON.parse] of a request body: a SyntaxError, [null], or an object. *)
Inductive Parsed (A : Type) :=
| ParseError
| ParsedNull
| ParsedObject (a : A).
Arguments ParseError {A}.
Arguments ParsedNull {A}.
Arguments ParsedObject {A} a.

(** The outcome of running a handler: a value or a thrown error. *)
Inductive Result (A : Type) :=
| Ok (a : A)
| Thrown (e : string).
Arguments Ok {A} a.
Arguments Thrown {A} e.

(** ** Rows of the tables *)

Section Model.
Context {N : Number}.

(** The [data] blob of a product: the fields the fulfillment reads. *)
Record ProductData := mkProductData {
  pd_amount : option Z;
  pd_level : option string;
  pd_duration : option Z
}.

Record User := mkUser {
  user_id : Z;
  username : string;
  email : string;
  fivemIdentifier : option string;
  coins : Z;
  vipLevel : string;
  vipExpires : option Z;
  user_updatedAt : Z
}.

Record Product := mkProduct {
  prod_id : Z;
  prod_code : string;
  prod_name : string;
  prod_price : num;
  prod_type : string;
  prod_data : option ProductData;
  prod_active : bool;
  prod_stock : Z
}.

(** One element of the [products] snapshot of a transaction.  The checkout
    never writes a [stock] field, a hand-written snapshot may carry one. *)
Record LineItem := mkLineItem {
  li_productId : Z;
  li_code : string;
  li_name : string;
  li_price : num;
  li_quantity : Z;
  li_subtotal : num;
  li_type : string;
  li_data : option ProductData;
  li_stock : option Z
}.

(** The [products] TEXT column: NULL, text that [JSON.parse] rejects, or the
    text of an array of line items ([JSON.stringify] of the cart). *)
Inductive ProductsColumn :=
| ColNull
| ColInvalid (raw : string)
| ColJson (items : list LineItem).

Record Transaction := mkTransaction {
  tx_id : string;
  tx_userId : Z;
  tx_paymentId : option string;
  tx_amount : num;
  tx_currency : string;
  tx_status : string;
  tx_paymentMethod : string;
  tx_qrCode : option string;
  tx_expiresAt : option Z;
  tx_products : ProductsColumn;
  tx_createdAt : Z;
  tx_updatedAt : Z
}.

(** The [grantData] object: fulfillment writes the product fields, an
    administrator's grant carries [amount], [level], [duration] directly. *)
Record GrantData := mkGrantData {
  gd_productId : option Z;
  gd_productName : option string;
  gd_quantity : option Z;
  gd_price : option num;
  gd_data : option ProductData;
  gd_amount : option Z;
  gd_level : option string;
  gd_duration : option Z
}.

Record Grant := mkGrant {
  grant_id : string;
  grant_transactionId : option string;
  grant_userId : Z;
  grant_type : string;
  grant_data : option GrantData;
  grant_status : string;
  grant_grantedBy : option Z;
  grant_grantedAt : Z
}.

Record ActivityLog := mkActivityLog {
  log_userId : option Z;
  log_action : string;
  log_details : list (string * string)
}.

(** Fire-and-forget mails of [emailService]. *)
Inductive Email :=
| VipActivation (to : string) (level : string) (expires : Z)
| PurchaseConfirmation (to : string) (transactionId : string) (items : list (string * Z))
| DeliveryNotification (to : string) (item : string) (quantity : Z).

(** ** The game server boundary *)

Record GrantDeliveryData := mkDeliveryData {
  dd_userIdentifier : string;
  dd_grantType : string;
  dd_grantData : option GrantData;
  dd_transactionId : option string
}.

Record DeliveryResult := mkDeliveryResult {
  dr_success : bool;
  dr_message : string;
  dr_delivered : bool;
  dr_retryAfter : option Z
}.

(** The body the game server answers to [POST /store/deliver]:
    [resp_success] is the truthiness of [response.success]. *)
Record DeliverResponse := mkDeliverResponse {
  resp_success : bool;
  resp_message : option string;
  resp_playerOnline : option bool
}.

(** What [axios] does with the request: a response body ([None] for a
    [null] body) or an error. *)
Record AxiosFailure := mkAxiosFailure {
  ax_isAxiosError : bool;
  ax_code : string;
  ax_status : option Z;
  ax_message : string
}.

Inductive AxiosOutcome :=
| AxiosData (body : option DeliverResponse)
| AxiosError (e : AxiosFailure).

(** ** The store and the environment *)

Record World := mkWorld {
  users : list User;
  products : list Product;
  transactions : list Transaction;
  grants : list Grant;
  activityLogs : list ActivityLog;
  outbox : list Email;
  deliveries : list GrantDeliveryData;  (* calls of deliverItems, oldest first *)
  timers : list Z;                      (* awaited setTimeout delays, oldest first *)
  clock : Z;                            (* Date.now(), milliseconds; advanced by the
                                           awaited timers only: the time a
                                           request or a query takes is not
                                           modelled *)
  uuidCount : nat;                      (* UUIDs drawn so far *)
  dbCalls : nat                         (* storage calls made so far *)
}.

(** A call of the storage layer, as far as a failure of the database can
    depend on it. *)
Inductive StorageCall :=
| CGetUser (id : Z)
| CGetAllUsers
| CUpdateUser (id : Z)
| CGetProduct (id : Z)
| CUpdateProduct (id : Z)
| CGetTransaction (id : string)
| CCreateTransaction (id : string)
| CUpdateTransaction (id : string)
| CGetAllTransactions
| CGetGrant (id : string)
| CCreateGrant (id : string)
| CUpdateGrant (id : string)
| CGetPendingGrants
| CLogActivity (action : string)
| CClearCart (userId : Z).

(** The parsed EfiBank envelope: [evento], [txid] and the first element of
    [pix] with its [txid] and [status]. *)
Record EfiPix := mkEfiPix { pix_txid : jstr; pix_status : jstr }.
Record EfiEnvelope := mkEfiEnvelope {
  efi_evento : jstr;
  efi_txid : jstr;
  efi_pix0 : option EfiPix
}.

(** The parsed generic envelope [{ transactionId, status, paymentId }]. *)
Record GenericEnvelope := mkGenericEnvelope {
  gen_transactionId : jstr;
  gen_status : jstr;
  gen_paymentId : jstr
}.

Record PixPayment := mkPixPayment {
  pix_paymentId : string;
  pix_qrCode : string;
  pix_expiresAt : Z
}.

Record Env := mkEnv {
  (* CryptoUtils.generateUUID: the n-th UUID drawn *)
  uuids : nat -> string;
  (* whether the n-th storage call throws: a failure of the database, or a
     constraint the tables below do not carry (the foreign keys from
     transactions, grants and activity logs to users) *)
  fault : nat -> StorageCall -> bool;
  (* process.env.FIVEM_SERVER_TOKEN || "" *)
  serverToken : string;
  (* the game server's answer to the n-th delivery request *)
  axios_deliver : nat -> GrantDeliveryData -> AxiosOutcome;
  (* Math.random() > 0.2 in the mock response of the n-th request *)
  mock_playerOnline : nat -> bool;
  (* process.env.EFI_WEBHOOK_SECRET || "" *)
  efiWebhookSecret : string;
  (* process.env.WEBHOOK_SECRET *)
  WEBHOOK_SECRET : option string;
  (* crypto.createHmac("sha256", key).update(payload).digest("hex") *)
  hmac_sha256_hex : string -> string -> string;
  (* JSON.parse of a webhook body, read as either envelope *)
  JSON_parse_efi : string -> Parsed EfiEnvelope;
  JSON_parse_generic : string -> Parsed GenericEnvelope;
  (* efiService.createPixPayment: None when it throws *)
  createPixPayment : string -> num -> option PixPayment
}.

(** ** The monad of handlers: state and exceptions *)

Definition M (A : Type) : Type := World -> Result A * World.

Definition ret {A} (a : A) : M A := fun w => (Ok a, w).
Definition throw {A} (e : string) : M A := fun w => (Thrown e, w).
Definition bind {A B} (m : M A) (k : A -> M B) : M B :=
  fun w => match m w with
           | (Ok a, w') => k a w'
           | (Thrown e, w') => (Thrown e, w')
           end.
(** [try { m } catch (error) { h error }] *)
Definition try_catch {A} (m : M A) (h : string -> M A) : M A :=
  fun w => match m w with
           | (Ok a, w') => (Ok a, w')
           | (Thrown e, w') => h e w'
           end.
Definition gets {A} (f : World -> A) : M A := fun w => (Ok (f w), w).
Definition modify (f : World -> World) : M unit := fun w => (Ok tt, f w).

End Model.

Declare Scope handler_scope.
Delimit Scope handler_scope with handler.
Notation "x <- m ;; k" := (bind m (fun x => k))
  (at level 61, m at next level, right associativity) : handler_scope.
Notation "m ;;; k" := (bind m (fun _ => k))
  (at level 61, right associativity) : handler_scope.

(** ** The storage layer (storage.ts) *)

Section Storage.
Context {N : Number}.
Variable env : Env.
Local Open Scope handler_scope.

Definition set_users (v : list User) (w : World) : World :=
  mkWorld v (products w) (transactions w) (grants w) (activityLogs w) (outbox w)
          (deliveries w) (timers w) (clock w) (uuidCount w) (dbCalls w).
Definition set_products (v : list Product) (w : World) : World :=
  mkWorld (users w) v (transactions w) (grants w) (activityLogs w) (outbox w)
          (deliveries w) (timers w) (clock w) (uuidCount w) (dbCalls w).
Definition set_transactions (v : list Transaction) (w : World) : World :=
  mkWorld (users w) (products w) v (grants w) (activityLogs w) (outbox w)
          (deliveries w) (timers w) (clock w) (uuidCount w) (dbCalls w).
Definition set_grants (v : list Grant) (w : World) : World :=
  mkWorld (users w) (products w) (transactions w) v (activityLogs w) (outbox w)
          (deliveries w) (timers w) (clock w) (uuidCount w) (dbCalls w).
Definition set_activityLogs (v : list ActivityLog) (w : World) : World :=
  mkWorld (users w) (products w) (transactions w) (grants w) v (outbox w)
          (deliveries w) (timers w) (clock w) (uuidCount w) (dbCalls w).
Definition set_outbox (v : list Email) (w : World) : World :=
  mkWorld (users w) (products w) (transactions w) (grants w) (activityLogs w) v
          (deliveries w) (timers w) (clock w) (uuidCount w) (dbCalls w).
Definition set_deliveries (v : list GrantDeliveryData) (w : World) : World :=
  mkWorld (users w) (products w) (transactions w) (grants w) (activityLogs w) (outbox w)
          v (timers w) (clock w) (uuidCount w) (dbCalls w).
Definition set_time (t : list Z) (c : Z) (w : World) : World :=
  mkWorld (users w) (products w) (transactions w) (grants w) (activityLogs w) (outbox w)
          (deliveries w) t c (uuidCount w) (dbCalls w).
Definition set_uuidCount (n : nat) (w : World) : World :=
  mkWorld (users w) (products w) (transactions w) (grants w) (activityLogs w) (outbox w)
          (deliveries w) (timers w) (clock w) n (dbCalls w).
Definition set_dbCalls (n : nat) (w : World) : World :=
  mkWorld (users w) (products w) (transactions w) (grants w) (activityLogs w) (outbox w)
          (deliveries w) (timers w) (clock w) (uuidCount w) n.

(** [Date.now()] and [await new Promise(resolve => setTimeout(resolve, ms))]. *)
Definition Date_now : M Z := gets clock.
Definition sleep (ms : Z) : M unit :=
  modify (fun w => set_time (timers w ++ [ms]) (clock w + ms) w).

(** [CryptoUtils.generateUUID()]. *)
Definition generateUUID : M string :=
  fun w => (Ok (uuids env (uuidCount w)), set_uuidCount (S (uuidCount w)) w).

Definition sendEmail (e : Email) : M unit :=
  modify (fun w => set_outbox (outbox w ++ [e]) w).

(** Every storage method is one database call; the call may throw. *)
Definition db {A} (c : StorageCall) (run : M A) : M A :=
  fun w =>
    let w1 := set_dbCalls (S (dbCalls w)) w in
    if fault env (dbCalls w) c then (Thrown "SqliteError", w1) else run w1.

(** A [Date] written to a column of mode "timestamp" and read back: drizzle
    stores [Math.floor(date.getTime() / 1000)] and reads [value * 1000], so
    the milliseconds are lost. *)
Definition stored_seconds (ms : Z) : Z := 1000 * (ms / 1000).

(** *** Users *)

Definition find_user (id : Z) (l : list User) : option User :=
  find (fun u => user_id u =? id) l.

Definition getUser (id : Z) : M (option User) :=
  db (CGetUser id) (gets (fun w => find_user id (users w))).

(** The fields of a [Partial<User>] the pipeline writes. *)
Record UserUpdate := mkUserUpdate {
  upd_coins : option Z;
  upd_vipLevel : option string;
  upd_vipExpires : option Z
}.

(** [.set({ ...updates, updatedAt: new Date() })]; [vip_expires] and
    [updated_at] are timestamp columns. *)
Definition apply_user_update (upd : UserUpdate) (now : Z) (u : User) : User :=
  mkUser (user_id u) (username u) (email u) (fivemIdentifier u)
         (match upd_coins upd with Some c => c | None => coins u end)
         (match upd_vipLevel upd with Some l => l | None => vipLevel u end)
         (match upd_vipExpires upd with
          | Some e => Some (stored_seconds e)
          | None => vipExpires u
          end)
         (stored_seconds now).

Definition updateUser (id : Z) (upd : UserUpdate) : M (option User) :=
  db (CUpdateUser id)
     (fun w =>
        let rows := map (fun u => if user_id u =? id
                                  then apply_user_update upd (clock w) u else u)
                        (users w) in
        (Ok (find_user id rows), set_users rows w)).

(** *** Products *)

Definition find_product (id : Z) (l : list Product) : option Product :=
  find (fun p => prod_id p =? id) l.

Definition getProduct (id : Z) : M (option Product) :=
  db (CGetProduct id) (gets (fun w => find_product id (products w))).

Record ProductUpdate := mkProductUpdate {
  upd_price : option num;
  upd_stock : option Z
}.

Definition apply_product_update (upd : ProductUpdate) (p : Product) : Product :=
  mkProduct (prod_id p) (prod_code p) (prod_name p)
            (match upd_price upd with Some v => v | None => prod_price p end)
            (prod_type p) (prod_data p) (prod_active p)
            (match upd_stock upd with Some v => v | None => prod_stock p end).

Definition updateProduct (id : Z) (upd : ProductUpdate) : M (option Product) :=
  db (CUpdateProduct id)
     (fun w =>
        let rows := map (fun p => if prod_id p =? id
                                  then apply_product_update upd p else p)
                        (products w) in
        (Ok (find_product id rows), set_products rows w)).

(** *** Transactions *)

Definition find_transaction (id : string) (l : list Transaction) : option Transaction :=
  find (fun t => (tx_id t =? id)%string) l.

Definition getTransaction (id : string) : M (option Transaction) :=
  db (CGetTransaction id) (gets (fun w => find_transaction id (transactions w))).

(** [id] is the primary key: inserting a second row with it fails.  No
    caller passes [createdAt] or [updatedAt]: the column default
    CURRENT_TIMESTAMP stores the current second, as text that ORDER BY
    compares in time order and that drizzle reads back as an invalid Date.
    The row keeps that second; no handler modelled here reads the two fields
    of a row it got back.  The foreign key of [user_id] is among the faults
    of the environment. *)
Definition createTransaction (id : string) (userId : Z) (amount : num)
    (currency status paymentMethod : string) (cart : ProductsColumn)
    (expires : option Z) : M Transaction :=
  db (CCreateTransaction id)
     (fun w =>
        match find_transaction id (transactions w) with
        | Some _ => (Thrown "UNIQUE constraint failed: transactions.id", w)
        | None =>
            let t := mkTransaction id userId None amount currency status paymentMethod
                                   None (option_map stored_seconds expires) cart
                                   (stored_seconds (clock w)) (stored_seconds (clock w)) in
            (Ok t, set_transactions (transactions w ++ [t]) w)
        end).

(** The fields of a [Partial<Transaction>] the callers pass: every call of
    [updateTransaction] in the controllers sets some of [status],
    [paymentId], [qrCode] and [expiresAt] (and [updatedAt], which the storage
    overwrites).  An update of another column is not expressible here. *)
Record TransactionUpdate := mkTransactionUpdate {
  upd_status : option string;
  upd_paymentId : option string;
  upd_qrCode : option string;
  upd_expiresAt : option Z
}.

(** [.set({ ...updates, updatedAt: new Date() })]: whatever [updatedAt] the
    caller passes is overwritten; [expires_at] and [updated_at] are timestamp
    columns. *)
Definition apply_transaction_update (upd : TransactionUpdate) (now : Z)
    (t : Transaction) : Transaction :=
  mkTransaction (tx_id t) (tx_userId t)
    (match upd_paymentId upd with Some v => Some v | None => tx_paymentId t end)
    (tx_amount t) (tx_currency t)
    (match upd_status upd with Some v => v | None => tx_status t end)
    (tx_paymentMethod t)
    (match upd_qrCode upd with Some v => Some v | None => tx_qrCode t end)
    (match upd_expiresAt upd with
     | Some v => Some (stored_seconds v)
     | None => tx_expiresAt t
     end)
    (tx_products t) (tx_createdAt t) (stored_seconds now).

Definition updateTransaction (id : string) (upd : TransactionUpdate)
  : M (option Transaction) :=
  db (CUpdateTransaction id)
     (fun w =>
        let rows := map (fun t => if (tx_id t =? id)%string
                                  then apply_transaction_update upd (clock w) t else t)
                        (transactions w) in
        (Ok (find_transaction id rows), set_transactions rows w)).

Definition status_only (s : string) : TransactionUpdate :=
  mkTransactionUpdate (Some s) None None None.

(** [ORDER BY created_at DESC LIMIT limit OFFSET offset]. *)
Definition getAllTransactions (limit offset : nat) : M (list Transaction) :=
  db CGetAllTransactions
     (gets (fun w => firstn limit (skipn offset
                       (order_by_desc tx_createdAt (transactions w))))).

(** *** Grants *)

Definition find_grant (id : string) (l : list Grant) : option Grant :=
  find (fun g => (grant_id g =? id)%string) l.

Definition getGrant (id : string) : M (option Grant) :=
  db (CGetGrant id) (gets (fun w => find_grant id (grants w))).

(** No caller passes [grantedAt]: the column default stores the current
    second, as for the timestamps of a new transaction.  The foreign keys of
    [user_id] and [granted_by] are among the faults of the environment. *)
Definition createGrant (id : string) (transactionId : option string) (userId : Z)
    (grantType : string) (data : option GrantData) (status : string)
    (grantedBy : option Z) : M Grant :=
  db (CCreateGrant id)
     (fun w =>
        match find_grant id (grants w) with
        | Some _ => (Thrown "UNIQUE constraint failed: grants.id", w)
        | None =>
            let g := mkGrant id transactionId userId grantType data status grantedBy
                             (stored_seconds (clock w)) in
            (Ok g, set_grants (grants w ++ [g]) w)
        end).

Definition set_grant_status (s : string) (g : Grant) : Grant :=
  mkGrant (grant_id g) (grant_transactionId g) (grant_userId g) (grant_type g)
          (grant_data g) s (grant_grantedBy g) (grant_grantedAt g).

(** [updateGrant(id, { status })]. *)
Definition updateGrant (id : string) (status : string) : M (option Grant) :=
  db (CUpdateGrant id)
     (fun w =>
        let rows := map (fun g => if (grant_id g =? id)%string
                                  then set_grant_status status g else g)
                        (grants w) in
        (Ok (find_grant id rows), set_grants rows w)).

Definition is_pending (g : Grant) : bool := (grant_status g =? "pending")%string.

(** [WHERE status = 'pending' ORDER BY granted_at DESC]. *)
Definition pending_grants (l : list Grant) : list Grant :=
  order_by_desc grant_grantedAt (filter is_pending l).

Definition getPendingGrants : M (list Grant) :=
  db CGetPendingGrants (gets (fun w => pending_grants (grants w))).

(** *** Activity log *)

(** The insert fails for a [userId] that is no row of [users] (foreign key);
    that failure is one of the faults of the environment. *)
Definition logActivity (userId : option Z) (action : string)
    (details : list (string * string)) : M unit :=
  db (CLogActivity action)
     (modify (fun w => set_activityLogs
                         (activityLogs w ++ [mkActivityLog userId action details]) w)).

End Storage.

(** ** The delivery coordinator (services/fivemService.ts) *)

Section FivemService.
Context {N : Number}.
Variable env : Env.
Local Open Scope handler_scope.

Definition retryAttempts : Z := 3.
Definition retryDelay : Z := 5000.

(** [getMockResponse("/store/deliver", data, "POST")]. *)
Definition getMockResponse_deliver (n : nat) : DeliverResponse :=
  mkDeliverResponse true (Some "Items delivered successfully") (Some (mock_playerOnline env n)).

(** The error [makeRequest] rethrows for a failed request. *)
Definition request_error (e : AxiosFailure) : string :=
  if ax_isAxiosError e && (ax_code e =? "ECONNREFUSED")%string
  then "FiveM server is offline or unreachable"
  else if ax_isAxiosError e && match ax_status e with Some 401 => true | _ => false end
  then "Invalid FiveM server token"
  else if ax_isAxiosError e && match ax_status e with Some 404 => true | _ => false end
  then "FiveM endpoint not found - ensure the store resource is running"
  else ("FiveM server error: " ++ ax_message e)%string.

(** [makeRequest("/store/deliver", data, "POST")] for the [n]-th delivery:
    the mock response without a token, otherwise the server's body or the
    rethrown error. *)
Definition makeRequest_deliver (n : nat) (data : GrantDeliveryData)
  : Result (option DeliverResponse) :=
  if negb (truthy_string (serverToken env))
  then Ok (Some (getMockResponse_deliver n))
  else match axios_deliver env n data with
       | AxiosData body => Ok body
       | AxiosError e => Thrown (request_error e)
       end.

(** What one call of [deliverItems] returns for an outcome of the request.
    Reading [response.success] of a [null] body is a TypeError inside the
    [try], so it ends in the [catch] like a transport error. *)
Definition delivery_result (outcome : Result (option DeliverResponse)) : DeliveryResult :=
  match outcome with
  | Ok (Some response) =>
      if resp_success response
      then mkDeliveryResult true
             (or_string (resp_message response) "Items delivered successfully")
             true None
      else
        let retryAfter :=
          match resp_playerOnline response with Some false => 300 | _ => 60 end in
        mkDeliveryResult false
             (or_string (resp_message response) "Failed to deliver items")
             false (Some retryAfter)
  | Ok None =>
      mkDeliveryResult false "Cannot read properties of null (reading 'success')"
                       false (Some 60)
  | Thrown message =>
      mkDeliveryResult false (or_string (Some message) "Server communication error")
                       false (Some 60)
  end.

(** [deliverItems]: one request, recorded in [deliveries].  The time the
    request takes (axios waits up to 10 s) is not modelled: the clock stands
    still, and no statement below is about elapsed time. *)
Definition deliverItems (deliveryData : GrantDeliveryData) : M DeliveryResult :=
  fun w =>
    let n := List.length (deliveries w) in
    (Ok (delivery_result (makeRequest_deliver n deliveryData)),
     set_deliveries (deliveries w ++ [deliveryData]) w).

(** The [for] loop of [deliverItemsWithRetry], [remaining] iterations before
    [attempt] exceeds [retryAttempts]; [lastResult] starts undefined. *)
Fixpoint retry_loop (remaining : nat) (attempt : Z) (deliveryData : GrantDeliveryData)
    (lastResult : option DeliveryResult) : M (option DeliveryResult) :=
  match remaining with
  | O => ret lastResult
  | S remaining' =>
      r <- deliverItems deliveryData ;;
      if dr_delivered r then ret (Some r)
      else
        (if attempt <? retryAttempts then sleep retryDelay else ret tt) ;;;
        retry_loop remaining' (attempt + 1) deliveryData (Some r)
  end.

Definition deliverItemsWithRetry (deliveryData : GrantDeliveryData)
  : M (option DeliveryResult) :=
  retry_loop (Z.to_nat retryAttempts) 1 deliveryData None.

End FivemService.

(** ** Requests and responses *)

Section Http.
Context {N : Number}.

Record AuthUser := mkAuthUser {
  au_id : Z;
  au_username : string;
  au_email : string;
  au_role : string
}.

Record BulkResults := mkBulkResults {
  processed : Z;
  delivered : Z;
  failed : Z;
  skipped : Z
}.

Inductive Body :=
| ErrorBody (error : string)
| WebhookProcessed (transactionId : string)
| BulkDelivery (results : BulkResults)
| PaymentCreated (id : string) (amount : num) (cart : list LineItem)
| GrantCreated (id : string) (deliveredImmediately : bool).

Record Response := mkResponse {
  status : Z;
  body : Body
}.

(** [asyncHandler]: a rejected handler goes to [errorHandler], which answers
    500 for an error without a [statusCode]. *)
Definition asyncHandler (handler : M Response) : World -> Response * World :=
  fun w => match handler w with
           | (Ok r, w') => (r, w')
           | (Thrown e, w') => (mkResponse 500 (ErrorBody e), w')
           end.

End Http.

(** ** Bulk delivery (controllers/serverController.ts) *)

Section ServerController.
Context {N : Number}.
Variable env : Env.
Local Open Scope handler_scope.

Definition incr_processed (r : BulkResults) : BulkResults :=
  mkBulkResults (processed r + 1) (delivered r) (failed r) (skipped r).
Definition incr_delivered (r : BulkResults) : BulkResults :=
  mkBulkResults (processed r) (delivered r + 1) (failed r) (skipped r).
Definition incr_failed (r : BulkResults) : BulkResults :=
  mkBulkResults (processed r) (delivered r) (failed r + 1) (skipped r).
Definition incr_skipped (r : BulkResults) : BulkResults :=
  mkBulkResults (processed r) (delivered r) (failed r) (skipped r + 1).

(** [x || undefined] on a nullable string. *)
Definition or_undefined (v : option string) : option string :=
  if truthy_ostring v then v else None.

Definition delivery_of_grant (identifier : string) (grant : Grant) : GrantDeliveryData :=
  mkDeliveryData identifier (grant_type grant) (grant_data grant)
                 (or_undefined (grant_transactionId grant)).

(** One iteration of the loop over the pending grants.  [results.processed++]
    is the only update before a statement that can throw. *)
Definition process_pending_grant (results : BulkResults) (grant : Grant) : M BulkResults :=
  let results := incr_processed results in
  try_catch
    (user <- getUser env (grant_userId grant) ;;
     match user with
     | None => ret (incr_skipped results)
     | Some u =>
         match fivemIdentifier u with
         | Some identifier =>
             if truthy_string identifier then
               deliveryResult <- deliverItems env (delivery_of_grant identifier grant) ;;
               if dr_delivered deliveryResult then
                 updateGrant env (grant_id grant) "delivered" ;;;
                 ret (incr_delivered results)
               else ret (incr_failed results)
             else ret (incr_skipped results)
         | None => ret (incr_skipped results)
         end
     end)
    (fun _ => ret (incr_failed results)).

Fixpoint process_pending_grants (pendingGrants : list Grant) (results : BulkResults)
  : M BulkResults :=
  match pendingGrants with
  | [] => ret results
  | grant :: rest =>
      results' <- process_pending_grant results grant ;;
      process_pending_grants rest results'
  end.

Definition processPendingDeliveries (user : option AuthUser) : M Response :=
  match user with
  | None => ret (mkResponse 401 (ErrorBody "Authentication required"))
  | Some admin =>
      try_catch
        (pendingGrants <- getPendingGrants env ;;
         results <- process_pending_grants pendingGrants (mkBulkResults 0 0 0 0) ;;
         logActivity env (Some (au_id admin)) "bulk_delivery_processed"
                     [("adminUsername", au_username admin)] ;;;
         ret (mkResponse 200 (BulkDelivery results)))
        (fun _ => ret (mkResponse 500 (ErrorBody "Failed to process pending deliveries")))
  end.

End ServerController.

(** ** Webhook signatures (services/efiService.ts, utils/crypto.ts) *)

Section Signatures.
Context {N : Number}.
Variable env : Env.

(** [efiService.validateWebhookSignature(payload, signature)].  Without a
    configured secret every request is accepted; [Buffer.from(undefined)]
    and buffers of different lengths throw. *)
Definition validateWebhookSignature (payload : string) (signature : option string)
  : Result bool :=
  if negb (truthy_string (efiWebhookSecret env)) then Ok true
  else
    let expectedSignature := hmac_sha256_hex env (efiWebhookSecret env) payload in
    match signature with
    | None => Thrown "TypeError: the first argument must be of type string"
    | Some s =>
        match timingSafeEqual (hex_decode s) (hex_decode expectedSignature) with
        | Some b => Ok b
        | None => Thrown "RangeError: Input buffers must have the same byte length"
        end
    end.

(** [CryptoUtils.hashWebhookPayload] and [CryptoUtils.verifyWebhookSignature]. *)
Definition hashWebhookPayload (payload secret : string) : string :=
  hmac_sha256_hex env secret payload.

Definition verifyWebhookSignature (payload signature secret : string) : Result bool :=
  let expectedSignature := hashWebhookPayload payload secret in
  match timingSafeEqual (utf8_bytes signature) (utf8_bytes expectedSignature) with
  | Some b => Ok b
  | None => Thrown "RangeError: Input buffers must have the same byte length"
  end.

Record EfiWebhookData := mkEfiWebhookData {
  wd_eventType : string;
  wd_paymentId : jstr;
  wd_status : string
}.

Definition jstr_is (v : jstr) (s : string) : bool :=
  match v with Str x => (x =? s)%string | _ => false end.

(** [efiService.parseWebhookData(payload)]. *)
Definition parseWebhookData (payload : EfiEnvelope) : EfiWebhookData :=
  let pix_field (f : EfiPix -> jstr) :=
    match efi_pix0 payload with Some p => f p | None => Undefined end in
  mkEfiWebhookData
    (match efi_evento payload with
     | Str s => if truthy_string s then s else "payment.update"
     | _ => "payment.update"
     end)
    (or_jstr (pix_field pix_txid) (efi_txid payload))
    (if jstr_is (pix_field pix_status) "CONCLUIDA" then "approved"
     else if jstr_is (pix_field pix_status) "REMOVIDA_PELO_USUARIO_RECEBEDOR"
          then "cancelled" else "pending").

End Signatures.

(** ** Fulfillment and the webhook handlers (controllers/webhookController.ts) *)

Section WebhookController.
Context {N : Number}.
Variable env : Env.
Local Open Scope handler_scope.

Definition lift {A} (r : Result A) : M A := fun w => (r, w).

Definition day_ms : Z := 24 * 60 * 60 * 1000.

Definition line_item_grant_data (product : LineItem) : GrantData :=
  mkGrantData (Some (li_productId product)) (Some (li_name product))
              (Some (li_quantity product)) (Some (li_price product))
              (li_data product) None None None.

(** The object handed to [deliverItems] has no [price]. *)
Definition line_item_delivery_data (product : LineItem) : GrantData :=
  mkGrantData (Some (li_productId product)) (Some (li_name product))
              (Some (li_quantity product)) None
              (li_data product) None None None.

(** [JSON.parse(transaction.products || "[]")]; [None] when it throws. *)
Definition parse_products (c : ProductsColumn) : option (list LineItem) :=
  match c with
  | ColNull => Some []
  | ColInvalid _ => None
  | ColJson items => Some items
  end.

(** Body of the first loop of [processApprovedPayment]: the grant of one
    line item and its immediate delivery attempt. *)
Definition create_and_deliver_grant (transactionId : string) (userId : Z) (user : User)
    (product : LineItem) : M Grant :=
  grantId <- generateUUID env ;;
  grant <- createGrant env grantId (Some transactionId) userId (li_type product)
             (Some (line_item_grant_data product)) "pending" None ;;
  (if truthy_ostring (fivemIdentifier user) then
     try_catch
       (deliveryResult <- deliverItems env
            (mkDeliveryData (or_string (fivemIdentifier user) "") (li_type product)
                            (Some (line_item_delivery_data product)) (Some transactionId)) ;;
        if dr_delivered deliveryResult
        then updateGrant env grantId "delivered" ;;; ret tt
        else ret tt)
       (fun _ => ret tt)
   else ret tt) ;;;
  ret grant.

Fixpoint create_grants (transactionId : string) (userId : Z) (user : User)
    (items : list LineItem) (created : list Grant) : M (list Grant) :=
  match items with
  | [] => ret created
  | product :: rest =>
      grant <- create_and_deliver_grant transactionId userId user product ;;
      create_grants transactionId userId user rest (created ++ [grant])
  end.

Definition data_amount (d : option ProductData) : option Z :=
  match d with Some x => pd_amount x | None => None end.
Definition data_level (d : option ProductData) : option string :=
  match d with Some x => pd_level x | None => None end.
Definition data_duration (d : option ProductData) : option Z :=
  match d with Some x => pd_duration x | None => None end.

(** Body of the second loop, in its three parts.  [user] is the row read
    before the loops, so [user.coins] is the balance at that time. *)
Definition credit_coins (userId : Z) (user : User) (product : LineItem) : M unit :=
  if (li_type product =? "coins")%string then
    let coinAmount := or_int (data_amount (li_data product)) (li_quantity product * 100) in
    updateUser env userId (mkUserUpdate (Some (coins user + coinAmount)) None None) ;;;
    ret tt
  else ret tt.

Definition activate_vip (userId : Z) (user : User) (product : LineItem) : M unit :=
  if (li_type product =? "vip")%string then
    let vipLevel := or_string (data_level (li_data product)) "bronze" in
    let vipDuration := or_int (data_duration (li_data product)) 30 in
    now <- Date_now ;;
    let vipExpires := now + vipDuration * day_ms in
    updateUser env userId (mkUserUpdate None (Some vipLevel) (Some vipExpires)) ;;;
    sendEmail (VipActivation (email user) vipLevel vipExpires)
  else ret tt.

(** [product.stock !== -1] holds for a snapshot without a [stock] field. *)
Definition update_stock (product : LineItem) : M unit :=
  if match li_stock product with Some (-1) => false | _ => true end then
    currentProduct <- getProduct env (li_productId product) ;;
    match currentProduct with
    | Some p =>
        if 0 <? prod_stock p
        then updateProduct env (li_productId product)
               (mkProductUpdate None (Some (Z.max 0 (prod_stock p - li_quantity product)))) ;;;
             ret tt
        else ret tt
    | None => ret tt
    end
  else ret tt.

Definition handle_special_product (userId : Z) (user : User) (product : LineItem)
  : M unit :=
  credit_coins userId user product ;;;
  activate_vip userId user product ;;;
  update_stock product.

Fixpoint handle_special_products (userId : Z) (user : User) (items : list LineItem)
  : M unit :=
  match items with
  | [] => ret tt
  | product :: rest =>
      handle_special_product userId user product ;;;
      handle_special_products userId user rest
  end.

(** The [try] block of [processApprovedPayment]. *)
Definition fulfill (transactionId : string) (userId : Z) : M unit :=
  transaction <- getTransaction env transactionId ;;
  user <- getUser env userId ;;
  match transaction, user with
  | Some transaction, Some user =>
      match parse_products (tx_products transaction) with
      | None => ret tt
      | Some items =>
          created <- create_grants transactionId userId user items [] ;;
          handle_special_products userId user items ;;;
          sendEmail (PurchaseConfirmation (email user) transactionId
                       (map (fun p => (li_name p, li_quantity p)) items)) ;;;
          logActivity env (Some userId) "payment_processed"
                      [("transactionId", transactionId)]
      end
  | _, _ => ret tt
  end.

(** [processApprovedPayment]: any error of the [try] block marks the
    transaction as failed. *)
Definition processApprovedPayment (transactionId : string) (userId : Z) : M unit :=
  try_catch (fulfill transactionId userId)
            (fun _ => updateTransaction env transactionId (status_only "failed") ;;; ret tt).

Definition processFailedPayment (transactionId : string) (userId : Z) (status : string)
  : M unit :=
  try_catch
    (logActivity env (Some userId) "payment_failed"
       [("transactionId", transactionId); ("status", status);
        ("reason", if (status =? "cancelled")%string
                   then "Payment cancelled by user" else "Payment failed")])
    (fun _ => ret tt).

(** "Process based on status", shared by both payment webhooks. *)
Definition process_by_status (transactionId : string) (userId : Z)
    (oldStatus newStatus : string) : M unit :=
  if (newStatus =? "approved")%string && negb (oldStatus =? "approved")%string
  then processApprovedPayment transactionId userId
  else if (newStatus =? "cancelled")%string || (newStatus =? "failed")%string
  then processFailedPayment transactionId userId newStatus
  else ret tt.

Record WebhookRequest := mkWebhookRequest {
  req_signature : option string;
  req_payload : string
}.

(** The [try] block of [handleEfiBankWebhook]. *)
Definition efibank_process (req : WebhookRequest) : M Response :=
  webhookData <-
    match JSON_parse_efi env (req_payload req) with
    | ParseError => throw "SyntaxError"
    | ParsedNull => throw "TypeError: Cannot read properties of null (reading 'evento')"
    | ParsedObject payload => ret (parseWebhookData payload)
    end ;;
  transactions <- getAllTransactions env 1000 0 ;;
  match find (fun t => strict_eq_column (tx_paymentId t) (wd_paymentId webhookData))
             transactions with
  | None => ret (mkResponse 404 (ErrorBody "Transaction not found"))
  | Some transaction =>
      updateTransaction env (tx_id transaction) (status_only (wd_status webhookData)) ;;;
      logActivity env (Some (tx_userId transaction)) "webhook_received"
        [("type", "efibank"); ("transactionId", tx_id transaction);
         ("oldStatus", tx_status transaction); ("newStatus", wd_status webhookData)] ;;;
      process_by_status (tx_id transaction) (tx_userId transaction)
                        (tx_status transaction) (wd_status webhookData) ;;;
      ret (mkResponse 200 (WebhookProcessed (tx_id transaction)))
  end.

Definition handleEfiBankWebhook (req : WebhookRequest) : M Response :=
  valid <- lift (validateWebhookSignature env (req_payload req) (req_signature req)) ;;
  if negb valid
  then ret (mkResponse 401 (ErrorBody "Invalid signature"))
  else try_catch (efibank_process req)
                 (fun _ => ret (mkResponse 500 (ErrorBody "Webhook processing failed"))).

(** The [try] block of [handleGenericPaymentWebhook]. *)
Definition generic_process (req : WebhookRequest) : M Response :=
  webhookData <-
    match JSON_parse_generic env (req_payload req) with
    | ParseError => throw "SyntaxError"
    | ParsedNull => throw "TypeError: Cannot destructure property 'transactionId' of null"
    | ParsedObject payload => ret payload
    end ;;
  match gen_transactionId webhookData, gen_status webhookData with
  | Str transactionId, Str status =>
      if truthy_string transactionId && truthy_string status then
        transaction <- getTransaction env transactionId ;;
        match transaction with
        | None => ret (mkResponse 404 (ErrorBody "Transaction not found"))
        | Some transaction =>
            let updateData :=
              mkTransactionUpdate (Some status)
                (match gen_paymentId webhookData with
                 | Str p => if truthy_string p then Some p else None
                 | _ => None
                 end) None None in
            updateTransaction env transactionId updateData ;;;
            logActivity env (Some (tx_userId transaction)) "webhook_received"
              [("type", "generic"); ("transactionId", transactionId);
               ("oldStatus", tx_status transaction); ("newStatus", status)] ;;;
            process_by_status transactionId (tx_userId transaction)
                              (tx_status transaction) status ;;;
            ret (mkResponse 200 (WebhookProcessed transactionId))
        end
      else ret (mkResponse 400 (ErrorBody "Missing required webhook data"))
  | _, _ => ret (mkResponse 400 (ErrorBody "Missing required webhook data"))
  end.

Definition handleGenericPaymentWebhook (req : WebhookRequest) : M Response :=
  let verification :=
    match WEBHOOK_SECRET env, req_signature req with
    | Some webhookSecret, Some signature =>
        if truthy_string webhookSecret && truthy_string signature
        then valid <- lift (verifyWebhookSignature env (req_payload req) signature
                                                   webhookSecret) ;;
             ret (negb valid)
        else ret false
    | _, _ => ret false
    end in
  rejected <- verification ;;
  if rejected : bool
  then ret (mkResponse 401 (ErrorBody "Invalid signature"))
  else try_catch (generic_process req)
                 (fun _ => ret (mkResponse 500 (ErrorBody "Webhook processing failed"))).

End WebhookController.

(** ** Administrator grants (controllers/adminController.ts) *)

Section AdminController.
Context {N : Number}.
Variable env : Env.
Local Open Scope handler_scope.

Definition grantItemsToUser (admin : option AuthUser) (userId : Z) (grantType : string)
    (grantData : option GrantData) : M Response :=
  match admin with
  | None => ret (mkResponse 401 (ErrorBody "Authentication required"))
  | Some admin =>
      user <- getUser env userId ;;
      match user with
      | None => ret (mkResponse 404 (ErrorBody "User not found"))
      | Some user =>
          grantId <- generateUUID env ;;
          createGrant env grantId None userId grantType grantData "pending"
                      (Some (au_id admin)) ;;;
          delivered <-
            (if truthy_ostring (fivemIdentifier user) then
               try_catch
                 (deliveryResult <- deliverItems env
                      (mkDeliveryData (or_string (fivemIdentifier user) "") grantType
                                      grantData None) ;;
                  if dr_delivered deliveryResult
                  then updateGrant env grantId "delivered" ;;; ret true
                  else ret false)
                 (fun _ => ret false)
             else ret false) ;;
          delivered <-
            (if (grantType =? "coins")%string then
               match grantData with
               | None => throw "TypeError: Cannot read properties of undefined (reading 'amount')"
               | Some d =>
                   let coinAmount := or_int (gd_amount d) 0 in
                   updateUser env userId
                     (mkUserUpdate (Some (coins user + coinAmount)) None None) ;;;
                   ret true
               end
             else ret delivered) ;;
          delivered <-
            (if (grantType =? "vip")%string then
               match grantData with
               | None => throw "TypeError: Cannot read properties of undefined (reading 'level')"
               | Some d =>
                   let vipLevel := or_string (gd_level d) "bronze" in
                   let vipDuration := or_int (gd_duration d) 30 in
                   now <- Date_now ;;
                   let vipExpires := now + vipDuration * day_ms in
                   updateUser env userId
                     (mkUserUpdate None (Some vipLevel) (Some vipExpires)) ;;;
                   sendEmail (VipActivation (email user) vipLevel vipExpires) ;;;
                   ret true
               end
             else ret delivered) ;;
          logActivity env (Some (au_id admin)) "admin_grant_created"
                      [("grantId", grantId); ("grantType", grantType)] ;;;
          ret (mkResponse 200 (GrantCreated grantId delivered))
      end
  end.

End AdminController.

(** ** Checkout (controllers/paymentController.ts) *)

Section PaymentController.
Context {N : Number}.
Variable env : Env.
Local Open Scope handler_scope.

Record CartRequestItem := mkCartRequestItem {
  item_productId : Z;
  item_quantity : Z
}.

Definition line_item_of (product : Product) (quantity : Z) : LineItem :=
  mkLineItem (prod_id product) (prod_code product) (prod_name product)
             (prod_price product) quantity (num_times (prod_price product) quantity)
             (prod_type product) (prod_data product) None.

(** The validation loop of [createPayment]: an early response, or the cart
    snapshot and its total. *)
Fixpoint validate_items (items : list CartRequestItem) (cartProducts : list LineItem)
    (totalAmount : num) : M (Response + list LineItem * num) :=
  match items with
  | [] => ret (inr (cartProducts, totalAmount))
  | item :: rest =>
      product <- getProduct env (item_productId item) ;;
      match product with
      | None => ret (inl (mkResponse 404 (ErrorBody "Product not found")))
      | Some product =>
          if negb (prod_active product)
          then ret (inl (mkResponse 400 (ErrorBody "Product is not available")))
          else if negb (prod_stock product =? -1) && (prod_stock product <? item_quantity item)
          then ret (inl (mkResponse 400 (ErrorBody "Insufficient stock")))
          else
            let itemTotal := num_times (prod_price product) (item_quantity item) in
            validate_items rest
              (cartProducts ++ [line_item_of product (item_quantity item)])
              (num_add totalAmount itemTotal)
      end
  end.

Definition clearCart (userId : Z) : M bool := db env (CClearCart userId) (ret true).

(** [createPayment].  The 201 response is written before the cart is
    cleared, so a failure of [clearCart] still marks the transaction as failed
    but no longer changes the response. *)
Definition createPayment (user : option AuthUser) (items : list CartRequestItem)
    (paymentMethod : string) : M Response :=
  match user with
  | None => ret (mkResponse 401 (ErrorBody "Authentication required"))
  | Some user =>
      validated <- validate_items items [] num_zero ;;
      match validated with
      | inl response => ret response
      | inr (cartProducts, totalAmount) =>
          if num_le_zero totalAmount
          then ret (mkResponse 400 (ErrorBody "Invalid payment amount"))
          else
            transactionId <- generateUUID env ;;
            now <- Date_now ;;
            createTransaction env transactionId (au_id user) totalAmount "BRL" "pending"
                              paymentMethod (ColJson cartProducts)
                              (Some (now + 15 * 60 * 1000)) ;;;
            sent <- try_catch
                      (match createPixPayment env transactionId totalAmount with
                       | None => throw "Failed to create PIX payment"
                       | Some pixPayment =>
                           updateTransaction env transactionId
                             (mkTransactionUpdate None (Some (pix_paymentId pixPayment))
                                (Some (pix_qrCode pixPayment))
                                (Some (pix_expiresAt pixPayment))) ;;;
                           logActivity env (Some (au_id user)) "payment_created"
                                       [("transactionId", transactionId)] ;;;
                           ret true
                       end)
                      (fun _ => ret false) ;;
            if sent : bool then
              let created := mkResponse 201 (PaymentCreated transactionId totalAmount
                                                            cartProducts) in
              try_catch (clearCart (au_id user) ;;; ret created)
                        (fun _ => updateTransaction env transactionId (status_only "failed") ;;;
                                  ret created)
            else
              updateTransaction env transactionId (status_only "failed") ;;;
              ret (mkResponse 500 (ErrorBody "Failed to create payment"))
      end
  end.

(** The sum of the subtotals of a snapshot, accumulated left to right
    from zero. *)
Definition sum_subtotals (items : list LineItem) : num :=
  fold_left (fun acc li => num_add acc (li_subtotal li)) items num_zero.

End PaymentController.

(** ** Vocabulary of the statements *)

Section Vocabulary.
Context {N : Number}.
Variable env : Env.

(** [m] never changes the part [proj] of the store, whether it returns or
    throws. *)
Definition keeps {T A : Type} (proj : World -> T) (m : M A) : Prop :=
  forall w, proj (snd (m w)) = proj w.

(** The result of the [k]-th call of [deliverItems] ever made, for [data]. *)
Definition attempt_result (k : nat) (data : GrantDeliveryData) : DeliveryResult :=
  delivery_result (makeRequest_deliver env k data).

(** The game identity a grant can be delivered to, if its user has one. *)
Definition linked_identity (us : list User) (g : Grant) : option string :=
  match find_user (grant_userId g) us with
  | Some u => match fivemIdentifier u with
              | Some i => if truthy_string i then Some i else None
              | None => None
              end
  | None => None
  end.

Definition unlinked (us : list User) (g : Grant) : bool :=
  match linked_identity us g with Some _ => false | None => true end.

(** The delivery requests a pass over [l] issues when no lookup fails. *)
Definition attempts_for (us : list User) (l : list Grant) : list GrantDeliveryData :=
  flat_map (fun g => match linked_identity us g with
                     | Some i => [delivery_of_grant i g]
                     | None => []
                     end) l.

Definition count_unlinked (us : list User) (l : list Grant) : nat :=
  List.length (filter (unlinked us) l).

(** The transaction an EfiBank webhook resolves to: the first of the 1000
    most recent transactions whose payment id is the webhook's. *)
Definition resolved_transaction (w : World) (data : EfiWebhookData) : option Transaction :=
  find (fun t => strict_eq_column (tx_paymentId t) (wd_paymentId data))
       (firstn 1000 (skipn 0 (order_by_desc tx_createdAt (transactions w)))).

(** No storage call throws: the database does not fail and every user a
    row refers to exists. *)
Definition no_faults : Prop := forall n c, fault env n c = false.

Definition stored_status (w : World) (id : string) : option string :=
  option_map tx_status (find_transaction id (transactions w)).

(** The signature of a request is the HMAC of its payload under the
    configured secret, as [timingSafeEqual] compares them. *)
Definition signature_matches (payload : string) (signature : option string) : Prop :=
  exists s, signature = Some s /\
            hex_decode s = hex_decode (hmac_sha256_hex env (efiWebhookSecret env) payload).

(** Only the update of a grant may fail in the database. *)
Definition only_updateGrant_faults : Prop :=
  forall n c, (forall id, c <> CUpdateGrant id) -> fault env n c = false.

(** UUIDs do not repeat and those still to be drawn are not grant ids yet. *)
Definition uuids_fresh (w : World) : Prop :=
  (forall j k, uuids env j = uuids env k -> j = k) /\
  (forall k, (uuidCount w <= k)%nat -> find_grant (uuids env k) (grants w) = None).

(** The grant a line item of transaction [tid] gives rise to. *)
Definition grant_of_item (tid : string) (uid : Z) (li : LineItem) (g : Grant) : Prop :=
  grant_transactionId g = Some tid /\ grant_userId g = uid /\
  grant_type g = li_type li /\ grant_data g = Some (line_item_grant_data li) /\
  (grant_status g = "pending" \/ grant_status g = "delivered").

(** A line item of the snapshot is priced from the catalog as it is at
    checkout. *)
Definition priced_from (catalog : list Product) (item : CartRequestItem) (li : LineItem)
  : Prop :=
  exists p, find_product (item_productId item) catalog = Some p /\
            li_productId li = prod_id p /\
            li_price li = prod_price p /\
            li_quantity li = item_quantity item /\
            li_subtotal li = num_times (li_price li) (li_quantity li).

(** An update of the transactions that keeps the id, the amount and the
    snapshot of every row. *)
Definition preserves_row (g : Transaction -> Transaction) : Prop :=
  forall t, tx_id (g t) = tx_id t /\ tx_amount (g t) = tx_amount t /\
            tx_products (g t) = tx_products t.

End Vocabulary.

(** ** A concrete store and environment

    Amounts in integer cents, a game server that refuses the first two
    connections and then delivers, and one customer with a two-line order. *)

Module Demo.

#[export] Instance cents : Number := {|
  num := Z;
  num_zero := 0;
  num_add := Z.add;
  num_times := Z.mul;
  num_le_zero := fun n => n <=? 0
|}.

(** The n-th UUID is "g" followed by n times "u". *)
Fixpoint unary (n : nat) : string :=
  match n with
  | O => EmptyString
  | S k => String "u" (unary k)
  end.
Definition uuid (n : nat) : string := String "g" (unary n).

Definition never : nat -> StorageCall -> bool := fun _ _ => false.


Definition refused : AxiosFailure :=
  mkAxiosFailure true "ECONNREFUSED" None "connect ECONNREFUSED".

Definition delivered_reply : DeliverResponse :=
  mkDeliverResponse true (Some "ok") (Some true).
Definition offline_reply : DeliverResponse :=
  mkDeliverResponse false None (Some false).

(** Fails twice, then delivers. *)
Definition flaky_server (n : nat) (_ : GrantDeliveryData) : AxiosOutcome :=
  if (n <? 2)%nat then AxiosError refused else AxiosData (Some delivered_reply).

Definition approved_body : string := "pix CONCLUIDA pay-1".
Definition cancelled_body : string := "pix REMOVIDA pay-1".
Definition generic_body : string := "tx-1 cancelled".

Definition parse_efi (s : string) : Parsed EfiEnvelope :=
  if (s =? approved_body)%string
  then ParsedObject (mkEfiEnvelope (Str "pix") Undefined
                       (Some (mkEfiPix (Str "pay-1") (Str "CONCLUIDA"))))
  else if (s =? cancelled_body)%string
  then ParsedObject (mkEfiEnvelope (Str "pix") Undefined
                       (Some (mkEfiPix (Str "pay-1")
                                (Str "REMOVIDA_PELO_USUARIO_RECEBEDOR"))))
  else ParseError.

Definition parse_generic (s : string) : Parsed GenericEnvelope :=
  if (s =? generic_body)%string
  then ParsedObject (mkGenericEnvelope (Str "tx-1") (Str "cancelled") Undefined)
  else ParseError.

(** A stand-in digest of the size of an HMAC-SHA256: every payload hashes
    to the same 32 bytes, written as 64 hexadecimal digits. *)
Definition good_signature : string :=
  "00ff00ff00ff00ff00ff00ff00ff00ff00ff00ff00ff00ff00ff00ff00ff00ff".
Definition digest (key payload : string) : string := good_signature.

(** The same digest in upper case, and 32 other bytes. *)
Definition shouted_signature : string :=
  "00FF00FF00FF00FF00FF00FF00FF00FF00FF00FF00FF00FF00FF00FF00FF00FF".
Definition forged_signature : string :=
  "deadbeefdeadbeefdeadbeefdeadbeefdeadbeefdeadbeefdeadbeefdeadbeef".

Definition env_with (faults : nat -> StorageCall -> bool) (efiSecret : string)
    (genericSecret : option string) : Env :=
  mkEnv uuid faults "token" flaky_server (fun _ => true) efiSecret genericSecret
        digest parse_efi parse_generic
        (fun id amount => Some (mkPixPayment "pay-new" "qr" 900000)).

Definition env : Env := env_with never "s3cret" None.
Definition env_no_secret : Env := env_with never "" None.
Definition env_generic_secret : Env := env_with never "s3cret" (Some "k3y").

Definition now : Z := 1000000.
Definition ten_days : Z := 10 * (24 * 60 * 60 * 1000).

(** Alice is linked to a game character and has ten days of VIP left. *)
Definition alice : User :=
  mkUser 1 "alice" "alice@example.org" (Some "steam:110000103fa1337") 10 "silver"
         (Some (now + ten_days)) 0.
Definition bob : User :=
  mkUser 2 "bob" "bob@example.org" None 0 "none" None 0.
Definition carol : User :=
  mkUser 3 "carol" "carol@example.org" (Some "") 0 "none" None 0.
(** The administrator's own account. *)
Definition root : User :=
  mkUser 9 "root" "root@example.org" None 0 "none" None 0.

Definition coin_pack : Product :=
  mkProduct 1 "coins-100" "100 coins" 500 "coins"
            (Some (mkProductData (Some 100) None None)) true (-1).
Definition vip_gold : Product :=
  mkProduct 2 "vip-gold" "VIP gold" 1500 "vip"
            (Some (mkProductData None (Some "gold") (Some 30))) true 5.

Definition order : list LineItem :=
  [line_item_of coin_pack 1; line_item_of vip_gold 1].

Definition tx (status : string) : Transaction :=
  mkTransaction "tx-1" 1 (Some "pay-1") 2000 "BRL" status "pix" None None
                (ColJson order) 0 0.

Definition store (status : string) : World :=
  mkWorld [alice; bob; carol; root] [coin_pack; vip_gold] [tx status] [] [] [] [] [] now 0 0.

Definition empty_ledger : World :=
  mkWorld [alice; bob; carol; root] [coin_pack; vip_gold] [] [] [] [] [] [] now 0 0.

Definition pending_grant (id : string) (userId : Z) (at_ : Z) : Grant :=
  mkGrant id None userId "item" None "pending" None at_.

(** Five pending grants; Bob has no identity and Carol an empty one. *)
Definition backlog : World :=
  mkWorld [alice; bob; carol; root] [coin_pack; vip_gold] []
          [pending_grant "g1" 1 1; pending_grant "g2" 2 2; pending_grant "g3" 1 3;
           pending_grant "g4" 3 4; pending_grant "g5" 1 5;
           mkGrant "g6" None 1 "item" None "delivered" None 6]
          [] [] [] [] now 0 0.

Definition admin : AuthUser := mkAuthUser 9 "root" "root@example.org" "admin".
Definition customer : AuthUser := mkAuthUser 1 "alice" "alice@example.org" "user".

Definition approved_webhook (signature : string) : WebhookRequest :=
  mkWebhookRequest (Some signature) approved_body.
Definition cancelled_webhook (signature : string) : WebhookRequest :=
  mkWebhookRequest (Some signature) cancelled_body.

Definition sword : GrantDeliveryData :=
  mkDeliveryData "steam:110000103fa1337" "item" None None.

End Demo.

(** * Further handlers of the same files *)

(** ** Identifiers (services/fivemService.ts) *)

(** [identifier.split(":")[0]]: the text before the first colon. *)
Fixpoint prefix_before_colon (s : string) : string :=
  match s with
  | EmptyString => EmptyString
  | String c rest => if (c =? ":")%char then EmptyString
                     else String c (prefix_before_colon rest)
  end.

(** [identifier.includes(":")]. *)
Fixpoint includes_colon (s : string) : bool :=
  match s with
  | EmptyString => false
  | String c rest => (c =? ":")%char || includes_colon rest
  end.

Definition validPrefixes : list string :=
  ["steam"; "license"; "discord"; "fivem"; "live"; "xbl"].

Definition validateIdentifier (identifier : string) : bool :=
  existsb (String.eqb (prefix_before_colon identifier)) validPrefixes.

Definition formatIdentifier (identifier : string) : string :=
  if negb (includes_colon identifier) then ("steam:" ++ identifier)%string
  else identifier.

(** ** Replies of the further handlers *)

Inductive Payload :=
| Failure (error : string)
| Delivery (grantId : string) (isDelivered : bool) (retryAfter : option Z)
| DeliveryConfirmed (grantId : string)
| PaymentStatus (transactionId : string) (paymentStatus : string)
| PaymentCancelled (transactionId : string)
| CoinsUpdated (balance : Z)
| ManualGrant (grantId : string) (deliveredImmediately : bool).

Record Reply := mkReply {
  reply_status : Z;
  reply_body : Payload
}.

(** ** Listing the users (storage.ts) *)

Section StorageUsers.
Context {N : Number}.
Variable env : Env.

(** [getAllUsers(limit, offset)]: no ORDER BY, the rows in table order. *)
Definition getAllUsers (limit offset : nat) : M (list User) :=
  db env CGetAllUsers (gets (fun w => firstn limit (skipn offset (users w)))).

End StorageUsers.

(** ** Manual delivery (controllers/serverController.ts) *)

Module serverController.
Section ServerHandlers.
Context {N : Number}.
Variable env : Env.
Local Open Scope handler_scope.

(** [u.fivemIdentifier === userIdentifier]. *)
Definition has_identity (userIdentifier : string) (u : User) : bool :=
  match fivemIdentifier u with
  | Some i => (i =? userIdentifier)%string
  | None => false
  end.

(** The [try] block of [deliverItems]. *)
Definition deliver_process (admin : AuthUser) (userIdentifier grantType : string)
    (grantData : option GrantData) (transactionId : option string) : M Reply :=
  grantId <- generateUUID env ;;
  users <- getAllUsers env 1000 0 ;;
  match find (has_identity userIdentifier) users with
  | None => ret (mkReply 404 (Failure "User not found"))
  | Some user =>
      createGrant env grantId (or_undefined transactionId) (user_id user) grantType
                  grantData "pending" (Some (au_id admin)) ;;;
      deliveryResult <- deliverItemsWithRetry env
                          (mkDeliveryData userIdentifier grantType grantData transactionId) ;;
      match deliveryResult with
      | None => throw "TypeError: Cannot read properties of undefined (reading 'delivered')"
      | Some deliveryResult =>
          updateGrant env grantId
            (if dr_delivered deliveryResult then "delivered" else "failed") ;;;
          logActivity env (Some (au_id admin)) "manual_delivery"
                      [("grantId", grantId); ("targetIdentifier", userIdentifier)] ;;;
          ret (mkReply 200 (Delivery grantId (dr_delivered deliveryResult)
                                     (dr_retryAfter deliveryResult)))
      end
  end.

Definition deliverItems (user : option AuthUser) (userIdentifier grantType : string)
    (grantData : option GrantData) (transactionId : option string) : M Reply :=
  match user with
  | None => ret (mkReply 401 (Failure "Authentication required"))
  | Some admin =>
      if negb (validateIdentifier userIdentifier)
      then ret (mkReply 400 (Failure "Invalid FiveM identifier format"))
      else try_catch
             (deliver_process admin userIdentifier grantType grantData transactionId)
             (fun _ => ret (mkReply 500 (Failure "Failed to deliver items")))
  end.

End ServerHandlers.
End serverController.

(** ** Delivery confirmations (controllers/webhookController.ts) *)

(** The parsed envelope [{ grantId, status, identifier }]. *)
Record DeliveryEnvelope := mkDeliveryEnvelope {
  conf_grantId : jstr;
  conf_status : jstr;
  conf_identifier : jstr
}.

Module webhookController.
Section DeliveryHandlers.
Context {N : Number}.
Variable env : Env.
(** [process.env.FIVEM_WEBHOOK_SECRET] and [JSON.parse] of the body. *)
Variable FIVEM_WEBHOOK_SECRET : option string.
Variable JSON_parse_delivery : string -> Parsed DeliveryEnvelope.
Local Open Scope handler_scope.

(** The mail sent for a grant confirmed as delivered. *)
Definition delivery_mail (user : User) (data : GrantData) : Email :=
  DeliveryNotification (email user) (or_string (gd_productName data) "Unknown Item")
                       (or_int (gd_quantity data) 1).

(** The [try] block of [handleDeliveryConfirmation]. *)
Definition confirmation_process (req : WebhookRequest) : M Reply :=
  deliveryData <-
    match JSON_parse_delivery (req_payload req) with
    | ParseError => throw "SyntaxError"
    | ParsedNull => throw "TypeError: Cannot destructure property 'grantId' of null"
    | ParsedObject payload => ret payload
    end ;;
  match conf_grantId deliveryData, conf_status deliveryData,
        conf_identifier deliveryData with
  | Str grantId, Str status, Str identifier =>
      if truthy_string grantId && truthy_string status && truthy_string identifier then
        grant <- getGrant env grantId ;;
        match grant with
        | None => ret (mkReply 404 (Failure "Grant not found"))
        | Some grant =>
            updateGrant env grantId status ;;;
            logActivity env (Some (grant_userId grant)) "item_delivered"
                        [("grantId", grantId); ("status", status);
                         ("identifier", identifier)] ;;;
            (if (status =? "delivered")%string then
               user <- getUser env (grant_userId grant) ;;
               match user, grant_data grant with
               | Some user, Some data => sendEmail (delivery_mail user data)
               | _, _ => ret tt
               end
             else ret tt) ;;;
            ret (mkReply 200 (DeliveryConfirmed grantId))
        end
      else ret (mkReply 400 (Failure "Missing required delivery data"))
  | _, _, _ => ret (mkReply 400 (Failure "Missing required delivery data"))
  end.

Definition handleDeliveryConfirmation (req : WebhookRequest) : M Reply :=
  let verification :=
    match FIVEM_WEBHOOK_SECRET, req_signature req with
    | Some fivemSecret, Some signature =>
        if truthy_string fivemSecret && truthy_string signature
        then valid <- lift (verifyWebhookSignature env (req_payload req) signature
                                                   fivemSecret) ;;
             ret (negb valid)
        else ret false
    | _, _ => ret false
    end in
  rejected <- verification ;;
  if rejected : bool
  then ret (mkReply 401 (Failure "Invalid signature"))
  else try_catch (confirmation_process req)
                 (fun _ => ret (mkReply 500 (Failure "Webhook processing failed"))).

End DeliveryHandlers.
End webhookController.

(** ** Polling and cancelling a payment (controllers/paymentController.ts) *)

Module paymentController.
Section PaymentHandlers.
Context {N : Number}.
Variable env : Env.
(** [efiService.getPaymentStatus(paymentId)]: the provider's status, [None]
    when the call throws. *)
Variable efi_getPaymentStatus : string -> option string.
Local Open Scope handler_scope.

(** The loop of the controller's own [processApprovedPayment]: one pending
    grant per line item, nothing else. *)
Fixpoint record_grants (transactionId : string) (userId : Z) (items : list LineItem)
  : M unit :=
  match items with
  | [] => ret tt
  | product :: rest =>
      grantId <- generateUUID env ;;
      createGrant env grantId (Some transactionId) userId (li_type product)
                  (Some (line_item_delivery_data product)) "pending" None ;;;
      record_grants transactionId userId rest
  end.

(** [processApprovedPayment(transactionId)] of this controller, the backup
    of the webhook: every error is caught and logged. *)
Definition processApprovedPayment (transactionId : string) : M unit :=
  try_catch
    (transaction <- getTransaction env transactionId ;;
     match transaction with
     | None => ret tt
     | Some transaction =>
         user <- getUser env (tx_userId transaction) ;;
         match user with
         | None => ret tt
         | Some user =>
             match parse_products (tx_products transaction) with
             | None => ret tt
             | Some items =>
                 record_grants transactionId (tx_userId transaction) items ;;;
                 sendEmail (PurchaseConfirmation (email user) transactionId
                              (map (fun p => (li_name p, li_quantity p)) items))
             end
         end
     end)
    (fun _ => ret tt).

(** [transaction.userId !== req.user.id && !["admin", "super_admin"].includes(role)]. *)
Definition access_denied (user : AuthUser) (transaction : Transaction) : bool :=
  negb (tx_userId transaction =? au_id user)
  && negb (existsb (String.eqb (au_role user)) ["admin"; "super_admin"]).

(** The [try] block of [getPaymentStatus]: the status to report. *)
Definition reconcile (transactionId : string) (transaction : Transaction) : M string :=
  if (tx_status transaction =? "pending")%string && truthy_ostring (tx_paymentId transaction)
  then
    match efi_getPaymentStatus (or_string (tx_paymentId transaction) "") with
    | None => throw "Failed to get payment status"
    | Some paymentStatus =>
        if negb (paymentStatus =? tx_status transaction)%string then
          updateTransaction env transactionId (status_only paymentStatus) ;;;
          (if (paymentStatus =? "approved")%string
           then processApprovedPayment transactionId else ret tt) ;;;
          ret paymentStatus
        else ret (tx_status transaction)
    end
  else ret (tx_status transaction).

Definition getPaymentStatus (user : option AuthUser) (transactionId : string) : M Reply :=
  match user with
  | None => ret (mkReply 401 (Failure "Authentication required"))
  | Some user =>
      transaction <- getTransaction env transactionId ;;
      match transaction with
      | None => ret (mkReply 404 (Failure "Payment not found"))
      | Some transaction =>
          if access_denied user transaction
          then ret (mkReply 403 (Failure "Access denied"))
          else
            reported <- try_catch (reconcile transactionId transaction)
                                  (fun _ => ret (tx_status transaction)) ;;
            ret (mkReply 200 (PaymentStatus (tx_id transaction) reported))
      end
  end.

(** [cancelPayment].  [efiService.cancelPayment] catches its own errors and
    changes nothing here. *)
Definition cancelPayment (user : option AuthUser) (transactionId : string) : M Reply :=
  match user with
  | None => ret (mkReply 401 (Failure "Authentication required"))
  | Some user =>
      transaction <- getTransaction env transactionId ;;
      match transaction with
      | None => ret (mkReply 404 (Failure "Payment not found"))
      | Some transaction =>
          if access_denied user transaction
          then ret (mkReply 403 (Failure "Access denied"))
          else if negb (tx_status transaction =? "pending")%string
          then ret (mkReply 400 (Failure "Payment cannot be cancelled"))
          else try_catch
                 (updateTransaction env transactionId (status_only "cancelled") ;;;
                  logActivity env (Some (au_id user)) "payment_cancelled"
                              [("transactionId", transactionId)] ;;;
                  ret (mkReply 200 (PaymentCancelled transactionId)))
                 (fun _ => ret (mkReply 500 (Failure "Failed to cancel payment")))
      end
  end.

End PaymentHandlers.
End paymentController.

(** ** The balance endpoint (controllers/userController.ts) *)

Module userController.
Section UserHandlers.
Context {N : Number}.
Variable env : Env.
Local Open Scope handler_scope.

(** [updateCoins]: [amount] and [operation] come from the body,
    [operation] is "add" when absent. *)
Definition updateCoins (user : option AuthUser) (amount : option Z)
    (operation : option string) : M Reply :=
  match user with
  | None => ret (mkReply 401 (Failure "Not authenticated"))
  | Some requester =>
      let operation := match operation with Some o => o | None => "add" end in
      match amount with
      | None => ret (mkReply 400 (Failure "Invalid amount"))
      | Some amount =>
          if (amount =? 0) || (amount <=? 0)
          then ret (mkReply 400 (Failure "Invalid amount"))
          else
            user <- getUser env (au_id requester) ;;
            match user with
            | None => ret (mkReply 404 (Failure "User not found"))
            | Some user =>
                let finish newCoins :=
                  updateUser env (au_id requester)
                             (mkUserUpdate (Some newCoins) None None) ;;;
                  logActivity env (Some (au_id requester)) "coins_updated"
                              [("operation", operation)] ;;;
                  ret (mkReply 200 (CoinsUpdated newCoins)) in
                if (operation =? "add")%string
                then finish (coins user + amount)
                else if (operation =? "subtract")%string
                then finish (Z.max 0 (coins user - amount))
                else ret (mkReply 400 (Failure "Invalid operation. Use 'add' or 'subtract'"))
            end
      end
  end.

End UserHandlers.
End userController.

(** ** Manual grants (controllers/adminController.ts) *)

Module adminController.
Section AdminHandlers.
Context {N : Number}.
Variable env : Env.
Local Open Scope handler_scope.

(** [manualGrant]: like [grantItemsToUser] with the user id in the body and
    without the VIP branch. *)
Definition manualGrant (admin : option AuthUser) (userId : Z) (grantType : string)
    (grantData : option GrantData) : M Reply :=
  match admin with
  | None => ret (mkReply 401 (Failure "Authentication required"))
  | Some admin =>
      user <- getUser env userId ;;
      match user with
      | None => ret (mkReply 404 (Failure "User not found"))
      | Some user =>
          grantId <- generateUUID env ;;
          createGrant env grantId None userId grantType grantData "pending"
                      (Some (au_id admin)) ;;;
          delivered <-
            (if truthy_ostring (fivemIdentifier user) then
               try_catch
                 (deliveryResult <- deliverItems env
                      (mkDeliveryData (or_string (fivemIdentifier user) "") grantType
                                      grantData None) ;;
                  if dr_delivered deliveryResult
                  then updateGrant env grantId "delivered" ;;; ret true
                  else ret false)
                 (fun _ => ret false)
             else ret false) ;;
          delivered <-
            (if (grantType =? "coins")%string then
               match grantData with
               | None => throw "TypeError: Cannot read properties of undefined (reading 'amount')"
               | Some d =>
                   let coinAmount := or_int (gd_amount d) 0 in
                   updateUser env userId
                     (mkUserUpdate (Some (coins user + coinAmount)) None None) ;;;
                   ret true
               end
             else ret delivered) ;;
          logActivity env (Some (au_id admin)) "manual_grant_created"
                      [("grantId", grantId); ("grantType", grantType)] ;;;
          ret (mkReply 200 (ManualGrant grantId delivered))
      end
  end.

End AdminHandlers.
End adminController.

(** ** Vocabulary of the further statements *)

(** [a] may come before [b] in a result ordered by [key] descending. *)
Definition newest_first {A : Type} (key : A -> Z) (a b : A) : Prop := key b <= key a.

(** What a fulfillment would change: grants, accounts, stock, delivery
    requests and mails. *)
Definition fulfillment_footprint {N : Number} (w : World) :=
  (grants w, users w, products w, deliveries w, outbox w).

Section FulfillmentVocabulary.
Context {N : Number}.

(** The coins a line item of type "coins" is worth. *)
Definition coin_amount (li : LineItem) : Z :=
  or_int (data_amount (li_data li)) (li_quantity li * 100).

(** The worth of the last line item of type "coins" of an order, if any. *)
Fixpoint last_coin_amount (items : list LineItem) : option Z :=
  match items with
  | [] => None
  | li :: rest =>
      match last_coin_amount rest with
      | Some a => Some a
      | None => if (li_type li =? "coins")%string then Some (coin_amount li) else None
      end
  end.

(** No stock is below the "unlimited" mark -1, and the products that were
    unlimited or sold out in [catalog] are still the same rows. *)
Definition stock_floor (catalog : list Product) (w : World) : Prop :=
  Forall (fun p => -1 <= prod_stock p) (products w) /\
  (forall pid p, find_product pid catalog = Some p -> prod_stock p <= 0 ->
                 find_product pid (products w) = Some p).

(** [m] keeps the property [inv] of the store, whether it returns or throws. *)
Definition maintains {A : Type} (inv : World -> Prop) (m : M A) : Prop :=
  forall w, inv w -> inv (snd (m w)).

End FulfillmentVocabulary.

Section LedgerVocabulary.
Context {N : Number}.

(** Every table of the store, the mails and the delivery requests: all but
    the clock and the counters. *)
Definition tables (w : World) :=
  (users w, products w, transactions w, grants w, activityLogs w, outbox w,
   deliveries w).

(** The grant the polling backup records for a line item: always pending. *)
Definition recorded_grant_of_item (tid : string) (uid : Z) (li : LineItem) (g : Grant)
  : Prop :=
  grant_transactionId g = Some tid /\ grant_userId g = uid /\
  grant_type g = li_type li /\ grant_data g = Some (line_item_delivery_data li) /\
  grant_status g = "pending".

End LedgerVocabulary.

Section ConfirmationVocabulary.
Context {N : Number}.
Variable env : Env.

(** The request gets past the signature check of
    [handleDeliveryConfirmation]: no secret is configured, there is no
    signature header, or the header is accepted. *)
Definition confirmation_admitted (secret : option string) (req : WebhookRequest) : Prop :=
  truthy_ostring secret = false \/ truthy_ostring (req_signature req) = false \/
  exists s signature,
    secret = Some s /\ req_signature req = Some signature /\
    verifyWebhookSignature env (req_payload req) signature s = Ok true.

End ConfirmationVocabulary.

Section CheckoutVocabulary.
Context {N : Number}.

(** A requested item the checkout accepts: the product exists, is active,
    and has unlimited stock (-1) or at least the requested quantity. *)
Definition orderable (catalog : list Product) (item : CartRequestItem) : bool :=
  match find_product (item_productId item) catalog with
  | Some p => prod_active p &&
              ((prod_stock p =? -1) || (item_quantity item <=? prod_stock p))
  | None => false
  end.

End CheckoutVocabulary.

(** ** Further scenarios on the concrete store *)

Module Scenarios.
Import Demo.

(** No server token: the game server is mocked, and the mock reports the
    player as offline. *)
Definition env_mock : Env :=
  mkEnv uuid never "" flaky_server (fun _ => false) "s3cret" None
        digest parse_efi parse_generic
        (fun id amount => Some (mkPixPayment "pay-new" "qr" 900000)).

(** A game server that refuses every connection. *)
Definition env_down : Env :=
  mkEnv uuid never "token" (fun _ _ => AxiosError refused) (fun _ => true) "s3cret" None
        digest parse_efi parse_generic
        (fun id amount => Some (mkPixPayment "pay-new" "qr" 900000)).

(** A payment provider that cannot create a charge. *)
Definition env_no_pix : Env :=
  mkEnv uuid never "token" flaky_server (fun _ => true) "s3cret" None
        digest parse_efi parse_generic (fun id amount => None).

(** What the provider answers when polled. *)
Definition provider_says (s : string) : string -> option string := fun _ => Some s.
Definition provider_down : string -> option string := fun _ => None.

Definition reopen_body : string := "g6 pending".

Definition parse_delivery (s : string) : Parsed DeliveryEnvelope :=
  if (s =? reopen_body)%string
  then ParsedObject (mkDeliveryEnvelope (Str "g6") (Str "pending")
                                        (Str "steam:110000103fa1337"))
  else ParseError.

Definition confirmation (payload : string) : WebhookRequest :=
  mkWebhookRequest None payload.

(** An order of two coin packs, one and three of them. *)
Definition two_packs : list LineItem :=
  [line_item_of coin_pack 1; line_item_of coin_pack 3].

Definition two_packs_tx : Transaction :=
  mkTransaction "tx-1" 1 (Some "pay-1") 2000 "BRL" "approved" "pix" None None
                (ColJson two_packs) 0 0.

Definition two_packs_store : World :=
  mkWorld [alice; bob; carol; root] [coin_pack; vip_gold] [two_packs_tx] [] [] [] [] [] now 0 0.

Definition hundred_coins : GrantData :=
  mkGrantData None None None None None (Some 100) None None.

End Scenarios.


(** * Proofs *)

(** Unfolds the monad around the storage calls. *)
Ltac monad_norm :=
  cbv beta iota delta [bind ret lift try_catch gets modify throw snd fst negb].

(** Reads a field of a store built by the setters. *)
Ltac world_simpl :=
  cbn [users products transactions grants activityLogs outbox deliveries timers clock
       uuidCount dbCalls set_users set_products set_transactions set_grants
       set_activityLogs set_outbox set_deliveries set_time set_uuidCount set_dbCalls].
Tactic Notation "world_simpl" "in" hyp(H) :=
  cbn [users products transactions grants activityLogs outbox deliveries timers clock
       uuidCount dbCalls set_users set_products set_transactions set_grants
       set_activityLogs set_outbox set_deliveries set_time set_uuidCount set_dbCalls] in H.

(** ** The delivery coordinator *)

Section DeliveryProofs.
Context {N : Number}.
Variable env : Env.

Lemma deliverItems_run data w :
  deliverItems env data w =
  (Ok (attempt_result env (List.length (deliveries w)) data),
   set_deliveries (deliveries w ++ [data]) w).
Proof. reflexivity. Qed.

Lemma delivery_result_failed_hint o :
  dr_delivered (delivery_result o) = false ->
  dr_retryAfter (delivery_result o) = Some 60 \/
  dr_retryAfter (delivery_result o) = Some 300.
Proof.
  destruct o as [[r|]|e]; simpl; auto.
  destruct (resp_success r); simpl; [discriminate|].
  intros _. destruct (resp_playerOnline r) as [[|]|]; auto.
Qed.

(** The loop of [deliverItemsWithRetry], entered with [S k] iterations left. *)
Lemma retry_loop_spec data k : forall attempt last w,
  attempt + Z.of_nat (S k) = retryAttempts + 1 ->
  exists (n : nat) r w',
    retry_loop env (S k) attempt data last w = (Ok (Some r), w') /\
    (1 <= n <= S k)%nat /\
    deliveries w' = deliveries w ++ repeat data n /\
    timers w' = timers w ++ repeat retryDelay (n - 1) /\
    clock w' = clock w + retryDelay * Z.of_nat (n - 1) /\
    r = attempt_result env (List.length (deliveries w) + n - 1) data /\
    (forall j, (j < n - 1)%nat ->
       dr_delivered (attempt_result env (List.length (deliveries w) + j) data) = false) /\
    (dr_delivered r = false -> n = S k).
Proof.
  induction k as [|k IH]; intros attempt last w Hinv.
  - exists 1%nat. cbn [retry_loop]. unfold bind at 1. rewrite deliverItems_run.
    destruct (dr_delivered (attempt_result env _ data)) eqn:E.
    + do 2 eexists. split; [reflexivity|]. cbn [repeat Nat.sub].
      rewrite app_nil_r, Nat.add_sub, Z.mul_0_r, Z.add_0_r.
      repeat split; try lia; try reflexivity.
    + assert (Hlt : (attempt <? retryAttempts) = false)
        by (apply Z.ltb_ge; lia).
      rewrite Hlt.
      do 2 eexists. split; [reflexivity|]. cbn [repeat Nat.sub].
      rewrite app_nil_r, Nat.add_sub, Z.mul_0_r, Z.add_0_r.
      repeat split; try lia; try reflexivity.
  - remember (S k) as m eqn:Hm.
    cbn [retry_loop]. unfold bind at 1. rewrite deliverItems_run.
    destruct (dr_delivered (attempt_result env _ data)) eqn:E.
    + exists 1%nat. do 2 eexists. split; [reflexivity|]. cbn [repeat Nat.sub].
      rewrite app_nil_r, Nat.add_sub, Z.mul_0_r, Z.add_0_r.
      repeat split; try lia; try reflexivity. congruence.
    + assert (Hlt : (attempt <? retryAttempts) = true)
        by (apply Z.ltb_lt; lia).
      rewrite Hlt.
      unfold bind at 1. unfold sleep at 1, modify at 1.
      set (w1 := set_time _ _ _).
      subst m.
      destruct (IH (attempt + 1) (Some (attempt_result env (List.length (deliveries w)) data)) w1)
        as (n & r & w' & Hrun & Hn & Hd & Ht & Hc & Hr & Hprev & Hlast); [lia|].
      exists (S n), r, w'. split; [exact Hrun|].
      assert (Hlen : List.length (deliveries w1) = S (List.length (deliveries w)))
        by (subst w1; unfold set_time, set_deliveries; cbn [deliveries]; rewrite length_app; cbn [List.length]; lia).
      rewrite Hlen in *.
      assert (Hn1 : (S n - 1 = S (n - 1))%nat) by lia.
      repeat split; try lia.
      * rewrite Hd. subst w1. cbn. rewrite <- app_assoc. reflexivity.
      * rewrite Ht, Hn1. subst w1. cbn. rewrite <- app_assoc. reflexivity.
      * rewrite Hc, Hn1, Nat2Z.inj_succ. subst w1. unfold set_time, set_deliveries. cbn [clock]. lia.
      * rewrite Hr. f_equal. lia.
      * intros j Hj. destruct j as [|j]; [rewrite Nat.add_0_r; exact E|].
        replace (List.length (deliveries w) + S j)%nat
          with (S (List.length (deliveries w)) + j)%nat by lia.
        apply Hprev. lia.
      * intros Hf. specialize (Hlast Hf). lia.
Qed.

(** C7: [deliverItems] never throws.  A transport error and a reply that
    reports failure both give [delivered = false] with a retry hint: 300
    seconds when the reply says the player is offline, 60 seconds for a
    transport error or any other failure, and 60 < 300. *)
Theorem deliverItems_classifies_failures data w :
  exists r w',
    deliverItems env data w = (Ok r, w') /\
    (truthy_string (serverToken env) = true ->
     (forall e, axios_deliver env (List.length (deliveries w)) data = AxiosError e ->
        dr_delivered r = false /\ dr_retryAfter r = Some 60) /\
     (forall resp,
        axios_deliver env (List.length (deliveries w)) data = AxiosData (Some resp) ->
        resp_success resp = false ->
        dr_delivered r = false /\
        (resp_playerOnline resp = Some false -> dr_retryAfter r = Some 300) /\
        (resp_playerOnline resp <> Some false -> dr_retryAfter r = Some 60))) /\
    (dr_delivered r = false ->
     exists hint, dr_retryAfter r = Some hint /\ (hint = 60 \/ hint = 300)) /\
    60 < 300.
Proof.
  rewrite deliverItems_run. do 2 eexists. split; [reflexivity|].
  unfold attempt_result, makeRequest_deliver.
  split; [|split; [|lia]].
  - intros Htok. rewrite Htok. cbn [negb]. split.
    + intros e He. rewrite He. cbn [delivery_result dr_delivered dr_retryAfter].
      split; reflexivity.
    + intros resp Hr Hs. rewrite Hr. cbn [delivery_result]. rewrite Hs.
      cbn [dr_delivered dr_retryAfter].
      split; [reflexivity|]. split.
      * intros Hoff. rewrite Hoff. reflexivity.
      * intros Hne. destruct (resp_playerOnline resp) as [[|]|]; congruence.
  - intros Hd. destruct (delivery_result_failed_hint _ Hd) as [H|H];
      rewrite H; eexists; split; eauto.
Qed.

(** C6: [deliverItemsWithRetry] makes between one and three attempts, waits
    5000 ms between two attempts and at no other time, returns the result of
    the first attempt that delivers (every earlier one failed), and gives up
    only after the third.  Against a server that fails twice and then
    delivers, it returns [delivered = true] after three attempts and two
    waits. *)
Theorem deliverItemsWithRetry_bounded data w :
  exists (n : nat) r w',
    deliverItemsWithRetry env data w = (Ok (Some r), w') /\
    (1 <= n <= 3)%nat /\
    deliveries w' = deliveries w ++ repeat data n /\
    timers w' = timers w ++ repeat 5000 (n - 1) /\
    r = attempt_result env (List.length (deliveries w) + n - 1) data /\
    (forall j, (j < n - 1)%nat ->
       dr_delivered (attempt_result env (List.length (deliveries w) + j) data) = false) /\
    (dr_delivered r = false -> n = 3%nat) /\
    (dr_delivered (attempt_result env (List.length (deliveries w)) data) = false ->
     dr_delivered (attempt_result env (List.length (deliveries w) + 1) data) = false ->
     dr_delivered (attempt_result env (List.length (deliveries w) + 2) data) = true ->
     n = 3%nat /\ dr_delivered r = true /\
     timers w' = timers w ++ [5000; 5000]).
Proof.
  unfold deliverItemsWithRetry. change (Z.to_nat retryAttempts) with 3%nat.
  destruct (retry_loop_spec data 2 1 None w)
    as (n & r & w' & Hrun & Hn & Hd & Ht & _ & Hr & Hprev & Hlast); [reflexivity|].
  exists n, r, w'. repeat split; try assumption; try lia.
  - assert (n = 1 \/ n = 2 \/ n = 3)%nat as [->|[->| ->]] by lia.
    + rewrite Nat.add_sub in Hr. specialize (Hlast ltac:(congruence)). lia.
    + replace (List.length (deliveries w) + 2 - 1)%nat
        with (List.length (deliveries w) + 1)%nat in Hr by lia.
      specialize (Hlast ltac:(congruence)). lia.
    + reflexivity.
  - assert (n = 1 \/ n = 2 \/ n = 3)%nat as [->|[->| ->]] by lia.
    + rewrite Nat.add_sub in Hr. specialize (Hlast ltac:(congruence)). lia.
    + replace (List.length (deliveries w) + 2 - 1)%nat
        with (List.length (deliveries w) + 1)%nat in Hr by lia.
      specialize (Hlast ltac:(congruence)). lia.
    + replace (List.length (deliveries w) + 3 - 1)%nat
        with (List.length (deliveries w) + 2)%nat in Hr by lia.
      congruence.
  - assert (n = 1 \/ n = 2 \/ n = 3)%nat as [->|[->| ->]] by lia.
    + rewrite Nat.add_sub in Hr. specialize (Hlast ltac:(congruence)). lia.
    + replace (List.length (deliveries w) + 2 - 1)%nat
        with (List.length (deliveries w) + 1)%nat in Hr by lia.
      specialize (Hlast ltac:(congruence)). lia.
    + exact Ht.
Qed.

End DeliveryProofs.

(** ** ORDER BY returns the same rows *)

Section SortingProofs.
Context {A : Type} (key : A -> Z).

Lemma insert_desc_perm x l : Permutation (insert_desc key x l) (x :: l).
Proof.
  induction l as [|y l IH]; cbn [insert_desc]; [reflexivity|].
  destruct (key y <? key x); [reflexivity|].
  rewrite IH. apply perm_swap.
Qed.

Lemma order_by_desc_perm l : Permutation (order_by_desc key l) l.
Proof.
  induction l as [|x l IH]; cbn [order_by_desc fold_right]; [reflexivity|].
  rewrite insert_desc_perm. constructor. exact IH.
Qed.
End SortingProofs.

(** ** Bulk delivery *)

Section BulkProofs.
Context {N : Number}.
Variable env : Env.

Ltac run_db :=
  unfold db, gets, ret, modify, bind, try_catch.

Lemma process_pending_grant_spec results grant w :
  exists r' w',
    process_pending_grant env results grant w = (Ok r', w') /\
    users w' = users w /\
    processed r' = processed results + 1 /\
    delivered r' + failed r' + skipped r'
      = delivered results + failed results + skipped results + 1 /\
    delivered results <= delivered r' /\ failed results <= failed r' /\
    skipped results <= skipped r' /\
    (fault env (dbCalls w) (CGetUser (grant_userId grant)) = false ->
     skipped r' = skipped results + (if unlinked (users w) grant then 1 else 0) /\
     deliveries w' = deliveries w ++ attempts_for (users w) [grant]).
Proof.
  unfold process_pending_grant, attempts_for, unlinked, linked_identity, getUser.
  cbn [flat_map]. run_db.
  destruct (fault env (dbCalls w) (CGetUser (grant_userId grant))) eqn:Ef.
  { do 2 eexists. split; [reflexivity|]. cbn. repeat split; try lia; try discriminate. }
  cbn [users set_dbCalls].
  destruct (find_user (grant_userId grant) (users w)) as [u|] eqn:Eu.
  2:{ do 2 eexists. split; [reflexivity|]. cbn. rewrite app_nil_r.
      repeat split; try lia. }
  destruct (fivemIdentifier u) as [i|] eqn:Ei.
  2:{ do 2 eexists. split; [reflexivity|]. cbn. rewrite app_nil_r.
      repeat split; try lia. }
  destruct (truthy_string i) eqn:Et.
  2:{ do 2 eexists. split; [reflexivity|]. cbn. rewrite app_nil_r.
      repeat split; try lia. }
  unfold deliverItems. cbn [deliveries set_dbCalls].
  destruct (dr_delivered _) eqn:Ed.
  - unfold updateGrant. run_db. cbn [dbCalls set_deliveries set_dbCalls].
    destruct (fault env _ (CUpdateGrant (grant_id grant))).
    + do 2 eexists. split; [reflexivity|]. cbn. repeat split; try lia.
    + do 2 eexists. split; [reflexivity|]. cbn. repeat split; try lia.
  - do 2 eexists. split; [reflexivity|]. cbn. repeat split; try lia.
Qed.

Lemma process_pending_grants_spec l : forall results w,
  exists r' w',
    process_pending_grants env l results w = (Ok r', w') /\
    users w' = users w /\
    processed r' = processed results + Z.of_nat (List.length l) /\
    delivered r' + failed r' + skipped r'
      = delivered results + failed results + skipped results + Z.of_nat (List.length l) /\
    delivered results <= delivered r' /\ failed results <= failed r' /\
    skipped results <= skipped r' /\
    ((forall n id, fault env n (CGetUser id) = false) ->
     skipped r' = skipped results + Z.of_nat (count_unlinked (users w) l) /\
     deliveries w' = deliveries w ++ attempts_for (users w) l).
Proof.
  induction l as [|g l IH]; intros results w.
  - do 2 eexists. split; [reflexivity|]. cbn. rewrite app_nil_r.
    repeat split; lia.
  - cbn [process_pending_grants]. unfold bind at 1.
    destruct (process_pending_grant_spec results g w)
      as (r1 & w1 & Hrun1 & Hu1 & Hp1 & Hs1 & Hd1 & Hf1 & Hk1 & Hlink1).
    rewrite Hrun1.
    destruct (IH r1 w1) as (r2 & w2 & Hrun2 & Hu2 & Hp2 & Hs2 & Hd2 & Hf2 & Hk2 & Hlink2).
    exists r2, w2. split; [exact Hrun2|].
    cbn [List.length]. rewrite Nat2Z.inj_succ.
    repeat (split; [solve [lia | congruence]|]).
    intros Hno. split.
    + destruct (Hlink1 (Hno _ _)) as [Hsk1 _].
      destruct (Hlink2 Hno) as [Hsk2 _].
      rewrite Hsk2, Hsk1, Hu1. unfold count_unlinked. cbn [filter].
      destruct (unlinked (users w) g); cbn [List.length]; lia.
    + destruct (Hlink1 (Hno _ _)) as [_ Hdl1].
      destruct (Hlink2 Hno) as [_ Hdl2].
      rewrite Hdl2, Hdl1, Hu1. unfold attempts_for. cbn [flat_map].
      rewrite app_nil_r, <- app_assoc. reflexivity.
Qed.

(** C8: one pass of [processPendingDeliveries] visits the pending grants (a
    permutation of the rows with status "pending") once each: [processed] is
    their number and [delivered + failed + skipped = processed].  When the
    user lookups succeed, [skipped] is the number of grants whose user has no
    game identity and exactly one delivery request is issued for each of the
    others, in order.  With five pending grants, two of them unlinked, the
    counts are processed 5, skipped 2, delivered + failed 3. *)
Theorem processPendingDeliveries_counts admin w :
  (forall n, fault env n CGetPendingGrants = false) ->
  (forall n, fault env n (CLogActivity "bulk_delivery_processed") = false) ->
  let pending := pending_grants (grants w) in
  exists results w',
    processPendingDeliveries env (Some admin) w
      = (Ok (mkResponse 200 (BulkDelivery results)), w') /\
    Permutation pending (filter is_pending (grants w)) /\
    processed results = Z.of_nat (List.length (filter is_pending (grants w))) /\
    delivered results + failed results + skipped results = processed results /\
    0 <= delivered results /\ 0 <= failed results /\ 0 <= skipped results /\
    ((forall n id, fault env n (CGetUser id) = false) ->
     skipped results = Z.of_nat (count_unlinked (users w) pending) /\
     deliveries w' = deliveries w ++ attempts_for (users w) pending /\
     (List.length pending = 5%nat -> count_unlinked (users w) pending = 2%nat ->
      processed results = 5 /\ skipped results = 2 /\
      delivered results + failed results = 3)).
Proof.
  intros Hpend Hlog pending.
  assert (Hperm : Permutation pending (filter is_pending (grants w)))
    by apply order_by_desc_perm.
  unfold processPendingDeliveries, getPendingGrants, logActivity.
  run_db. rewrite Hpend.
  set (w0 := set_dbCalls _ w).
  destruct (process_pending_grants_spec (pending_grants (grants w0))
              (mkBulkResults 0 0 0 0) w0)
    as (r & w1 & Hrun & Hu & Hp & Hs & Hd & Hf & Hk & Hlink).
  rewrite Hrun, Hlog.
  change (grants w0) with (grants w) in *. change (users w0) with (users w) in *.
  change (deliveries w0) with (deliveries w) in *.
  fold pending in Hp, Hs, Hlink.
  cbn [processed delivered failed skipped] in *.
  do 2 eexists. split; [reflexivity|].
  cbn [deliveries set_activityLogs set_dbCalls].
  rewrite <- (Permutation_length Hperm).
  split; [exact Hperm|]. split; [lia|]. split; [lia|].
  split; [lia|]. split; [lia|]. split; [lia|].
  intros Huser. destruct (Hlink Huser) as [Hsk Hdl].
  split; [exact Hsk|]. split; [exact Hdl|]. lia.
Qed.

End BulkProofs.

(** ** Frame reasoning: what a handler leaves alone *)

Section Frame.
Context {N : Number} {T : Type} (proj : World -> T).

Lemma keeps_ret {A} (a : A) : keeps proj (ret a).
Proof. intros w. reflexivity. Qed.

Lemma keeps_throw {A} e : keeps proj (@throw _ A e).
Proof. intros w. reflexivity. Qed.

Lemma keeps_lift {A} (r : Result A) : keeps proj (lift r).
Proof. intros w. reflexivity. Qed.

Lemma keeps_gets {A} (f : World -> A) : keeps proj (gets f).
Proof. intros w. reflexivity. Qed.

Lemma keeps_bind {A B} (m : M A) (k : A -> M B) :
  keeps proj m -> (forall a, keeps proj (k a)) -> keeps proj (bind m k).
Proof.
  intros Hm Hk w. unfold bind. specialize (Hm w).
  destruct (m w) as [[a|e] w1]; cbn [snd] in *.
  - rewrite Hk. exact Hm.
  - exact Hm.
Qed.

Lemma keeps_try_catch {A} (m : M A) (h : string -> M A) :
  keeps proj m -> (forall e, keeps proj (h e)) -> keeps proj (try_catch m h).
Proof.
  intros Hm Hh w. unfold try_catch. specialize (Hm w).
  destruct (m w) as [[a|e] w1]; cbn [snd] in *.
  - exact Hm.
  - rewrite Hh. exact Hm.
Qed.

Lemma keeps_modify (f : World -> World) :
  (forall w, proj (f w) = proj w) -> keeps proj (modify f).
Proof. intros Hf w. apply Hf. Qed.

Lemma keeps_db env {A} (c : StorageCall) (run : M A) :
  (forall n w, proj (set_dbCalls n w) = proj w) ->
  keeps proj run -> keeps proj (db env c run).
Proof.
  intros Hdb Hrun w. unfold db.
  destruct (fault env (dbCalls w) c); cbn [snd].
  - apply Hdb.
  - rewrite Hrun. apply Hdb.
Qed.

(** Each primitive keeps proj every part of the store it does not write. *)
Section Primitives.
Variable env : Env.
Hypothesis proj_dbCalls : forall n w, proj (set_dbCalls n w) = proj w.

Lemma getUser_keeps id : keeps proj (getUser env id).
Proof. apply keeps_db; [assumption|apply keeps_gets]. Qed.
Lemma getProduct_keeps id : keeps proj (getProduct env id).
Proof. apply keeps_db; [assumption|apply keeps_gets]. Qed.
Lemma getTransaction_keeps id : keeps proj (getTransaction env id).
Proof. apply keeps_db; [assumption|apply keeps_gets]. Qed.
Lemma getAllTransactions_keeps limit offset : keeps proj (getAllTransactions env limit offset).
Proof. apply keeps_db; [assumption|apply keeps_gets]. Qed.
Lemma getPendingGrants_keeps : keeps proj (getPendingGrants env).
Proof. apply keeps_db; [assumption|apply keeps_gets]. Qed.
Lemma clearCart_keeps id : keeps proj (clearCart env id).
Proof. apply keeps_db; [assumption|apply keeps_ret]. Qed.

Lemma updateUser_keeps id upd :
  (forall v w, proj (set_users v w) = proj w) -> keeps proj (updateUser env id upd).
Proof. intros H. apply keeps_db; [assumption|]. intros w. apply H. Qed.
Lemma updateProduct_keeps id upd :
  (forall v w, proj (set_products v w) = proj w) -> keeps proj (updateProduct env id upd).
Proof. intros H. apply keeps_db; [assumption|]. intros w. apply H. Qed.
Lemma updateTransaction_keeps id upd :
  (forall v w, proj (set_transactions v w) = proj w) ->
  keeps proj (updateTransaction env id upd).
Proof. intros H. apply keeps_db; [assumption|]. intros w. apply H. Qed.
Lemma createTransaction_keeps id uid amount cur st pm cart ex :
  (forall v w, proj (set_transactions v w) = proj w) ->
  keeps proj (createTransaction env id uid amount cur st pm cart ex).
Proof.
  intros H. apply keeps_db; [assumption|]. intros w.
  destruct (find_transaction id (transactions w)); [reflexivity|apply H].
Qed.
Lemma updateGrant_keeps id st :
  (forall v w, proj (set_grants v w) = proj w) -> keeps proj (updateGrant env id st).
Proof. intros H. apply keeps_db; [assumption|]. intros w. apply H. Qed.
Lemma createGrant_keeps id tid uid ty data st by_ :
  (forall v w, proj (set_grants v w) = proj w) ->
  keeps proj (createGrant env id tid uid ty data st by_).
Proof.
  intros H. apply keeps_db; [assumption|]. intros w.
  destruct (find_grant id (grants w)); [reflexivity|apply H].
Qed.
Lemma logActivity_keeps uid action details :
  (forall v w, proj (set_activityLogs v w) = proj w) ->
  keeps proj (logActivity env uid action details).
Proof. intros H. apply keeps_db; [assumption|]. intros w. apply H. Qed.
Lemma generateUUID_keeps :
  (forall n w, proj (set_uuidCount n w) = proj w) -> keeps proj (generateUUID env).
Proof. intros H w. apply H. Qed.
Lemma sendEmail_keeps e :
  (forall v w, proj (set_outbox v w) = proj w) -> keeps proj (sendEmail e).
Proof. intros H w. apply H. Qed.
Lemma deliverItems_keeps data :
  (forall v w, proj (set_deliveries v w) = proj w) -> keeps proj (deliverItems env data).
Proof. intros H w. apply H. Qed.
Lemma Date_now_keeps : keeps proj Date_now.
Proof. apply keeps_gets. Qed.

End Primitives.

End Frame.

Create HintDb keeps discriminated.
#[export] Hint Resolve keeps_ret keeps_throw keeps_lift keeps_gets Date_now_keeps
  getUser_keeps getProduct_keeps getTransaction_keeps getAllTransactions_keeps
  getPendingGrants_keeps clearCart_keeps updateUser_keeps updateProduct_keeps
  updateTransaction_keeps createTransaction_keeps updateGrant_keeps createGrant_keeps
  logActivity_keeps generateUUID_keeps sendEmail_keeps deliverItems_keeps : keeps.
#[export] Hint Extern 1 (forall _ _, _ (_ _ _) = _ _) => (intros; reflexivity) : keeps.

(** Splits a handler along its binds, handlers and branches. *)
Ltac keeps_step :=
  match goal with
  | |- keeps _ (bind _ _) => apply keeps_bind; [|intros ?]
  | |- keeps _ (try_catch _ _) => apply keeps_try_catch; [|intros ?]
  | |- keeps _ (if ?b then _ else _) => destruct b
  | |- keeps _ (match ?x with _ => _ end) => destruct x
  | |- keeps _ _ => solve [auto with keeps]
  end.
Ltac keeps_auto := repeat keeps_step.

(** The fulfillment never writes the transactions table. *)

Section FulfillmentFrame.
Context {N : Number}.
Variable env : Env.

Lemma create_and_deliver_grant_keeps_transactions tid uid user product :
  keeps transactions (create_and_deliver_grant env tid uid user product).
Proof. unfold create_and_deliver_grant. keeps_auto. Qed.

Lemma create_grants_keeps_transactions tid uid user items : forall created,
  keeps transactions (create_grants env tid uid user items created).
Proof.
  induction items as [|p items IH]; intros created; cbn [create_grants].
  - apply keeps_ret.
  - apply keeps_bind; [apply create_and_deliver_grant_keeps_transactions|].
    intros g. apply IH.
Qed.

Lemma handle_special_product_keeps_transactions uid user product :
  keeps transactions (handle_special_product env uid user product).
Proof.
  unfold handle_special_product, credit_coins, activate_vip, update_stock.
  keeps_auto.
Qed.

Lemma handle_special_products_keeps_transactions uid user items :
  keeps transactions (handle_special_products env uid user items).
Proof.
  induction items as [|p items IH]; cbn [handle_special_products].
  - apply keeps_ret.
  - apply keeps_bind; [apply handle_special_product_keeps_transactions|].
    intros _. apply IH.
Qed.

Lemma fulfill_keeps_transactions tid uid :
  keeps transactions (fulfill env tid uid).
Proof.
  unfold fulfill.
  pose proof create_grants_keeps_transactions.
  pose proof handle_special_products_keeps_transactions.
  keeps_auto.
Qed.

End FulfillmentFrame.

(** ** Status of a transaction through the webhook handlers *)

Section WebhookProofs.
Context {N : Number}.
Variable env : Env.

Lemma find_transaction_update id upd now rows :
  find_transaction id
    (map (fun t => if (tx_id t =? id)%string
                   then apply_transaction_update upd now t else t) rows)
  = option_map (apply_transaction_update upd now) (find_transaction id rows).
Proof.
  unfold find_transaction.
  induction rows as [|t rows IH]; cbn [map find]; [reflexivity|].
  destruct (tx_id t =? id)%string eqn:E; cbn [tx_id apply_transaction_update].
  - rewrite E. reflexivity.
  - rewrite E. exact IH.
Qed.


Lemma In_firstn {A} (x : A) n l : In x (firstn n l) -> In x l.
Proof.
  intros H. rewrite <- (firstn_skipn n l). apply in_or_app. left. exact H.
Qed.


Lemma stored_status_update w id s now :
  stored_status w id <> None ->
  option_map tx_status
    (find_transaction id
       (map (fun t => if (tx_id t =? id)%string
                      then apply_transaction_update (status_only s) now t else t)
            (transactions w))) = Some s.
Proof.
  unfold stored_status. rewrite find_transaction_update. intros H.
  destruct (find_transaction id (transactions w)); [reflexivity|].
  exfalso. apply H. reflexivity.
Qed.

(** Without database failures [processFailedPayment] only writes the log. *)
Lemma processFailedPayment_run tid uid s w :
  exists w', processFailedPayment env tid uid s w = (Ok tt, w') /\
             transactions w' = transactions w /\ grants w' = grants w /\
             users w' = users w.
Proof.
  unfold processFailedPayment, try_catch, logActivity, db, modify.
  destruct (fault env _ _); eexists; split; try reflexivity; repeat split.
Qed.

(** [processApprovedPayment] either leaves the transactions alone or, after
    an error of the fulfillment, marks the transaction as failed. *)
Lemma processApprovedPayment_status tid uid w :
  no_faults env ->
  exists w', processApprovedPayment env tid uid w = (Ok tt, w') /\
    (transactions w' = transactions w \/
     exists now, transactions w' =
       map (fun t => if (tx_id t =? tid)%string
                     then apply_transaction_update (status_only "failed") now t else t)
           (transactions w)).
Proof.
  intros Hnf. unfold processApprovedPayment, try_catch.
  pose proof (fulfill_keeps_transactions env tid uid w) as Hk.
  destruct (fulfill env tid uid w) as [[[]|e] w1]; cbn [snd] in Hk.
  - eexists. split; [reflexivity|]. left. exact Hk.
  - unfold updateTransaction, bind, db, ret. rewrite Hnf.
    eexists. split; [reflexivity|]. right. exists (clock w1).
    cbn [transactions set_transactions set_dbCalls clock]. rewrite Hk. reflexivity.
Qed.

Lemma process_by_status_status tid uid old s w :
  no_faults env ->
  stored_status w tid = Some s ->
  exists w', process_by_status env tid uid old s w = (Ok tt, w') /\
    (stored_status w' tid = Some s \/
     (s = "approved" /\ old <> "approved" /\ stored_status w' tid = Some "failed")).
Proof.
  intros Hnf Hst. unfold process_by_status.
  destruct ((s =? "approved")%string && negb (old =? "approved")%string) eqn:E.
  - apply andb_prop in E as [E1 E2]. apply String.eqb_eq in E1.
    apply negb_true_iff, String.eqb_neq in E2.
    destruct (processApprovedPayment_status tid uid w Hnf) as (w' & Hrun & [Htx|[now Htx]]).
    + exists w'. split; [exact Hrun|]. left. unfold stored_status. rewrite Htx. exact Hst.
    + exists w'. split; [exact Hrun|]. right. repeat split; try assumption.
      unfold stored_status at 1. rewrite Htx.
      apply (stored_status_update w tid "failed" now). rewrite Hst. discriminate.
  - destruct ((s =? "cancelled")%string || (s =? "failed")%string).
    + destruct (processFailedPayment_run tid uid s w) as (w' & Hrun & Htx & _).
      exists w'. split; [exact Hrun|]. left. unfold stored_status. rewrite Htx. exact Hst.
    + eexists. split; [reflexivity|]. left. exact Hst.
Qed.

End WebhookProofs.

(** ** The webhook handlers *)

Section WebhookTheorems.
Context {N : Number}.
Variable env : Env.

Lemma db_run {A} c (run : M A) w :
  db env c run w =
  if fault env (dbCalls w) c then (Thrown "SqliteError", set_dbCalls (S (dbCalls w)) w)
  else run (set_dbCalls (S (dbCalls w)) w).
Proof. reflexivity. Qed.

(** C1: an "approved" webhook for a transaction that is already approved
    creates no grant, credits nothing, changes no VIP field, decrements no
    stock, sends no delivery request and no mail: the fulfillment is not run
    again. *)
Theorem duplicate_approved_webhook_is_inert req w e t :
  JSON_parse_efi env (req_payload req) = ParsedObject e ->
  wd_status (parseWebhookData e) = "approved" ->
  resolved_transaction w (parseWebhookData e) = Some t ->
  tx_status t = "approved" ->
  let w' := snd (handleEfiBankWebhook env req w) in
  grants w' = grants w /\ users w' = users w /\ products w' = products w /\
  deliveries w' = deliveries w /\ outbox w' = outbox w.
Proof.
  intros Hparse Hs Hres Hold.
  unfold handleEfiBankWebhook, efibank_process.
  destruct (validateWebhookSignature env _ _) as [[|]|]; monad_norm;
    try (repeat split; reflexivity).
  rewrite Hparse. monad_norm.
  unfold getAllTransactions. rewrite db_run.
  destruct (fault env _ _); [repeat split; reflexivity|]. monad_norm.
  change (find _ _) with (resolved_transaction w (parseWebhookData e)).
  rewrite Hres, Hs, Hold. monad_norm.
  unfold updateTransaction. rewrite db_run.
  destruct (fault env _ _); [repeat split; reflexivity|]. monad_norm.
  unfold logActivity. rewrite db_run.
  destruct (fault env _ _); [repeat split; reflexivity|]. monad_norm.
  repeat split; reflexivity.
Qed.

Lemma bytes_eqb_eq a : forall b, bytes_eqb a b = true <-> a = b.
Proof.
  induction a as [|x a IH]; intros [|y b]; cbn [bytes_eqb];
    try (split; [discriminate|congruence]); [tauto|].
  rewrite andb_true_iff, N.eqb_eq, IH. split; [intros [-> ->]|intros [= -> ->]]; auto.
Qed.

Lemma utf8_bytes_inj a : forall b, utf8_bytes a = utf8_bytes b -> a = b.
Proof.
  unfold utf8_bytes.
  induction a as [|x a IH]; intros [|y b]; cbn [list_ascii_of_string map];
    try discriminate; [reflexivity|].
  intros [= Hx Hab]. f_equal; [|apply IH; exact Hab].
  rewrite <- (ascii_N_embedding x), <- (ascii_N_embedding y), Hx. reflexivity.
Qed.

(** C3, as the code has it.  With a webhook secret configured, the
    signature header is decoded as hexadecimal, the way [Buffer.from] does
    it, and compared with the bytes of the HMAC of the payload.  A request
    whose signature does not decode to those bytes leaves the whole store as
    it was: it is answered 401 when the signature decodes to as many bytes as
    the digest, and otherwise the comparison throws and the error handler
    answers 500.  A request whose signature decodes to those bytes is
    processed, whether or not its text is the digest.  Without a secret no
    signature is checked: every request is processed. *)
Theorem invalid_signature_rejected req w :
  let expected := hmac_sha256_hex env (efiWebhookSecret env) (req_payload req) in
  let processed :=
    try_catch (efibank_process env req)
              (fun _ => ret (mkResponse 500 (ErrorBody "Webhook processing failed"))) w in
  (truthy_string (efiWebhookSecret env) = true ->
   (~ signature_matches env (req_payload req) (req_signature req) ->
    snd (handleEfiBankWebhook env req w) = w /\
    (forall s, req_signature req = Some s ->
       List.length (hex_decode s) = List.length (hex_decode expected) ->
       fst (handleEfiBankWebhook env req w)
         = Ok (mkResponse 401 (ErrorBody "Invalid signature"))) /\
    ((req_signature req = None \/
      exists s, req_signature req = Some s /\
                List.length (hex_decode s) <> List.length (hex_decode expected)) ->
     (exists e, fst (handleEfiBankWebhook env req w) = Thrown e) /\
     status (fst (asyncHandler (handleEfiBankWebhook env req) w)) = 500)) /\
   (signature_matches env (req_payload req) (req_signature req) ->
    handleEfiBankWebhook env req w = processed)) /\
  (truthy_string (efiWebhookSecret env) = false ->
   handleEfiBankWebhook env req w = processed).
Proof.
  cbv zeta. split.
  - intros Hsecret. split.
    + intros Hbad.
      unfold asyncHandler, handleEfiBankWebhook, validateWebhookSignature, timingSafeEqual.
      rewrite Hsecret. cbn [negb].
      destruct (req_signature req) as [s|] eqn:Hsig.
      * destruct (List.length (hex_decode s) =? List.length _)%nat eqn:Hlen.
        -- destruct (bytes_eqb (hex_decode s) _) eqn:Heq.
           ++ exfalso. apply Hbad. exists s. split; [reflexivity|].
              apply bytes_eqb_eq. exact Heq.
           ++ split; [reflexivity|]. split; [intros s' [= <-] _; reflexivity|].
              apply Nat.eqb_eq in Hlen.
              intros [Habs|(s' & [= <-] & Hne)]; [discriminate|contradiction].
        -- split; [reflexivity|]. split.
           ++ intros s' [= <-] Hl. apply Nat.eqb_neq in Hlen. contradiction.
           ++ intros _. split; [eexists; reflexivity|reflexivity].
      * split; [reflexivity|]. split; [discriminate|].
        intros _. split; [eexists; reflexivity|reflexivity].
    + intros (s & Hsig & Hbytes).
      unfold handleEfiBankWebhook, validateWebhookSignature, timingSafeEqual.
      rewrite Hsecret, Hsig, Hbytes, Nat.eqb_refl. cbn [negb].
      assert (Hsame : forall b, bytes_eqb b b = true)
        by (intros b; apply bytes_eqb_eq; reflexivity).
      rewrite Hsame. reflexivity.
  - intros Hsecret. unfold handleEfiBankWebhook, validateWebhookSignature.
    rewrite Hsecret. reflexivity.
Qed.


(** C10: the generic webhook checks the signature only when both the
    secret and the signature header are present and non-empty.  When either
    is missing the handler is exactly its unauthenticated body: it parses the
    payload and, for an existing transaction, stores the status it carries
    and answers 200.  When both are present a signature other than the HMAC
    leaves the store untouched (401 when the lengths agree). *)
Theorem generic_webhook_verification_is_optional req w :
  (truthy_ostring (WEBHOOK_SECRET env) = false \/
   truthy_ostring (req_signature req) = false ->
   handleGenericPaymentWebhook env req w
     = try_catch (generic_process env req)
         (fun _ => ret (mkResponse 500 (ErrorBody "Webhook processing failed"))) w /\
   (forall p tid s t,
      no_faults env ->
      JSON_parse_generic env (req_payload req) = ParsedObject p ->
      gen_transactionId p = Str tid -> truthy_string tid = true ->
      gen_status p = Str s -> truthy_string s = true ->
      find_transaction tid (transactions w) = Some t ->
      exists w',
        handleGenericPaymentWebhook env req w
          = (Ok (mkResponse 200 (WebhookProcessed tid)), w') /\
        (stored_status w' tid = Some s \/
         (s = "approved" /\ tx_status t <> "approved" /\
          stored_status w' tid = Some "failed")))) /\
  (forall secret signature,
     WEBHOOK_SECRET env = Some secret -> truthy_string secret = true ->
     req_signature req = Some signature -> truthy_string signature = true ->
     signature <> hashWebhookPayload env (req_payload req) secret ->
     snd (handleGenericPaymentWebhook env req w) = w /\
     (String.length signature
        = String.length (hashWebhookPayload env (req_payload req) secret) ->
      fst (handleGenericPaymentWebhook env req w)
        = Ok (mkResponse 401 (ErrorBody "Invalid signature")))).
Proof.
  split.
  - intros Hmissing.
    assert (Hskip : handleGenericPaymentWebhook env req w
              = try_catch (generic_process env req)
                  (fun _ => ret (mkResponse 500 (ErrorBody "Webhook processing failed"))) w).
    { unfold handleGenericPaymentWebhook.
      destruct (WEBHOOK_SECRET env) as [secret|], (req_signature req) as [signature|];
        try reflexivity.
      cbn [truthy_ostring] in Hmissing.
      destruct Hmissing as [H|H]; rewrite H;
        [|rewrite andb_false_r]; reflexivity. }
    split; [exact Hskip|].
    intros p tid s t Hnf Hparse Htid Htt Hs Hts Hfind.
    rewrite Hskip. unfold generic_process. monad_norm.
    rewrite Hparse. monad_norm. rewrite Htid, Hs, Htt, Hts. cbn [andb].
    unfold getTransaction. rewrite db_run, Hnf. monad_norm.
    cbn [transactions set_dbCalls]. rewrite Hfind. monad_norm.
    unfold updateTransaction. rewrite db_run, Hnf. monad_norm.
    unfold logActivity. rewrite db_run, Hnf. monad_norm.
    match goal with |- context [process_by_status env ?a ?b ?c ?d ?w0] =>
      destruct (process_by_status_status env a b c d w0 Hnf) as (w' & Hrun & Hst)
    end.
    { unfold stored_status. cbn [transactions set_activityLogs set_dbCalls set_transactions].
      rewrite find_transaction_update, Hfind. reflexivity. }
    rewrite Hrun. exists w'. split; [reflexivity|exact Hst].
  - intros secret signature Hsecret Hts Hsig Htsig Hbad.
    unfold handleGenericPaymentWebhook, verifyWebhookSignature, timingSafeEqual.
    rewrite Hsecret, Hsig, Hts, Htsig. cbn [andb]. monad_norm.
    assert (Hlen : forall x, List.length (utf8_bytes x) = String.length x).
    { intros x. unfold utf8_bytes. rewrite length_map.
      induction x; cbn; congruence. }
    rewrite !Hlen.
    destruct (String.length signature =? String.length _)%nat eqn:El.
    + destruct (bytes_eqb _ _) eqn:Eb.
      * exfalso. apply Hbad. apply utf8_bytes_inj, bytes_eqb_eq. exact Eb.
      * split; reflexivity.
    + split; [reflexivity|]. intros Hl. apply Nat.eqb_neq in El. contradiction.
Qed.

End WebhookTheorems.

(** ** The fulfillment engine *)

Section FulfillmentTheorems.
Context {N : Number}.
Variable env : Env.

Lemma find_user_update id upd now rows :
  find_user id
    (map (fun u => if user_id u =? id then apply_user_update upd now u else u) rows)
  = option_map (apply_user_update upd now) (find_user id rows).
Proof.
  unfold find_user.
  induction rows as [|u rows IH]; cbn [map find]; [reflexivity|].
  destruct (user_id u =? id) eqn:E; cbn [user_id apply_user_update].
  - rewrite E. reflexivity.
  - rewrite E. exact IH.
Qed.

Ltac db_quiet H := rewrite db_run, H by (intros ? ?; discriminate).

Lemma no_faults_quiet : no_faults env -> only_updateGrant_faults env.
Proof. intros H n c _. apply H. Qed.

(** Without database failures the stock update returns; it only writes the
    products. *)
Lemma update_stock_run product w :
  only_updateGrant_faults env ->
  exists w',
    update_stock env product w = (Ok tt, w') /\
    users w' = users w /\ grants w' = grants w /\ transactions w' = transactions w /\
    clock w' = clock w.
Proof.
  intros Hq. unfold update_stock.
  destruct (match li_stock product with Some (-1) => false | _ => true end);
    [|eexists; split; [reflexivity|auto]].
  unfold getProduct. monad_norm. db_quiet Hq.
  cbn [products set_dbCalls].
  destruct (find_product _ _) as [p|]; [|eexists; split; [reflexivity|auto]].
  destruct (0 <? prod_stock p); [|eexists; split; [reflexivity|auto]].
  unfold updateProduct. db_quiet Hq.
  eexists; split; [reflexivity|auto].
Qed.

(** C5, as the code has it: fulfilling a VIP line item sets the tier to the
    purchased level (bronze by default) and the expiry to the current time
    plus the purchased duration (30 days by default), stored in whole
    seconds, whatever expiry the user had.  An administrator's VIP grant
    through [grantItemsToUser] does the same; [manualGrant] has no VIP
    branch and changes no user. *)
Theorem vip_expiry_counts_from_now uid w u0 :
  no_faults env ->
  find_user uid (users w) = Some u0 ->
  (forall user product,
     li_type product = "vip" ->
     exists w' u',
       handle_special_product env uid user product w = (Ok tt, w') /\
       find_user uid (users w') = Some u' /\
       vipLevel u' = or_string (data_level (li_data product)) "bronze" /\
       vipExpires u'
         = Some (stored_seconds
                   (clock w + or_int (data_duration (li_data product)) 30
                              * (24 * 60 * 60 * 1000)))) /\
  (forall admin d,
     find_grant (uuids env (uuidCount w)) (grants w) = None ->
     exists w' u' r,
       grantItemsToUser env (Some admin) uid "vip" (Some d) w = (Ok r, w') /\
       find_user uid (users w') = Some u' /\
       vipLevel u' = or_string (gd_level d) "bronze" /\
       vipExpires u'
         = Some (stored_seconds
                   (clock w + or_int (gd_duration d) 30 * (24 * 60 * 60 * 1000)))) /\
  (forall admin d,
     users (snd (adminController.manualGrant env (Some admin) uid "vip" d w)) = users w).
Proof.
  intros Hnf Hfind. split; [|split].
  - intros user product Htype.
    unfold handle_special_product, credit_coins, activate_vip. rewrite Htype.
    change ("vip" =? "coins")%string with false.
    change ("vip" =? "vip")%string with true.
    unfold Date_now, sendEmail. monad_norm.
    unfold updateUser. rewrite db_run, Hnf.
    match goal with |- context [update_stock env product ?w0] =>
      destruct (update_stock_run product w0 (no_faults_quiet Hnf)) as (w' & Hrun & Hu & _)
    end.
    rewrite Hrun. exists w'. eexists. split; [reflexivity|].
    rewrite Hu. cbn [users set_outbox set_users set_dbCalls clock].
    rewrite find_user_update, Hfind. cbn [option_map].
    repeat split; reflexivity.
  - intros admin d Hfresh.
    unfold grantItemsToUser, getUser. monad_norm. rewrite db_run, Hnf.
    cbn [users set_dbCalls]. rewrite Hfind.
    unfold generateUUID. monad_norm. unfold createGrant. rewrite db_run, Hnf.
    world_simpl. rewrite Hfresh.
    change ("vip" =? "coins")%string with false.
    change ("vip" =? "vip")%string with true.
    destruct (truthy_ostring (fivemIdentifier u0)).
    + unfold deliverItems.
      destruct (dr_delivered _).
      * unfold updateGrant. rewrite db_run, Hnf. unfold Date_now. monad_norm.
        unfold updateUser. rewrite db_run, Hnf. unfold sendEmail. monad_norm.
        unfold logActivity. rewrite db_run, Hnf.
        do 3 eexists. split; [reflexivity|].
        world_simpl.
        rewrite find_user_update, Hfind. cbn [option_map].
        repeat split; reflexivity.
      * unfold Date_now. monad_norm.
        unfold updateUser. rewrite db_run, Hnf. unfold sendEmail. monad_norm.
        unfold logActivity. rewrite db_run, Hnf.
        do 3 eexists. split; [reflexivity|].
        world_simpl.
        rewrite find_user_update, Hfind. cbn [option_map].
        repeat split; reflexivity.
    + unfold Date_now. monad_norm.
      unfold updateUser. rewrite db_run, Hnf. unfold sendEmail. monad_norm.
      unfold logActivity. rewrite db_run, Hnf.
      do 3 eexists. split; [reflexivity|].
      world_simpl.
      rewrite find_user_update, Hfind. cbn [option_map].
      repeat split; reflexivity.
  - intros admin d.
    assert (Hk : keeps users (adminController.manualGrant env (Some admin) uid "vip" d)).
    { unfold adminController.manualGrant.
      change ("vip" =? "coins")%string with false. keeps_auto. }
    apply Hk.
Qed.

Lemma update_fresh_grant id f rows :
  find_grant id rows = None ->
  map (fun g => if (grant_id g =? id)%string then f g else g) rows = rows.
Proof.
  unfold find_grant. induction rows as [|g rows IH]; cbn [find map]; [reflexivity|].
  destruct (grant_id g =? id)%string; [discriminate|].
  intros H. rewrite (IH H). reflexivity.
Qed.

Lemma find_grant_app id l1 l2 :
  find_grant id (l1 ++ l2) =
  match find_grant id l1 with Some g => Some g | None => find_grant id l2 end.
Proof.
  unfold find_grant. induction l1 as [|g l1 IH]; cbn [find app]; [reflexivity|].
  destruct (grant_id g =? id)%string; [reflexivity|exact IH].
Qed.

Lemma create_and_deliver_grant_spec tid uid user product w :
  only_updateGrant_faults env -> uuids_fresh env w ->
  exists g g' w',
    create_and_deliver_grant env tid uid user product w = (Ok g, w') /\
    grants w' = grants w ++ [g'] /\ grant_of_item tid uid product g' /\
    transactions w' = transactions w /\ users w' = users w /\
    uuids_fresh env w'.
Proof.
  intros Hq [Hinj Hfresh].
  assert (Hnew : find_grant (uuids env (uuidCount w)) (grants w) = None)
    by (apply Hfresh; lia).
  assert (Hkeep : forall news w',
             uuidCount w' = S (uuidCount w) ->
             grants w' = grants w ++ [news] ->
             grant_id news = uuids env (uuidCount w) ->
             uuids_fresh env w').
  { intros news w' Hc Hg Hid. split; [exact Hinj|].
    intros k Hk. rewrite Hg, find_grant_app, Hfresh by lia.
    unfold find_grant. cbn [find]. rewrite Hid.
    destruct (uuids env (uuidCount w) =? uuids env k)%string eqn:E; [|reflexivity].
    apply String.eqb_eq, Hinj in E. lia. }
  unfold create_and_deliver_grant, generateUUID. monad_norm.
  unfold createGrant. db_quiet Hq. world_simpl. rewrite Hnew.
  destruct (truthy_ostring (fivemIdentifier user)).
  - unfold deliverItems. destruct (dr_delivered _).
    + unfold updateGrant. rewrite db_run.
      destruct (fault env _ _).
      * do 3 eexists. split; [reflexivity|]. world_simpl.
        split; [reflexivity|]. split; [repeat split; auto|].
        split; [reflexivity|]. split; [reflexivity|].
        eapply Hkeep; reflexivity.
      * do 3 eexists. split; [reflexivity|]. world_simpl.
        rewrite map_app, update_fresh_grant by exact Hnew.
        cbn [map grant_id]. rewrite String.eqb_refl.
        split; [reflexivity|]. split; [repeat split; auto|].
        split; [reflexivity|]. split; [reflexivity|].
        eapply Hkeep; reflexivity.
    + do 3 eexists. split; [reflexivity|]. world_simpl.
      split; [reflexivity|]. split; [repeat split; auto|].
      split; [reflexivity|]. split; [reflexivity|].
      eapply Hkeep; reflexivity.
  - do 3 eexists. split; [reflexivity|]. world_simpl.
    split; [reflexivity|]. split; [repeat split; auto|].
    split; [reflexivity|]. split; [reflexivity|].
    eapply Hkeep; reflexivity.
Qed.



Lemma create_grants_spec tid uid user items : forall created w,
  only_updateGrant_faults env -> uuids_fresh env w ->
  exists all news w',
    create_grants env tid uid user items created w = (Ok all, w') /\
    grants w' = grants w ++ news /\
    Forall2 (grant_of_item tid uid) items news /\
    transactions w' = transactions w /\ users w' = users w.
Proof.
  induction items as [|p items IH]; intros created w Hq Hfresh; cbn [create_grants].
  - exists created, [], w. rewrite app_nil_r. repeat split; constructor.
  - destruct (create_and_deliver_grant_spec tid uid user p w Hq Hfresh)
      as (g & g' & w1 & Hrun1 & Hg1 & Hitem & Ht1 & Hu1 & Hfresh1).
    destruct (IH (created ++ [g]) w1 Hq Hfresh1)
      as (all & news & w2 & Hrun2 & Hg2 & Hitems & Ht2 & Hu2).
    unfold bind. rewrite Hrun1, Hrun2. exists all, (g' :: news), w2.
    split; [reflexivity|]. split; [rewrite Hg2, Hg1, <- app_assoc; reflexivity|].
    split; [constructor; assumption|]. split; congruence.
Qed.


End FulfillmentTheorems.

(** ** The checkout *)

Section CheckoutTheorems.
Context {N : Number}.
Variable env : Env.

Lemma update_row_preserves tid upd now :
  preserves_row (fun t => if (tx_id t =? tid)%string
                          then apply_transaction_update upd now t else t).
Proof. intros t. destruct (tx_id t =? tid)%string; repeat split. Qed.

Lemma find_transaction_map g id rows :
  preserves_row g ->
  find_transaction id (map g rows) = option_map g (find_transaction id rows).
Proof.
  intros Hg. unfold find_transaction.
  induction rows as [|t rows IH]; cbn [map find]; [reflexivity|].
  destruct (Hg t) as [-> _].
  destruct (tx_id t =? id)%string; [reflexivity|exact IH].
Qed.

Lemma find_transaction_app id l1 l2 :
  find_transaction id (l1 ++ l2) =
  match find_transaction id l1 with Some t => Some t | None => find_transaction id l2 end.
Proof.
  unfold find_transaction. induction l1 as [|t l1 IH]; cbn [find app]; [reflexivity|].
  destruct (tx_id t =? id)%string; [reflexivity|exact IH].
Qed.

Lemma validate_items_spec items : forall cart total w,
  match validate_items env items cart total w with
  | (Ok (inr (cart', total')), w') =>
      transactions w' = transactions w /\ products w' = products w /\
      clock w' = clock w /\
      exists added,
        cart' = cart ++ added /\
        total' = fold_left (fun acc li => num_add acc (li_subtotal li)) added total /\
        Forall2 (priced_from (products w)) items added
  | (_, w') => transactions w' = transactions w
  end.
Proof.
  induction items as [|item items IH]; intros cart total w; cbn [validate_items].
  - monad_norm. split; [reflexivity|]. split; [reflexivity|]. split; [reflexivity|].
    exists []. split; [symmetry; apply app_nil_r|]. split; [reflexivity|constructor].
  - unfold getProduct. monad_norm. rewrite db_run.
    destruct (fault env _ _); [reflexivity|]. world_simpl.
    destruct (find_product (item_productId item) (products w)) as [p|] eqn:Hp;
      [|reflexivity].
    cbv beta iota.
    destruct (prod_active p); cbv beta iota; [|reflexivity].
    destruct (andb _ _); cbv beta iota; [reflexivity|].
    specialize (IH (cart ++ [line_item_of p (item_quantity item)])
                   (num_add total (num_times (prod_price p) (item_quantity item)))
                   (set_dbCalls (S (dbCalls w)) w)).
    destruct (validate_items env items _ _ _) as [[[r|[cart' total']]|e] w'];
      try exact IH.
    destruct IH as (Ht & Hpr & Hc & added & Hcart & Htotal & Hitems).
    split; [exact Ht|]. split; [exact Hpr|]. split; [exact Hc|].
    exists (line_item_of p (item_quantity item) :: added).
    rewrite Hcart, <- app_assoc. split; [reflexivity|]. split; [exact Htotal|].
    constructor; [|exact Hitems].
    exists p. split; [exact Hp|]. repeat split.
Qed.

(** Closes a leaf of the case analysis of [createPayment]: the row found
    under a new id is the inserted one, up to updates that keep its amount
    and snapshot. *)
Ltac new_row Hnone :=
  world_simpl;
  rewrite ?find_transaction_map by apply update_row_preserves;
  rewrite ?find_transaction_app, ?Hnone;
  unfold find_transaction; cbn [find tx_id];
  match goal with
  | |- context [(?a =? ?b)%string] => destruct (a =? b)%string
  | _ => idtac
  end;
  cbn [option_map]; intros Heq; try discriminate Heq;
  injection Heq as <-;
  repeat match goal with
         | |- context [if ?c then _ else _] => destruct c
         end;
  cbn [tx_products tx_amount apply_transaction_update].

(** C9: a transaction created by the checkout stores the sum of the
    subtotals of its line items, each subtotal being the catalog price at
    checkout times the quantity; a later change of a catalog price does not
    touch the transactions. *)
Theorem checkout_amount_is_sum_of_subtotals :
  (forall user items paymentMethod w id t,
     find_transaction id (transactions w) = None ->
     find_transaction id
       (transactions (snd (createPayment env (Some user) items paymentMethod w))) = Some t ->
     exists cart,
       tx_products t = ColJson cart /\
       tx_amount t = sum_subtotals cart /\
       Forall2 (priced_from (products w)) items cart) /\
  (forall productId updates w,
     transactions (snd (updateProduct env productId updates w)) = transactions w).
Proof.
  split; [|intros; apply updateProduct_keeps; intros; reflexivity].
  intros user items paymentMethod w id t Hnone.
  unfold createPayment. monad_norm.
  pose proof (validate_items_spec items [] num_zero w) as Hv.
  destruct (validate_items env items [] num_zero w) as [[[r|[cart total]]|e] w0];
    cbv beta iota; try (rewrite Hv, Hnone; discriminate).
  destruct Hv as (Ht & Hpr & Hc & added & Hcart & Htotal & Hitems).
  cbn [app] in Hcart. subst added.
  assert (Hgoal : exists cart0,
             ColJson cart = ColJson cart0 /\ total = sum_subtotals cart0 /\
             Forall2 (priced_from (products w)) items cart0)
    by (exists cart; repeat split; assumption).
  rewrite <- Ht in Hnone. clear Ht Hpr Hc Htotal Hitems.
  destruct (num_le_zero total); [rewrite Hnone; discriminate|].
  unfold generateUUID, Date_now. monad_norm.
  unfold createTransaction. rewrite db_run.
  destruct (fault env _ _); [world_simpl; rewrite Hnone; discriminate|].
  world_simpl.
  destruct (find_transaction (uuids env (uuidCount w0)) (transactions w0));
    [world_simpl; rewrite Hnone; discriminate|].
  destruct (createPixPayment env _ total) as [pix|]; monad_norm.
  - unfold updateTransaction at 1. rewrite db_run.
    destruct (fault env _ _); monad_norm.
    + unfold updateTransaction. rewrite db_run.
      destruct (fault env _ _); new_row Hnone; exact Hgoal.
    + unfold logActivity. rewrite db_run.
      destruct (fault env _ _); monad_norm.
      * unfold updateTransaction. rewrite db_run.
        destruct (fault env _ _); new_row Hnone; exact Hgoal.
      * unfold clearCart. rewrite db_run.
        destruct (fault env _ _); monad_norm.
        -- unfold updateTransaction. rewrite db_run.
           destruct (fault env _ _); new_row Hnone; exact Hgoal.
        -- new_row Hnone; exact Hgoal.
  - unfold updateTransaction. rewrite db_run.
    destruct (fault env _ _); new_row Hnone; exact Hgoal.
Qed.

End CheckoutTheorems.

(** * Further properties *)

(** ** The storage layer *)

Section OrderByProofs.
Context {A : Type} (key : A -> Z).

Lemma insert_desc_HdRel x y l :
  key x <= key y -> HdRel (newest_first key) y l -> HdRel (newest_first key) y (insert_desc key x l).
Proof.
  intros Hxy H. destruct l as [|z l]; cbn [insert_desc].
  - constructor. exact Hxy.
  - destruct (key z <? key x); constructor; [exact Hxy|].
    inversion H; assumption.
Qed.

Lemma insert_desc_sorted x l :
  Sorted (newest_first key) l -> Sorted (newest_first key) (insert_desc key x l).
Proof.
  induction l as [|y l IH]; intros Hs; cbn [insert_desc].
  - repeat constructor.
  - inversion Hs as [|? ? Hs' Hhd]; subst.
    destruct (key y <? key x) eqn:E.
    + constructor; [exact Hs|]. constructor. unfold newest_first.
      apply Z.ltb_lt in E. lia.
    + constructor; [apply IH; exact Hs'|].
      apply insert_desc_HdRel; [|exact Hhd]. apply Z.ltb_ge in E. exact E.
Qed.

Lemma order_by_desc_sorted l : Sorted (newest_first key) (order_by_desc key l).
Proof.
  induction l as [|x l IH]; cbn [order_by_desc fold_right]; [constructor|].
  apply insert_desc_sorted. exact IH.
Qed.

End OrderByProofs.

Section StorageProofs.
Context {N : Number}.
Variable env : Env.

(** X1: [getPendingGrants] returns every grant with status "pending" once,
    no other grant, the most recently granted first, and changes no table. *)
Theorem getPendingGrants_newest_pending w :
  fault env (dbCalls w) CGetPendingGrants = false ->
  exists l w',
    getPendingGrants env w = (Ok l, w') /\
    Permutation l (filter is_pending (grants w)) /\
    (forall g, In g l <-> In g (grants w) /\ grant_status g = "pending") /\
    Sorted (newest_first grant_grantedAt) l /\
    grants w' = grants w /\ users w' = users w /\ transactions w' = transactions w.
Proof.
  intros Hf. unfold getPendingGrants. rewrite db_run, Hf. monad_norm.
  do 2 eexists. split; [reflexivity|]. world_simpl.
  assert (Hperm : Permutation (pending_grants (grants w)) (filter is_pending (grants w)))
    by apply order_by_desc_perm.
  split; [exact Hperm|]. split.
  - intros g. split.
    + intros Hin. apply (Permutation_in _ Hperm) in Hin.
      apply filter_In in Hin as [Hin Hp]. split; [exact Hin|].
      apply String.eqb_eq. exact Hp.
    + intros [Hin Hp]. apply (Permutation_in _ (Permutation_sym Hperm)).
      apply filter_In. split; [exact Hin|]. apply String.eqb_eq. exact Hp.
  - split; [apply order_by_desc_sorted|]. repeat split.
Qed.

(** X2: [getAllTransactions(limit, offset)] returns at most [limit] rows of
    the table, the most recently created first; with offset 0 and a limit
    that covers the table it returns every row once. *)
Theorem getAllTransactions_page limit offset w :
  fault env (dbCalls w) CGetAllTransactions = false ->
  exists l w',
    getAllTransactions env limit offset w = (Ok l, w') /\
    (List.length l <= limit)%nat /\
    (forall t, In t l -> In t (transactions w)) /\
    Sorted (newest_first tx_createdAt) l /\
    (offset = 0%nat -> (List.length (transactions w) <= limit)%nat ->
     Permutation l (transactions w)) /\
    transactions w' = transactions w.
Proof.
  intros Hf. unfold getAllTransactions. rewrite db_run, Hf. monad_norm.
  do 2 eexists. split; [reflexivity|]. world_simpl.
  set (sorted := order_by_desc tx_createdAt (transactions w)).
  assert (Hperm : Permutation sorted (transactions w)) by apply order_by_desc_perm.
  assert (Hsorted : Sorted (newest_first tx_createdAt) sorted)
    by apply order_by_desc_sorted.
  split; [apply firstn_le_length|]. split.
  - intros t Hin. apply In_firstn in Hin.
    apply (Permutation_in _ Hperm).
    rewrite <- (firstn_skipn offset sorted). apply in_or_app. right. exact Hin.
  - split.
    + assert (Hskip : forall n (l : list Transaction),
                 Sorted (newest_first tx_createdAt) l ->
                 Sorted (newest_first tx_createdAt) (skipn n l)).
      { induction n as [|n IH]; intros l Hl; [exact Hl|].
        destruct l as [|x l]; [constructor|]. cbn [skipn]. apply IH.
        inversion Hl; assumption. }
      assert (Hfirst : forall n (l : list Transaction),
                 Sorted (newest_first tx_createdAt) l ->
                 Sorted (newest_first tx_createdAt) (firstn n l)).
      { induction n as [|n IH]; intros l Hl; [constructor|].
        destruct l as [|x l]; [constructor|]. cbn [firstn].
        inversion Hl as [|? ? Hl' Hhd]; subst. constructor; [apply IH; exact Hl'|].
        destruct n; [constructor|]. destruct l; [constructor|]. cbn [firstn].
        constructor. inversion Hhd; assumption. }
      apply Hfirst, Hskip, Hsorted.
    + split; [|reflexivity]. intros -> Hlen. cbn [skipn].
      rewrite firstn_all2; [exact Hperm|].
      rewrite (Permutation_length Hperm). exact Hlen.
Qed.

End StorageProofs.

Section PrimaryKeys.
Context {N : Number}.
Variable env : Env.

Lemma find_transaction_none_notin id rows :
  find_transaction id rows = None <-> ~ In id (map tx_id rows).
Proof.
  unfold find_transaction. induction rows as [|t rows IH]; cbn [find map In].
  - tauto.
  - destruct (tx_id t =? id)%string eqn:E.
    + apply String.eqb_eq in E. split; [discriminate|]. intros H. exfalso. auto.
    + apply String.eqb_neq in E. rewrite IH. tauto.
Qed.

Lemma find_grant_none_notin id rows :
  find_grant id rows = None <-> ~ In id (map grant_id rows).
Proof.
  unfold find_grant. induction rows as [|t rows IH]; cbn [find map In].
  - tauto.
  - destruct (grant_id t =? id)%string eqn:E.
    + apply String.eqb_eq in E. split; [discriminate|]. intros H. exfalso. auto.
    + apply String.eqb_neq in E. rewrite IH. tauto.
Qed.

Lemma map_tx_id_update id upd now rows :
  map tx_id (map (fun t => if (tx_id t =? id)%string
                           then apply_transaction_update upd now t else t) rows)
  = map tx_id rows.
Proof.
  rewrite map_map. apply map_ext. intros t. destruct (tx_id t =? id)%string; reflexivity.
Qed.

Lemma map_grant_id_update id s rows :
  map grant_id (map (fun g => if (grant_id g =? id)%string
                              then set_grant_status s g else g) rows)
  = map grant_id rows.
Proof.
  rewrite map_map. apply map_ext. intros t. destruct (grant_id t =? id)%string; reflexivity.
Qed.

(** X3: the transaction id is a primary key.  Inserting under an id in
    use throws and leaves the table as it was.  Inserting under a new id
    appends one row with the given id, owner, amount, currency, status,
    method and line items and no payment reference; [getTransaction] then
    returns that row, every other id resolves as before, and a second
    insertion under the same id throws, whatever its fields. *)
Theorem createTransaction_primary_key id uid amount cur st pm cart ex w :
  fault env (dbCalls w) (CCreateTransaction id) = false ->
  (find_transaction id (transactions w) = None ->
   exists t w',
     createTransaction env id uid amount cur st pm cart ex w = (Ok t, w') /\
     transactions w' = transactions w ++ [t] /\
     (tx_id t = id /\ tx_userId t = uid /\ tx_amount t = amount /\
      tx_currency t = cur /\ tx_status t = st /\ tx_paymentMethod t = pm /\
      tx_products t = cart /\ tx_paymentId t = None) /\
     (fault env (dbCalls w') (CGetTransaction id) = false ->
      fst (getTransaction env id w') = Ok (Some t)) /\
     (forall other, other <> id ->
        find_transaction other (transactions w') = find_transaction other (transactions w)) /\
     (forall uid2 amount2 cur2 st2 pm2 cart2 ex2,
        exists e w'',
          createTransaction env id uid2 amount2 cur2 st2 pm2 cart2 ex2 w' = (Thrown e, w'') /\
          transactions w'' = transactions w')) /\
  (find_transaction id (transactions w) <> None ->
   exists e w',
     createTransaction env id uid amount cur st pm cart ex w = (Thrown e, w') /\
     transactions w' = transactions w).
Proof.
  intros Hf. unfold createTransaction at 1 3. rewrite !db_run, Hf. world_simpl. split.
  - intros Hnone. rewrite Hnone. eexists. eexists. split; [reflexivity|].
    world_simpl. split; [reflexivity|]. split; [repeat split|].
    assert (Hfound : forall t,
      find_transaction id (transactions w ++ [t]) =
      if (tx_id t =? id)%string then Some t else None).
    { intros t. rewrite find_transaction_app, Hnone. reflexivity. }
    split; [|split].
    + intros Hg. unfold getTransaction. rewrite db_run. world_simpl.
      world_simpl in Hg. rewrite Hg. monad_norm. world_simpl.
      rewrite Hfound. cbn [tx_id]. rewrite String.eqb_refl. reflexivity.
    + intros other Hne. rewrite find_transaction_app.
      destruct (find_transaction other (transactions w)); [reflexivity|].
      unfold find_transaction. cbn [find tx_id].
      destruct (id =? other)%string eqn:E; [|reflexivity].
      apply String.eqb_eq in E. congruence.
    + intros uid2 amount2 cur2 st2 pm2 cart2 ex2. clear Hf.
      unfold createTransaction. rewrite db_run.
      destruct (fault env _ _); [do 2 eexists; split; reflexivity|].
      world_simpl. rewrite Hfound. cbn [tx_id]. rewrite String.eqb_refl.
      do 2 eexists. split; reflexivity.
  - intros Hsome. destruct (find_transaction id (transactions w)); [|congruence].
    do 2 eexists. split; reflexivity.
Qed.

(** X4: no storage call of the ledger introduces a second row with the
    same id: if the transaction ids (grant ids) are pairwise distinct, they
    still are after [createTransaction], [updateTransaction], [createGrant]
    and [updateGrant], whether the call returns or throws. *)
Theorem ledger_ids_stay_unique w :
  NoDup (map tx_id (transactions w)) -> NoDup (map grant_id (grants w)) ->
  (forall id uid amount cur st pm cart ex,
     NoDup (map tx_id (transactions
        (snd (createTransaction env id uid amount cur st pm cart ex w))))) /\
  (forall id upd,
     NoDup (map tx_id (transactions (snd (updateTransaction env id upd w))))) /\
  (forall id tid uid ty data st by_,
     NoDup (map grant_id (grants (snd (createGrant env id tid uid ty data st by_ w))))) /\
  (forall id st,
     NoDup (map grant_id (grants (snd (updateGrant env id st w))))).
Proof.
  intros Ht Hg. repeat split; intros.
  - unfold createTransaction. rewrite db_run. destruct (fault env _ _); [exact Ht|].
    world_simpl. destruct (find_transaction id (transactions w)) eqn:E; [exact Ht|].
    cbn [snd]. world_simpl. rewrite map_app. cbn [map tx_id].
    apply NoDup_app; [exact Ht|repeat constructor; intros []| ].
    intros x Hin [<-|[]]. apply find_transaction_none_notin in E. contradiction.
  - unfold updateTransaction. rewrite db_run. destruct (fault env _ _); [exact Ht|].
    cbn [snd]. world_simpl. rewrite map_tx_id_update. exact Ht.
  - unfold createGrant. rewrite db_run. destruct (fault env _ _); [exact Hg|].
    world_simpl. destruct (find_grant id (grants w)) eqn:E; [exact Hg|].
    cbn [snd]. world_simpl. rewrite map_app. cbn [map grant_id].
    apply NoDup_app; [exact Hg|repeat constructor; intros []| ].
    intros x Hin [<-|[]]. apply find_grant_none_notin in E. contradiction.
  - unfold updateGrant. rewrite db_run. destruct (fault env _ _); [exact Hg|].
    cbn [snd]. world_simpl. rewrite map_grant_id_update. exact Hg.
Qed.

End PrimaryKeys.

Section UpdateProofs.
Context {N : Number}.
Variable env : Env.



Lemma find_grant_other_update id other s rows :
  other <> id ->
  find_grant other
    (map (fun g => if (grant_id g =? id)%string then set_grant_status s g else g) rows)
  = find_grant other rows.
Proof.
  intros Hne. unfold find_grant.
  induction rows as [|t rows IH]; cbn [find map]; [reflexivity|].
  destruct (grant_id t =? id)%string eqn:E.
  - cbn [grant_id set_grant_status]. apply String.eqb_eq in E.
    destruct (grant_id t =? other)%string eqn:E'; [|exact IH].
    apply String.eqb_eq in E'. congruence.
  - destruct (grant_id t =? other)%string; [reflexivity|exact IH].
Qed.


(** X6: a grant inserted under a new id, then updated to another status,
    is read back with that status and every other field as inserted; the
    other grants are as they were. *)
Theorem grant_insert_update_lookup id tid uid ty data st by_ s w :
  no_faults env ->
  find_grant id (grants w) = None ->
  exists g w1 w2 w3 updated,
    createGrant env id tid uid ty data st by_ w = (Ok g, w1) /\
    g = mkGrant id tid uid ty data st by_ (stored_seconds (clock w)) /\
    updateGrant env id s w1 = (Ok (Some updated), w2) /\
    getGrant env id w2 = (Ok (Some updated), w3) /\
    updated = set_grant_status s g /\
    (forall other, other <> id ->
       find_grant other (grants w3) = find_grant other (grants w)).
Proof.
  intros Hnf Hnone.
  set (g := mkGrant id tid uid ty data st by_ (stored_seconds (clock w))).
  assert (Hrows : map (fun x => if (grant_id x =? id)%string
                                then set_grant_status s x else x) (grants w ++ [g])
                  = grants w ++ [set_grant_status s g]).
  { rewrite map_app, update_fresh_grant by exact Hnone.
    cbn [map grant_id g]. rewrite String.eqb_refl. reflexivity. }
  assert (Hfound : find_grant id (grants w ++ [set_grant_status s g])
                   = Some (set_grant_status s g)).
  { rewrite find_grant_app, Hnone. unfold find_grant. cbn [find grant_id set_grant_status g].
    rewrite String.eqb_refl. reflexivity. }
  exists g.
  unfold createGrant. rewrite db_run, Hnf. world_simpl. rewrite Hnone.
  eexists. exists (set_grants (grants w ++ [set_grant_status s g])
                     (set_dbCalls (S (S (dbCalls w))) w)).
  exists (set_dbCalls (S (S (S (dbCalls w))))
            (set_grants (grants w ++ [set_grant_status s g]) w)).
  exists (set_grant_status s g).
  split; [reflexivity|]. split; [reflexivity|].
  split.
  { unfold updateGrant. rewrite db_run, Hnf. world_simpl.
    fold g. rewrite Hrows, Hfound. reflexivity. }
  split.
  { unfold getGrant. rewrite db_run, Hnf. monad_norm. world_simpl.
    rewrite Hfound. reflexivity. }
  split; [reflexivity|].
  intros other Hne. world_simpl. rewrite find_grant_app.
  destruct (find_grant other (grants w)); [reflexivity|].
  unfold find_grant. cbn [find grant_id set_grant_status g].
  destruct (id =? other)%string eqn:E; [|reflexivity].
  apply String.eqb_eq in E. congruence.
Qed.

End UpdateProofs.

(** ** The delivery coordinator, continued *)

Section IdentifierProofs.

Lemma includes_colon_app a b :
  includes_colon (a ++ b) = includes_colon a || includes_colon b.
Proof.
  induction a as [|c a IH]; cbn [append includes_colon]; [reflexivity|].
  rewrite IH, orb_assoc. reflexivity.
Qed.

Lemma prefix_before_colon_no_colon s :
  includes_colon s = false -> prefix_before_colon s = s.
Proof.
  induction s as [|c s IH]; cbn [includes_colon prefix_before_colon]; [reflexivity|].
  destruct (c =? ":")%char; [discriminate|]. cbn [orb]. intros H. rewrite (IH H). reflexivity.
Qed.

Lemma prefix_before_colon_app p rest :
  includes_colon p = false -> prefix_before_colon (p ++ String ":" rest) = p.
Proof.
  induction p as [|c p IH]; cbn [includes_colon append prefix_before_colon].
  - reflexivity.
  - destruct (c =? ":")%char; [discriminate|]. cbn [orb]. intros H. rewrite (IH H). reflexivity.
Qed.

(** X7: [formatIdentifier] leaves an identifier with a colon alone and puts
    "steam:" before any other, so its result always has a colon, applying it
    twice changes nothing more, and what it builds passes
    [validateIdentifier].  [validateIdentifier] looks only at the text before
    the first colon: every allow-listed namespace passes with any id after
    the colon, also an empty one, and nothing else passes. *)
Theorem identifier_namespaces s :
  includes_colon (formatIdentifier s) = true /\
  formatIdentifier (formatIdentifier s) = formatIdentifier s /\
  (includes_colon s = true -> formatIdentifier s = s) /\
  (includes_colon s = false -> validateIdentifier (formatIdentifier s) = true) /\
  (forall p rest, In p validPrefixes -> validateIdentifier (p ++ ":" ++ rest) = true) /\
  (validateIdentifier s = true <-> In (prefix_before_colon s) validPrefixes).
Proof.
  assert (Hfmt : includes_colon (formatIdentifier s) = true).
  { unfold formatIdentifier. destruct (includes_colon s) eqn:E; cbn [negb]; [exact E|].
    reflexivity. }
  assert (Hvalid : forall p rest, In p validPrefixes ->
                                  validateIdentifier (p ++ ":" ++ rest) = true).
  { intros p rest Hin. unfold validateIdentifier.
    change (":" ++ rest)%string with (String ":" rest).
    rewrite prefix_before_colon_app.
    - apply existsb_exists. exists p. split; [exact Hin|apply String.eqb_refl].
    - cbn in Hin. repeat (destruct Hin as [<-|Hin]; [reflexivity|]). destruct Hin. }
  split; [exact Hfmt|]. split.
  { unfold formatIdentifier at 1. rewrite Hfmt. reflexivity. }
  split.
  { intros H. unfold formatIdentifier. rewrite H. reflexivity. }
  split.
  { intros H. unfold formatIdentifier. rewrite H. cbn [negb].
    apply (Hvalid "steam" s). cbn. auto. }
  split; [exact Hvalid|].
  unfold validateIdentifier. rewrite existsb_exists. split.
  - intros (p & Hin & Heq). apply String.eqb_eq in Heq. rewrite Heq. exact Hin.
  - intros Hin. exists (prefix_before_colon s). split; [exact Hin|apply String.eqb_refl].
Qed.

End IdentifierProofs.

Section RetryProofs.
Context {N : Number}.
Variable env : Env.

(** X8: without a server token every delivery is answered by the mock and
    counts as delivered, whatever the mock says about the player being
    online: [deliverItemsWithRetry] returns after one attempt and no wait. *)
Theorem mock_mode_always_delivers data w :
  truthy_string (serverToken env) = false ->
  exists r,
    deliverItemsWithRetry env data w
      = (Ok (Some r), set_deliveries (deliveries w ++ [data]) w) /\
    deliverItems env data w = (Ok r, set_deliveries (deliveries w ++ [data]) w) /\
    dr_success r = true /\ dr_delivered r = true /\ dr_retryAfter r = None /\
    dr_message r = "Items delivered successfully".
Proof.
  intros Htok.
  assert (Hr : forall n, makeRequest_deliver env n data
                         = Ok (Some (getMockResponse_deliver env n))).
  { intros n. unfold makeRequest_deliver. rewrite Htok. reflexivity. }
  eexists. unfold deliverItemsWithRetry. change (Z.to_nat retryAttempts) with 3%nat.
  cbn [retry_loop]. unfold deliverItems. monad_norm. rewrite Hr.
  cbn [delivery_result getMockResponse_deliver resp_success dr_delivered].
  repeat split.
Qed.

Lemma retry_loop_keeps {T} (proj : World -> T) data :
  (forall v w, proj (set_deliveries v w) = proj w) ->
  (forall t c w, proj (set_time t c w) = proj w) ->
  forall remaining attempt last, keeps proj (retry_loop env remaining attempt data last).
Proof.
  intros Hd Ht. induction remaining as [|k IH]; intros attempt last; cbn [retry_loop].
  - apply keeps_ret.
  - apply keeps_bind; [apply deliverItems_keeps; exact Hd|]. intros r.
    destruct (dr_delivered r); [apply keeps_ret|].
    apply keeps_bind; [|intros _; apply IH].
    destruct (attempt <? retryAttempts); [|apply keeps_ret].
    apply keeps_modify. intros w0. apply Ht.
Qed.

(** X9: [deliverItemsWithRetry] touches no table and sends no mail.  It
    sleeps at most twice, 5000 ms each time; when all three attempts fail it
    has sent exactly three requests, slept exactly twice and returns a
    result that is not delivered. *)
Theorem deliverItemsWithRetry_waits data w :
  let w' := snd (deliverItemsWithRetry env data w) in
  users w' = users w /\ grants w' = grants w /\ transactions w' = transactions w /\
  products w' = products w /\ activityLogs w' = activityLogs w /\ outbox w' = outbox w /\
  (exists k, (k <= 2)%nat /\ timers w' = timers w ++ repeat 5000 k) /\
  ((forall k, (k < 3)%nat ->
      dr_delivered (attempt_result env (List.length (deliveries w) + k) data) = false) ->
   timers w' = timers w ++ [5000; 5000] /\
   deliveries w' = deliveries w ++ [data; data; data] /\
   exists r, fst (deliverItemsWithRetry env data w) = Ok (Some r) /\
             dr_delivered r = false).
Proof.
  intros w'. subst w'. unfold deliverItemsWithRetry.
  change (Z.to_nat retryAttempts) with 3%nat.
  repeat (split; [apply (retry_loop_keeps _ data); intros; reflexivity|]).
  destruct (retry_loop_spec env data 2 1 None w)
    as (n & r & w1 & Hrun & Hn & Hd & Ht & Hc & Hr & Hprev & Hlast); [reflexivity|].
  rewrite Hrun. cbn [fst snd]. unfold retryDelay in Ht. split.
  { exists (n - 1)%nat. split; [lia|exact Ht]. }
  intros Hall.
  assert (Hfail : dr_delivered r = false).
  { rewrite Hr.
    replace (List.length (deliveries w) + n - 1)%nat
      with (List.length (deliveries w) + (n - 1))%nat by lia.
    apply Hall. lia. }
  assert (Hn3 : n = 3%nat) by (apply Hlast; exact Hfail). subst n.
  split; [exact Ht|]. split; [exact Hd|].
  exists r. split; [reflexivity|exact Hfail].
Qed.

End RetryProofs.

(** ** Manual delivery *)

Section ManualDeliveryProofs.
Context {N : Number}.
Variable env : Env.

(** X10: a manual delivery with an identifier outside the allow-list is
    answered 400 and one for an identity no user has is answered 404, in both
    cases without a grant.  Otherwise exactly one grant is inserted for the
    user with that identity and, after the retries, stored as "delivered" if
    the last attempt delivered and as "failed" if not: it is never left
    pending. *)
Theorem manual_delivery_settles_grant admin identifier grantType grantData tid w :
  (validateIdentifier identifier = false ->
   serverController.deliverItems env (Some admin) identifier grantType grantData tid w
     = (Ok (mkReply 400 (Failure "Invalid FiveM identifier format")), w)) /\
  (validateIdentifier identifier = true ->
   fault env (dbCalls w) CGetAllUsers = false ->
   find (serverController.has_identity identifier) (firstn 1000 (users w)) = None ->
   exists w',
     serverController.deliverItems env (Some admin) identifier grantType grantData tid w
       = (Ok (mkReply 404 (Failure "User not found")), w') /\
     grants w' = grants w /\ deliveries w' = deliveries w) /\
  (forall u,
     validateIdentifier identifier = true ->
     no_faults env ->
     find (serverController.has_identity identifier) (firstn 1000 (users w)) = Some u ->
     find_grant (uuids env (uuidCount w)) (grants w) = None ->
     exists r g w',
       serverController.deliverItems env (Some admin) identifier grantType grantData tid w
         = (Ok (mkReply 200 (Delivery (uuids env (uuidCount w)) (dr_delivered r)
                                      (dr_retryAfter r))), w') /\
       grants w' = grants w ++ [g] /\
       g = mkGrant (uuids env (uuidCount w)) (or_undefined tid) (user_id u) grantType
                   grantData (if dr_delivered r then "delivered" else "failed")
                   (Some (au_id admin)) (stored_seconds (clock w)) /\
       grant_status g <> "pending" /\
       users w' = users w /\ transactions w' = transactions w).
Proof.
  split; [|split].
  - intros Hv. unfold serverController.deliverItems. rewrite Hv. reflexivity.
  - intros Hv Hf Hnone. unfold serverController.deliverItems. rewrite Hv. cbn [negb].
    unfold serverController.deliver_process, generateUUID, getAllUsers.
    monad_norm. rewrite db_run. world_simpl. rewrite Hf. world_simpl.
    unfold skipn. rewrite Hnone. eexists. split; [reflexivity|]. split; reflexivity.
  - intros u Hv Hnf Hfind Hfresh.
    unfold serverController.deliverItems. rewrite Hv. cbn [negb].
    unfold serverController.deliver_process, generateUUID, getAllUsers.
    monad_norm. rewrite db_run, Hnf. world_simpl. unfold skipn. rewrite Hfind.
    unfold createGrant. rewrite db_run, Hnf. world_simpl. rewrite Hfresh.
    unfold deliverItemsWithRetry. change (Z.to_nat retryAttempts) with 3%nat.
    match goal with |- context [retry_loop env 3 1 ?d None ?w0] =>
      destruct (retry_loop_spec env d 2 1 None w0)
        as (n & r & w1 & Hrun & _); [reflexivity|];
      pose proof (retry_loop_keeps env grants d
                    (fun _ _ => eq_refl) (fun _ _ _ => eq_refl) 3%nat 1 None w0) as Hg;
      pose proof (retry_loop_keeps env users d
                    (fun _ _ => eq_refl) (fun _ _ _ => eq_refl) 3%nat 1 None w0) as Hu;
      pose proof (retry_loop_keeps env transactions d
                    (fun _ _ => eq_refl) (fun _ _ _ => eq_refl) 3%nat 1 None w0) as Ht
    end.
    rewrite Hrun in Hg, Hu, Ht |- *. cbn [snd] in Hg, Hu, Ht. world_simpl in Hg.
    world_simpl in Hu. world_simpl in Ht.
    unfold updateGrant. rewrite db_run, Hnf. unfold logActivity. rewrite db_run, Hnf.
    monad_norm. world_simpl.
    exists r. do 2 eexists. split; [reflexivity|]. world_simpl.
    rewrite Hg, Hu, Ht.
    rewrite map_app, update_fresh_grant by exact Hfresh.
    cbn [map grant_id]. rewrite String.eqb_refl. cbn [set_grant_status grant_id
      grant_transactionId grant_userId grant_type grant_data grant_grantedBy grant_grantedAt].
    split; [reflexivity|]. split; [reflexivity|].
    split; [|split; reflexivity].
    cbn [grant_status]. destruct (dr_delivered r); discriminate.
Qed.

End ManualDeliveryProofs.

(** ** Delivery confirmations *)

Section ConfirmationProofs.
Context {N : Number}.
Variable env : Env.
Variable secret : option string.
Variable parse : string -> Parsed DeliveryEnvelope.

Lemma confirmation_unverified req w :
  truthy_ostring secret = false \/ truthy_ostring (req_signature req) = false ->
  webhookController.handleDeliveryConfirmation env secret parse req w
  = try_catch (webhookController.confirmation_process env parse req)
      (fun _ => ret (mkReply 500 (Failure "Webhook processing failed"))) w.
Proof.
  intros Hmissing. unfold webhookController.handleDeliveryConfirmation.
  destruct secret as [s|], (req_signature req) as [signature|]; try reflexivity.
  cbn [truthy_ostring] in Hmissing.
  destruct Hmissing as [H|H]; rewrite H; [|rewrite andb_false_r]; reflexivity.
Qed.

Lemma confirmation_admitted_run req w :
  confirmation_admitted env secret req ->
  webhookController.handleDeliveryConfirmation env secret parse req w
  = try_catch (webhookController.confirmation_process env parse req)
      (fun _ => ret (mkReply 500 (Failure "Webhook processing failed"))) w.
Proof.
  intros [H|[H|(s & signature & Hs & Hsig & Hok)]].
  - apply confirmation_unverified. left. exact H.
  - apply confirmation_unverified. right. exact H.
  - unfold webhookController.handleDeliveryConfirmation.
    rewrite Hs, Hsig, Hok.
    destruct (truthy_string s && truthy_string signature); reflexivity.
Qed.

Lemma find_grant_update id s rows :
  find_grant id
    (map (fun g => if (grant_id g =? id)%string then set_grant_status s g else g) rows)
  = option_map (set_grant_status s) (find_grant id rows).
Proof.
  unfold find_grant. induction rows as [|g rows IH]; cbn [map find]; [reflexivity|].
  destruct (grant_id g =? id)%string eqn:E; cbn [grant_id set_grant_status].
  - rewrite E. reflexivity.
  - rewrite E. exact IH.
Qed.

(** X11: a delivery confirmation for an existing grant is answered 200 and
    stores the status it carries, whatever status the grant had, so that a
    delivered grant can go back to "pending" or to any other text.  It
    changes nothing else of the grant, no other grant, no user and no
    transaction, and it sends the notification mail only for the status
    "delivered" of a grant with data whose user exists. *)
Theorem delivery_confirmation_overwrites_status req w p gid s identifier g :
  no_faults env ->
  truthy_ostring secret = false \/ truthy_ostring (req_signature req) = false ->
  parse (req_payload req) = ParsedObject p ->
  conf_grantId p = Str gid -> truthy_string gid = true ->
  conf_status p = Str s -> truthy_string s = true ->
  conf_identifier p = Str identifier -> truthy_string identifier = true ->
  find_grant gid (grants w) = Some g ->
  exists w',
    webhookController.handleDeliveryConfirmation env secret parse req w
      = (Ok (mkReply 200 (DeliveryConfirmed gid)), w') /\
    find_grant gid (grants w') = Some (set_grant_status s g) /\
    (forall other, other <> gid -> find_grant other (grants w') = find_grant other (grants w)) /\
    users w' = users w /\ transactions w' = transactions w /\
    outbox w' = outbox w ++
      (if (s =? "delivered")%string then
         match find_user (grant_userId g) (users w), grant_data g with
         | Some u, Some d => [webhookController.delivery_mail u d]
         | _, _ => []
         end
       else []).
Proof.
  intros Hnf Hmissing Hparse Hgid Htg Hs Hts Hid Hti Hfind.
  rewrite (confirmation_unverified req w Hmissing).
  unfold webhookController.confirmation_process. monad_norm.
  rewrite Hparse. monad_norm. rewrite Hgid, Hs, Hid, Htg, Hts, Hti. cbn [andb].
  unfold getGrant. rewrite db_run, Hnf. monad_norm. world_simpl. rewrite Hfind.
  unfold updateGrant. rewrite db_run, Hnf. unfold logActivity. rewrite db_run, Hnf.
  monad_norm. world_simpl.
  assert (Hafter : forall rows, rows = map (fun x => if (grant_id x =? gid)%string
                                                     then set_grant_status s x else x)
                                            (grants w) ->
            find_grant gid rows = Some (set_grant_status s g) /\
            (forall other, other <> gid -> find_grant other rows = find_grant other (grants w))).
  { intros rows ->. split.
    - rewrite find_grant_update, Hfind. reflexivity.
    - intros other Hne. apply find_grant_other_update. exact Hne. }
  destruct (Hafter _ eq_refl) as [Hstored Hothers].
  destruct (s =? "delivered")%string.
  - unfold getUser. rewrite db_run, Hnf. monad_norm. world_simpl.
    destruct (find_user (grant_userId g) (users w)) as [u|];
      [destruct (grant_data g) as [d|]|].
    + unfold sendEmail. monad_norm. eexists. split; [reflexivity|]. world_simpl.
      repeat split; assumption.
    + eexists. split; [reflexivity|]. world_simpl. rewrite app_nil_r.
      repeat split; assumption.
    + eexists. split; [reflexivity|]. world_simpl. rewrite app_nil_r.
      repeat split; assumption.
  - eexists. split; [reflexivity|]. world_simpl. rewrite app_nil_r.
    repeat split; assumption.
Qed.

(** X12: the rejections of a delivery confirmation.  When a secret is
    configured and a signature header is present, a signature that is not
    accepted stops the request before the body is parsed: the store is as it
    was and the answer is 401 (the comparison throws when the lengths
    differ).  A request that gets past the check, or is not checked, is
    answered 500 when it cannot be parsed, 400 without a grant id, a status
    or an identifier, and 404 for a grant that does not exist; each leaves
    every grant, user and transaction as it was and sends no mail. *)
Theorem delivery_confirmation_rejections req w :
  (forall s signature,
     secret = Some s -> req_signature req = Some signature ->
     truthy_string s = true -> truthy_string signature = true ->
     verifyWebhookSignature env (req_payload req) signature s <> Ok true ->
     snd (webhookController.handleDeliveryConfirmation env secret parse req w) = w /\
     (verifyWebhookSignature env (req_payload req) signature s = Ok false ->
      fst (webhookController.handleDeliveryConfirmation env secret parse req w)
        = Ok (mkReply 401 (Failure "Invalid signature")))) /\
  (confirmation_admitted env secret req ->
   (parse (req_payload req) = ParseError \/ parse (req_payload req) = ParsedNull ->
    webhookController.handleDeliveryConfirmation env secret parse req w
      = (Ok (mkReply 500 (Failure "Webhook processing failed")), w)) /\
   (forall p,
      parse (req_payload req) = ParsedObject p ->
      truthy_jstr (conf_grantId p) && truthy_jstr (conf_status p)
        && truthy_jstr (conf_identifier p) = false ->
      webhookController.handleDeliveryConfirmation env secret parse req w
        = (Ok (mkReply 400 (Failure "Missing required delivery data")), w)) /\
   (forall p gid,
      parse (req_payload req) = ParsedObject p ->
      truthy_jstr (conf_grantId p) && truthy_jstr (conf_status p)
        && truthy_jstr (conf_identifier p) = true ->
      conf_grantId p = Str gid ->
      find_grant gid (grants w) = None ->
      fault env (dbCalls w) (CGetGrant gid) = false ->
      exists w',
        webhookController.handleDeliveryConfirmation env secret parse req w
          = (Ok (mkReply 404 (Failure "Grant not found")), w') /\
        grants w' = grants w /\ users w' = users w /\
        transactions w' = transactions w /\ outbox w' = outbox w /\
        activityLogs w' = activityLogs w)).
Proof.
  split.
  { intros s signature Hs Hsig Hts Htsig Hbad.
    unfold webhookController.handleDeliveryConfirmation.
    rewrite Hs, Hsig, Hts, Htsig. cbn [andb].
    destruct (verifyWebhookSignature env (req_payload req) signature s) as [[|]|e];
      [congruence| |]; monad_norm.
    - split; [reflexivity|]. intros _. reflexivity.
    - split; [reflexivity|]. discriminate. }
  intros Hadmitted. rewrite (confirmation_admitted_run req w Hadmitted).
  unfold webhookController.confirmation_process. monad_norm.
  split; [|split].
  - intros [H|H]; rewrite H; reflexivity.
  - intros p Hparse Hfalsy. rewrite Hparse. monad_norm.
    destruct (conf_grantId p) as [| |a]; try reflexivity.
    destruct (conf_status p) as [| |b]; try reflexivity.
    destruct (conf_identifier p) as [| |c]; try reflexivity.
    cbn [truthy_jstr] in Hfalsy. rewrite Hfalsy. reflexivity.
  - intros p gid Hparse Htruthy Hgid Hnone Hf. rewrite Hparse. monad_norm.
    rewrite Hgid in *.
    destruct (conf_status p) as [| |b];
      try (cbn in Htruthy; rewrite ?andb_false_r in Htruthy; discriminate).
    destruct (conf_identifier p) as [| |c];
      try (cbn in Htruthy; rewrite ?andb_false_r in Htruthy; discriminate).
    cbn [truthy_jstr] in Htruthy. rewrite Htruthy.
    unfold getGrant. rewrite db_run, Hf. monad_norm. world_simpl. rewrite Hnone.
    eexists. split; [reflexivity|]. repeat split.
Qed.

End ConfirmationProofs.

(** ** The payment webhooks, continued *)

Section WebhookRejections.
Context {N : Number}.
Variable env : Env.

Lemma processFailedPayment_keeps_footprint tid uid s :
  keeps fulfillment_footprint (processFailedPayment env tid uid s).
Proof. unfold processFailedPayment. keeps_auto. Qed.

Lemma parseWebhookData_status e :
  (wd_status (parseWebhookData e) = "approved" \/
   wd_status (parseWebhookData e) = "cancelled" \/
   wd_status (parseWebhookData e) = "pending") /\
  (wd_status (parseWebhookData e) = "approved" <->
   exists p, efi_pix0 e = Some p /\ pix_status p = Str "CONCLUIDA").
Proof.
  unfold parseWebhookData. cbn [wd_status].
  destruct (efi_pix0 e) as [p|].
  - destruct (jstr_is (pix_status p) "CONCLUIDA") eqn:E.
    + split; [auto|]. split; [|intros _; reflexivity]. intros _. exists p. split; [reflexivity|].
      destruct (pix_status p) as [| |s]; try discriminate E.
      cbn [jstr_is] in E. apply String.eqb_eq in E. rewrite E. reflexivity.
    + destruct (jstr_is (pix_status p) "REMOVIDA_PELO_USUARIO_RECEBEDOR") eqn:E'.
      all: (split; [auto|]; split; [intros Habs; discriminate Habs|]).
      all: intros (q & Hq & Hc); injection Hq as <-; rewrite Hc in E;
        cbn [jstr_is] in E; rewrite String.eqb_refl in E; discriminate E.
  - cbn [jstr_is]. split; [auto|]. split; [discriminate|].
    intros (q & H & _). discriminate H.
Qed.

Lemma keeps_bind_throw {T A B} (proj : World -> T) e (k : A -> M B) :
  keeps proj (bind (throw e) k).
Proof. intros w. reflexivity. Qed.

Lemma keeps_bind_ret {T A B} (proj : World -> T) (x : A) (k : A -> M B) :
  keeps proj (k x) -> keeps proj (bind (ret x) k).
Proof. intros H w. exact (H w). Qed.

(** X13: the status an EfiBank webhook carries is "approved" exactly when
    the first pix entry has status CONCLUIDA, otherwise "cancelled" or
    "pending" and never "failed".  A webhook that is not "approved" creates
    no grant, changes no account and no stock, and sends no delivery request
    and no mail, whatever the database and the signature check do. *)
Theorem only_concluida_fulfills req w :
  (forall e,
     (wd_status (parseWebhookData e) = "approved" \/
      wd_status (parseWebhookData e) = "cancelled" \/
      wd_status (parseWebhookData e) = "pending") /\
     (wd_status (parseWebhookData e) = "approved" <->
      exists p, efi_pix0 e = Some p /\ pix_status p = Str "CONCLUIDA")) /\
  ((forall e p, JSON_parse_efi env (req_payload req) = ParsedObject e ->
                efi_pix0 e = Some p -> pix_status p <> Str "CONCLUIDA") ->
   let w' := snd (handleEfiBankWebhook env req w) in
   grants w' = grants w /\ users w' = users w /\ products w' = products w /\
   deliveries w' = deliveries w /\ outbox w' = outbox w).
Proof.
  split; [exact parseWebhookData_status|].
  intros Hnot.
  assert (Hk : keeps fulfillment_footprint (handleEfiBankWebhook env req)).
  { unfold handleEfiBankWebhook, efibank_process.
    apply keeps_bind; [apply keeps_lift|]. intros valid.
    destruct (negb valid); [apply keeps_ret|].
    apply keeps_try_catch; [|intros; apply keeps_ret].
    destruct (JSON_parse_efi env (req_payload req)) as [| |e] eqn:Hparse;
      [apply keeps_bind_throw|apply keeps_bind_throw|].
    assert (Hs : (wd_status (parseWebhookData e) =? "approved")%string = false).
    { apply String.eqb_neq. intros Happ.
      apply (proj2 (parseWebhookData_status e)) in Happ as (p & Hp & Hc).
      exact (Hnot e p eq_refl Hp Hc). }
    apply keeps_bind_ret.
    apply keeps_bind; [auto with keeps|]. intros rows.
    destruct (find _ rows) as [t|]; [|apply keeps_ret].
    pose proof processFailedPayment_keeps_footprint.
    unfold process_by_status. rewrite Hs. cbn [andb].
    keeps_auto. }
  pose proof (Hk w) as H. unfold fulfillment_footprint in H.
  injection H as H1 H2 H3 H4 H5. auto.
Qed.

Lemma find_none_if_never {A} (f : A -> bool) l :
  (forall x, f x = false) -> find f l = None.
Proof.
  intros H. induction l as [|x l IH]; cbn [find]; [reflexivity|].
  rewrite H. exact IH.
Qed.

(** X14: an EfiBank webhook with an accepted signature whose body cannot be
    parsed is answered 500 with the store untouched; one whose payment id
    belongs to none of the 1000 most recent transactions is answered 404 and
    changes no transaction, grant or user and writes no log entry.  A body
    without any txid never resolves to a transaction. *)
Theorem efibank_webhook_rejections req w :
  validateWebhookSignature env (req_payload req) (req_signature req) = Ok true ->
  (JSON_parse_efi env (req_payload req) = ParseError \/
   JSON_parse_efi env (req_payload req) = ParsedNull ->
   handleEfiBankWebhook env req w
     = (Ok (mkResponse 500 (ErrorBody "Webhook processing failed")), w)) /\
  (forall e,
     JSON_parse_efi env (req_payload req) = ParsedObject e ->
     fault env (dbCalls w) CGetAllTransactions = false ->
     resolved_transaction w (parseWebhookData e) = None \/
     wd_paymentId (parseWebhookData e) = Undefined ->
     exists w',
       handleEfiBankWebhook env req w
         = (Ok (mkResponse 404 (ErrorBody "Transaction not found")), w') /\
       transactions w' = transactions w /\ grants w' = grants w /\
       users w' = users w /\ activityLogs w' = activityLogs w).
Proof.
  intros Hvalid. unfold handleEfiBankWebhook, efibank_process. rewrite Hvalid.
  monad_norm. split.
  - intros [H|H]; rewrite H; reflexivity.
  - intros e Hparse Hf Hnone. rewrite Hparse. monad_norm.
    unfold getAllTransactions. rewrite db_run, Hf. monad_norm.
    change (find _ _) with (resolved_transaction w (parseWebhookData e)).
    assert (Hres : resolved_transaction w (parseWebhookData e) = None).
    { destruct Hnone as [H|H]; [exact H|].
      unfold resolved_transaction. apply find_none_if_never. intros t. rewrite H.
      destruct (tx_paymentId t); reflexivity. }
    rewrite Hres. eexists. split; [reflexivity|]. repeat split.
Qed.

(** X15: a generic payment webhook that is not signature-checked and whose
    body cannot be parsed is answered 500, one without a transaction id or
    a status 400, both with the store untouched; one for an unknown
    transaction id is answered 404 and changes no transaction, grant or user
    and writes no log entry. *)
Theorem generic_webhook_rejections req w :
  truthy_ostring (WEBHOOK_SECRET env) = false \/
  truthy_ostring (req_signature req) = false ->
  (JSON_parse_generic env (req_payload req) = ParseError \/
   JSON_parse_generic env (req_payload req) = ParsedNull ->
   handleGenericPaymentWebhook env req w
     = (Ok (mkResponse 500 (ErrorBody "Webhook processing failed")), w)) /\
  (forall p,
     JSON_parse_generic env (req_payload req) = ParsedObject p ->
     truthy_jstr (gen_transactionId p) && truthy_jstr (gen_status p) = false ->
     handleGenericPaymentWebhook env req w
       = (Ok (mkResponse 400 (ErrorBody "Missing required webhook data")), w)) /\
  (forall p tid,
     JSON_parse_generic env (req_payload req) = ParsedObject p ->
     truthy_jstr (gen_transactionId p) && truthy_jstr (gen_status p) = true ->
     gen_transactionId p = Str tid ->
     fault env (dbCalls w) (CGetTransaction tid) = false ->
     find_transaction tid (transactions w) = None ->
     exists w',
       handleGenericPaymentWebhook env req w
         = (Ok (mkResponse 404 (ErrorBody "Transaction not found")), w') /\
       transactions w' = transactions w /\ grants w' = grants w /\
       users w' = users w /\ activityLogs w' = activityLogs w).
Proof.
  intros Hmissing.
  assert (Hskip : handleGenericPaymentWebhook env req w
            = try_catch (generic_process env req)
                (fun _ => ret (mkResponse 500 (ErrorBody "Webhook processing failed"))) w).
  { unfold handleGenericPaymentWebhook.
    destruct (WEBHOOK_SECRET env) as [secret|], (req_signature req) as [signature|];
      try reflexivity.
    cbn [truthy_ostring] in Hmissing.
    destruct Hmissing as [H|H]; rewrite H; [|rewrite andb_false_r]; reflexivity. }
  rewrite Hskip. unfold generic_process. monad_norm. split; [|split].
  - intros [H|H]; rewrite H; reflexivity.
  - intros p Hparse Hfalsy. rewrite Hparse. monad_norm.
    destruct (gen_transactionId p) as [| |a]; try reflexivity.
    destruct (gen_status p) as [| |b]; try reflexivity.
    cbn [truthy_jstr] in Hfalsy. rewrite Hfalsy. reflexivity.
  - intros p tid Hparse Htruthy Htid Hf Hnone. rewrite Hparse. monad_norm.
    rewrite Htid in *.
    destruct (gen_status p) as [| |b];
      try (cbn in Htruthy; rewrite ?andb_false_r in Htruthy; discriminate).
    cbn [truthy_jstr] in Htruthy. rewrite Htruthy.
    unfold getTransaction. rewrite db_run, Hf. monad_norm. world_simpl. rewrite Hnone.
    eexists. split; [reflexivity|]. repeat split.
Qed.

End WebhookRejections.

(** ** The fulfillment engine, continued *)

Section CoinProofs.
Context {N : Number}.
Variable env : Env.

Lemma handle_special_product_coins uid user product w u0 :
  no_faults env ->
  find_user uid (users w) = Some u0 ->
  exists w' u1,
    handle_special_product env uid user product w = (Ok tt, w') /\
    find_user uid (users w') = Some u1 /\
    coins u1 = (if (li_type product =? "coins")%string
                then coins user + coin_amount product else coins u0).
Proof.
  intros Hnf Hfind.
  pose proof (no_faults_quiet env Hnf) as Hq.
  unfold handle_special_product, credit_coins, activate_vip.
  unfold Date_now, sendEmail. monad_norm.
  destruct (li_type product =? "coins")%string.
  - unfold updateUser at 1. rewrite db_run, Hnf.
    destruct (li_type product =? "vip")%string.
    + unfold updateUser. rewrite db_run, Hnf.
      match goal with |- context [update_stock env product ?w0] =>
        destruct (update_stock_run env product w0 Hq) as (w' & Hrun & Hu & _)
      end.
      rewrite Hrun. exists w'. eexists. split; [reflexivity|]. rewrite Hu. world_simpl.
      rewrite !find_user_update, Hfind. cbn [option_map]. split; reflexivity.
    + match goal with |- context [update_stock env product ?w0] =>
        destruct (update_stock_run env product w0 Hq) as (w' & Hrun & Hu & _)
      end.
      rewrite Hrun. exists w'. eexists. split; [reflexivity|]. rewrite Hu. world_simpl.
      rewrite !find_user_update, Hfind. cbn [option_map]. split; reflexivity.
  - destruct (li_type product =? "vip")%string.
    + unfold updateUser. rewrite db_run, Hnf.
      match goal with |- context [update_stock env product ?w0] =>
        destruct (update_stock_run env product w0 Hq) as (w' & Hrun & Hu & _)
      end.
      rewrite Hrun. exists w'. eexists. split; [reflexivity|]. rewrite Hu. world_simpl.
      rewrite !find_user_update, Hfind. cbn [option_map]. split; reflexivity.
    + match goal with |- context [update_stock env product ?w0] =>
        destruct (update_stock_run env product w0 Hq) as (w' & Hrun & Hu & _)
      end.
      rewrite Hrun. exists w'. exists u0. split; [reflexivity|]. rewrite Hu.
      split; [exact Hfind|reflexivity].
Qed.

Lemma handle_special_products_coins uid user items : forall w u0,
  no_faults env ->
  find_user uid (users w) = Some u0 ->
  exists w' u1,
    handle_special_products env uid user items w = (Ok tt, w') /\
    find_user uid (users w') = Some u1 /\
    coins u1 = match last_coin_amount items with
               | Some a => coins user + a
               | None => coins u0
               end.
Proof.
  induction items as [|li items IH]; intros w u0 Hnf Hfind;
    cbn [handle_special_products last_coin_amount].
  - exists w, u0. repeat split; assumption.
  - destruct (handle_special_product_coins uid user li w u0 Hnf Hfind)
      as (w1 & u1 & Hrun1 & Hfind1 & Hc1).
    destruct (IH w1 u1 Hnf Hfind1) as (w2 & u2 & Hrun2 & Hfind2 & Hc2).
    unfold bind. rewrite Hrun1, Hrun2. exists w2, u2.
    split; [reflexivity|]. split; [exact Hfind2|].
    rewrite Hc2. destruct (last_coin_amount items); [reflexivity|].
    rewrite Hc1. destruct (li_type li =? "coins")%string; reflexivity.
Qed.

(** X16: the coins of an order are credited from the balance read before
    the line items are processed.  After a fulfillment the balance is that
    balance plus the worth of the last coin line item alone, however many
    coin line items the order has; without a coin line item it is
    unchanged. *)
Theorem several_coin_packs_credit_the_last tid uid w t u items :
  no_faults env -> uuids_fresh env w ->
  find_transaction tid (transactions w) = Some t ->
  parse_products (tx_products t) = Some items ->
  find_user uid (users w) = Some u ->
  exists w' u',
    processApprovedPayment env tid uid w = (Ok tt, w') /\
    find_user uid (users w') = Some u' /\
    coins u' = match last_coin_amount items with
               | Some a => coins u + a
               | None => coins u
               end.
Proof.
  intros Hnf Hfresh Ht Hitems Hu.
  pose proof (no_faults_quiet env Hnf) as Hq.
  unfold processApprovedPayment, fulfill, getTransaction, getUser. monad_norm.
  rewrite db_run, Hnf. world_simpl. rewrite Ht. rewrite db_run, Hnf. world_simpl.
  rewrite Hu, Hitems.
  match goal with |- context [create_grants env tid uid u items [] ?w0] =>
    destruct (create_grants_spec env tid uid u items [] w0 Hq)
      as (all & news & w1 & Hrun1 & _ & _ & _ & Hu1)
  end.
  { destruct Hfresh as [Hinj Hf]. split; [exact Hinj|exact Hf]. }
  rewrite Hrun1. world_simpl in Hu1.
  destruct (handle_special_products_coins uid u items w1 u Hnf)
    as (w2 & u2 & Hrun2 & Hfind2 & Hc2); [rewrite Hu1; exact Hu|].
  rewrite Hrun2. unfold sendEmail, logActivity. monad_norm. rewrite db_run, Hnf.
  do 2 eexists. split; [reflexivity|]. world_simpl. split; [exact Hfind2|exact Hc2].
Qed.

End CoinProofs.

Section Maintains.
Context {N : Number} (inv : World -> Prop).

Lemma maintains_ret {A} (a : A) : maintains inv (ret a).
Proof. intros w H. exact H. Qed.

Lemma maintains_bind {A B} (m : M A) (k : A -> M B) :
  maintains inv m -> (forall a, maintains inv (k a)) -> maintains inv (bind m k).
Proof.
  intros Hm Hk w Hw. unfold bind. specialize (Hm w Hw).
  destruct (m w) as [[a|e] w1]; cbn [snd] in *; [apply Hk; exact Hm|exact Hm].
Qed.

Lemma maintains_try_catch {A} (m : M A) (h : string -> M A) :
  maintains inv m -> (forall e, maintains inv (h e)) -> maintains inv (try_catch m h).
Proof.
  intros Hm Hh w Hw. unfold try_catch. specialize (Hm w Hw).
  destruct (m w) as [[a|e] w1]; cbn [snd] in *; [exact Hm|apply Hh; exact Hm].
Qed.

End Maintains.

Section StockProofs.
Context {N : Number}.
Variable env : Env.
Variable catalog : list Product.

(** A handler that leaves the products alone maintains the stock floor. *)
Lemma keeps_products_maintains {A} (m : M A) :
  keeps products m -> maintains (stock_floor catalog) m.
Proof.
  intros Hk w [H1 H2]. split; [rewrite Hk; exact H1|].
  intros pid p Hp Hle. rewrite Hk. apply H2; assumption.
Qed.

Lemma find_product_update pid other upd rows :
  find_product other
    (map (fun p => if prod_id p =? pid then apply_product_update upd p else p) rows)
  = if other =? pid
    then option_map (apply_product_update upd) (find_product other rows)
    else find_product other rows.
Proof.
  unfold find_product. induction rows as [|p rows IH]; cbn [map find].
  - destruct (other =? pid); reflexivity.
  - destruct (prod_id p =? pid) eqn:E; cbn [prod_id apply_product_update].
    + apply Z.eqb_eq in E. destruct (prod_id p =? other) eqn:E'.
      * apply Z.eqb_eq in E'. assert (Ho : (other =? pid) = true) by (apply Z.eqb_eq; lia). rewrite Ho.
        reflexivity.
      * exact IH.
    + destruct (prod_id p =? other) eqn:E'; [|exact IH].
      apply Z.eqb_eq in E'. apply Z.eqb_neq in E.
      assert (Ho : (other =? pid) = false) by (apply Z.eqb_neq; lia). rewrite Ho. reflexivity.
Qed.

Lemma update_stock_maintains product : maintains (stock_floor catalog) (update_stock env product).
Proof.
  intros w [Hfloor Hsame]. unfold update_stock.
  destruct (match li_stock product with Some (-1) => false | _ => true end);
    [|split; assumption].
  unfold getProduct. monad_norm. rewrite db_run.
  destruct (fault env _ _); [split; assumption|]. world_simpl.
  destruct (find_product (li_productId product) (products w)) as [p|] eqn:Hp;
    [|split; assumption].
  destruct (0 <? prod_stock p) eqn:Hpos; [|split; assumption].
  apply Z.ltb_lt in Hpos.
  unfold updateProduct. rewrite db_run. world_simpl.
  destruct (fault env _ _); [split; assumption|]. cbn [snd]. world_simpl. split.
  - world_simpl. clear Hp Hsame. induction (products w) as [|q rows IH]; cbn [map]; [constructor|].
    inversion Hfloor; subst. constructor; [|apply IH; assumption].
    destruct (prod_id q =? li_productId product); [|assumption].
    cbn [apply_product_update prod_stock upd_stock]. lia.
  - intros pid q Hq Hle. world_simpl. rewrite find_product_update.
    destruct (pid =? li_productId product) eqn:E; [|apply Hsame; assumption].
    apply Z.eqb_eq in E. subst pid.
    rewrite (Hsame _ _ Hq Hle) in Hp. injection Hp as <-. lia.
Qed.

Ltac maintains_step :=
  match goal with
  | |- maintains _ (bind _ _) => apply maintains_bind; [|intros ?]
  | |- maintains _ (try_catch _ _) => apply maintains_try_catch; [|intros ?]
  | |- maintains _ (update_stock _ _) => apply update_stock_maintains
  | |- maintains _ (if ?b then _ else _) => destruct b
  | |- maintains _ (match ?x with _ => _ end) => destruct x
  | |- maintains _ _ => solve [apply keeps_products_maintains; auto with keeps]
  end.

Lemma handle_special_products_maintains uid user items :
  maintains (stock_floor catalog) (handle_special_products env uid user items).
Proof.
  induction items as [|p items IH]; cbn [handle_special_products].
  - apply maintains_ret.
  - apply maintains_bind; [|intros _; exact IH].
    unfold handle_special_product, credit_coins, activate_vip.
    repeat maintains_step.
Qed.

Lemma create_grants_keeps_products tid uid user items : forall created,
  keeps products (create_grants env tid uid user items created).
Proof.
  induction items as [|p items IH]; intros created; cbn [create_grants].
  - apply keeps_ret.
  - apply keeps_bind; [unfold create_and_deliver_grant; keeps_auto|].
    intros g. apply IH.
Qed.

Lemma processApprovedPayment_maintains_stock_floor tid uid :
  maintains (stock_floor catalog) (processApprovedPayment env tid uid).
Proof.
  unfold processApprovedPayment, fulfill.
  repeat first
    [ apply handle_special_products_maintains
    | apply keeps_products_maintains, create_grants_keeps_products
    | maintains_step ].
Qed.

End StockProofs.

Section StockTheorem.
Context {N : Number}.
Variable env : Env.

(** X17: a fulfillment never takes a stock below the "unlimited" mark.  If
    no stock is below -1 before a fulfillment, none is afterwards, and a
    product that was unlimited (-1) or sold out (0) is exactly the same row
    afterwards, whatever the line items, the database and the game server
    do. *)
Theorem fulfillment_keeps_stock_floor tid uid w :
  Forall (fun p => -1 <= prod_stock p) (products w) ->
  let w' := snd (processApprovedPayment env tid uid w) in
  Forall (fun p => -1 <= prod_stock p) (products w') /\
  (forall pid p, find_product pid (products w) = Some p -> prod_stock p <= 0 ->
                 find_product pid (products w') = Some p).
Proof.
  intros Hfloor.
  apply (processApprovedPayment_maintains_stock_floor env (products w) tid uid w).
  split; [exact Hfloor|]. intros pid p Hp _. exact Hp.
Qed.

End StockTheorem.

(** ** Polling and cancelling a payment *)

Section PollingProofs.
Context {N : Number}.
Variable env : Env.
Variable efi_getPaymentStatus : string -> option string.

Lemma record_grants_keeps {T} (proj : World -> T) tid uid items :
  (forall n w, proj (set_dbCalls n w) = proj w) ->
  (forall n w, proj (set_uuidCount n w) = proj w) ->
  (forall v w, proj (set_grants v w) = proj w) ->
  keeps proj (paymentController.record_grants env tid uid items).
Proof.
  intros H1 H2 H3.
  induction items as [|p items IH]; cbn [paymentController.record_grants].
  - apply keeps_ret.
  - apply keeps_bind; [auto with keeps|]. intros gid.
    apply keeps_bind; [auto with keeps|]. intros _. exact IH.
Qed.

Lemma record_grants_spec tid uid items : forall w,
  no_faults env -> uuids_fresh env w ->
  exists news w',
    paymentController.record_grants env tid uid items w = (Ok tt, w') /\
    grants w' = grants w ++ news /\
    Forall2 (recorded_grant_of_item tid uid) items news /\
    outbox w' = outbox w.
Proof.
  induction items as [|p items IH]; intros w Hnf [Hinj Hfresh];
    cbn [paymentController.record_grants].
  - exists [], w. rewrite app_nil_r. repeat split. constructor.
  - unfold generateUUID, createGrant. monad_norm. rewrite db_run, Hnf. world_simpl.
    rewrite (Hfresh (uuidCount w) (le_n _)).
    set (g := mkGrant _ _ _ _ _ _ _ _).
    set (w1 := set_grants _ _).
    destruct (IH w1 Hnf) as (news & w2 & Hrun & Hg & Hall & Hout).
    { split; [exact Hinj|]. intros k Hk. subst w1. world_simpl. world_simpl in Hk.
      rewrite find_grant_app, (Hfresh k) by lia.
      unfold find_grant. cbn [find]. subst g. cbn [grant_id].
      destruct (uuids env (uuidCount w) =? uuids env k)%string eqn:E; [|reflexivity].
      apply String.eqb_eq, Hinj in E. lia. }
    exists (g :: news), w2. rewrite Hrun, Hg, Hout. subst w1. world_simpl.
    split; [reflexivity|]. split; [rewrite <- app_assoc; reflexivity|].
    split; [|reflexivity]. constructor; [|exact Hall]. subst g. repeat split.
Qed.

Lemma backup_returns tid w :
  exists w', paymentController.processApprovedPayment env tid w = (Ok tt, w').
Proof.
  unfold paymentController.processApprovedPayment, try_catch.
  destruct (bind _ _ w) as [[[]|e] w1]; eexists; reflexivity.
Qed.

Lemma backup_keeps {T} (proj : World -> T) tid :
  (forall n w, proj (set_dbCalls n w) = proj w) ->
  (forall n w, proj (set_uuidCount n w) = proj w) ->
  (forall v w, proj (set_grants v w) = proj w) ->
  (forall v w, proj (set_outbox v w) = proj w) ->
  keeps proj (paymentController.processApprovedPayment env tid).
Proof.
  intros H1 H2 H3 H4. unfold paymentController.processApprovedPayment.
  apply keeps_try_catch; [|intros; apply keeps_ret].
  apply keeps_bind; [auto with keeps|]. intros [t|]; [|apply keeps_ret].
  apply keeps_bind; [auto with keeps|]. intros [u|]; [|apply keeps_ret].
  destruct (parse_products _); [|apply keeps_ret].
  apply keeps_bind; [apply record_grants_keeps; assumption|]. intros _.
  auto with keeps.
Qed.

(** X18: the fulfillment the payment controller runs when polling finds a
    payment approved always returns, and it records grants and a mail only:
    no account, stock, transaction or delivery request changes.  Without
    database failures every line item gets one grant, in order, and each of
    them is stored as "pending". *)
Theorem polling_fulfillment_records_pending_grants tid w :
  (exists w',
     paymentController.processApprovedPayment env tid w = (Ok tt, w') /\
     users w' = users w /\ products w' = products w /\
     transactions w' = transactions w /\ deliveries w' = deliveries w) /\
  (forall t u items,
     no_faults env -> uuids_fresh env w ->
     find_transaction tid (transactions w) = Some t ->
     find_user (tx_userId t) (users w) = Some u ->
     parse_products (tx_products t) = Some items ->
     exists news,
       grants (snd (paymentController.processApprovedPayment env tid w))
         = grants w ++ news /\
       Forall2 (recorded_grant_of_item tid (tx_userId t)) items news).
Proof.
  split.
  - destruct (backup_returns tid w) as (w' & Hrun). exists w'. split; [exact Hrun|].
    pose proof (backup_keeps users tid) as Hu.
    pose proof (backup_keeps products tid) as Hp.
    pose proof (backup_keeps transactions tid) as Ht.
    pose proof (backup_keeps deliveries tid) as Hd.
    unfold keeps in Hu, Hp, Ht, Hd.
    specialize (Hu ltac:(reflexivity) ltac:(reflexivity) ltac:(reflexivity) ltac:(reflexivity) w).
    specialize (Hp ltac:(reflexivity) ltac:(reflexivity) ltac:(reflexivity) ltac:(reflexivity) w).
    specialize (Ht ltac:(reflexivity) ltac:(reflexivity) ltac:(reflexivity) ltac:(reflexivity) w).
    specialize (Hd ltac:(reflexivity) ltac:(reflexivity) ltac:(reflexivity) ltac:(reflexivity) w).
    rewrite Hrun in Hu, Hp, Ht, Hd. auto.
  - intros t u items Hnf Hfresh Ht Hu Hitems.
    unfold paymentController.processApprovedPayment, getTransaction, getUser.
    monad_norm. rewrite !db_run, !Hnf. world_simpl. rewrite Ht. monad_norm.
    rewrite !db_run, !Hnf. world_simpl. rewrite Hu, Hitems.
    match goal with |- context [paymentController.record_grants env tid ?uid items ?w0] =>
      destruct (record_grants_spec tid uid items w0 Hnf) as (news & w1 & Hrun & Hg & Hall & _);
        [exact Hfresh|rewrite Hrun] end.
    exists news. split; [exact Hg|exact Hall].
Qed.

End PollingProofs.

Section OrderByMap.
Context {A : Type} (key : A -> Z) (f : A -> A).
Hypothesis key_kept : forall x, key (f x) = key x.

Lemma insert_desc_map x l :
  insert_desc key (f x) (map f l) = map f (insert_desc key x l).
Proof.
  induction l as [|y l IH]; cbn [map insert_desc]; [reflexivity|].
  rewrite !key_kept. destruct (key y <? key x); cbn [map]; [reflexivity|].
  rewrite IH. reflexivity.
Qed.

Lemma order_by_desc_map l :
  order_by_desc key (map f l) = map f (order_by_desc key l).
Proof.
  unfold order_by_desc. induction l as [|x l IH]; cbn [map fold_right]; [reflexivity|].
  rewrite IH. apply insert_desc_map.
Qed.

Lemma find_map_kept (p : A -> bool) l :
  (forall x, p (f x) = p x) -> find p (map f l) = option_map f (find p l).
Proof.
  intros Hp. induction l as [|x l IH]; cbn [map find]; [reflexivity|].
  rewrite Hp. destruct (p x); [reflexivity|exact IH].
Qed.

End OrderByMap.

Section PaymentEndpoints.
Context {N : Number}.
Variable env : Env.
Variable efi_getPaymentStatus : string -> option string.

Lemma find_transaction_id tid rows t :
  find_transaction tid rows = Some t -> tx_id t = tid.
Proof.
  unfold find_transaction. intros H. apply find_some in H as [_ H].
  apply String.eqb_eq. exact H.
Qed.

(** A status update does not change which transaction a webhook resolves
    to. *)
Lemma resolved_transaction_update w w1 data tid s now :
  transactions w1 =
    map (fun t => if (tx_id t =? tid)%string
                  then apply_transaction_update (status_only s) now t else t)
        (transactions w) ->
  resolved_transaction w1 data =
  option_map (fun t => if (tx_id t =? tid)%string
                       then apply_transaction_update (status_only s) now t else t)
             (resolved_transaction w data).
Proof.
  intros Ht. unfold resolved_transaction. rewrite Ht. cbn [skipn].
  rewrite order_by_desc_map, firstn_map.
  - apply find_map_kept. intros t. destruct (tx_id t =? tid)%string; reflexivity.
  - intros t. destruct (tx_id t =? tid)%string; reflexivity.
Qed.

Lemma reconcile_keeps {T} (proj : World -> T) tid t :
  (forall n w, proj (set_dbCalls n w) = proj w) ->
  (forall n w, proj (set_uuidCount n w) = proj w) ->
  (forall v w, proj (set_grants v w) = proj w) ->
  (forall v w, proj (set_outbox v w) = proj w) ->
  (forall v w, proj (set_transactions v w) = proj w) ->
  keeps proj (paymentController.reconcile env efi_getPaymentStatus tid t).
Proof.
  intros H1 H2 H3 H4 H5. unfold paymentController.reconcile.
  pose proof (fun tid => backup_keeps env proj tid H1 H2 H3 H4).
  keeps_auto.
Qed.

Lemma getPaymentStatus_keeps {T} (proj : World -> T) user tid :
  (forall n w, proj (set_dbCalls n w) = proj w) ->
  (forall n w, proj (set_uuidCount n w) = proj w) ->
  (forall v w, proj (set_grants v w) = proj w) ->
  (forall v w, proj (set_outbox v w) = proj w) ->
  (forall v w, proj (set_transactions v w) = proj w) ->
  keeps proj (paymentController.getPaymentStatus env efi_getPaymentStatus user tid).
Proof.
  intros H1 H2 H3 H4 H5. unfold paymentController.getPaymentStatus.
  pose proof (fun tid t => reconcile_keeps proj tid t H1 H2 H3 H4 H5).
  keeps_auto.
Qed.

(** X19: polling a payment writes nothing unless the provider reports a new
    status for a pending transaction.  When the stored transaction is not
    pending, has no payment id, or the provider's call fails or reports
    "pending", every table, the mails and the delivery requests are as
    before, and the stored status is what is reported. *)
Theorem polling_is_idle_without_news user tid w :
  (forall t, find_transaction tid (transactions w) = Some t ->
             tx_status t = "pending" -> truthy_ostring (tx_paymentId t) = true ->
             efi_getPaymentStatus (or_string (tx_paymentId t) "") = None \/
             efi_getPaymentStatus (or_string (tx_paymentId t) "") = Some "pending") ->
  let run := paymentController.getPaymentStatus env efi_getPaymentStatus (Some user) tid w in
  tables (snd run) = tables w /\
  (forall t, find_transaction tid (transactions w) = Some t ->
             fault env (dbCalls w) (CGetTransaction tid) = false ->
             paymentController.access_denied user t = false ->
             fst run = Ok (mkReply 200 (PaymentStatus (tx_id t) (tx_status t)))).
Proof.
  intros Hidle.
  unfold paymentController.getPaymentStatus, getTransaction. monad_norm. rewrite db_run.
  destruct (fault env _ _); [split; [reflexivity|discriminate]|]. world_simpl.
  destruct (find_transaction tid (transactions w)) as [t|] eqn:Ht;
    [|split; [reflexivity|discriminate]].
  destruct (paymentController.access_denied user t) eqn:Hacc;
    [split; [reflexivity|intros ? [= <-] _ Habs; congruence]|].
  specialize (Hidle t eq_refl).
  unfold paymentController.reconcile.
  destruct (tx_status t =? "pending")%string eqn:Es; cbn [andb].
  - apply String.eqb_eq in Es.
    destruct (truthy_ostring (tx_paymentId t));
      [|split; [reflexivity|intros ? [= <-] _ _; reflexivity]].
    destruct (Hidle Es eq_refl) as [-> | ->].
    + split; [reflexivity|intros ? [= <-] _ _; reflexivity].
    + rewrite Es. cbn. split; [reflexivity|intros ? [= <-] _ _; rewrite Es; reflexivity].
  - split; [reflexivity|intros ? [= <-] _ _; reflexivity].
Qed.

(** X20: when the provider reports a new status for a pending transaction,
    polling stores it and reports it, also when the backup fulfillment meets
    an error; no account, no stock and no delivery request changes, even for
    "approved". *)
Theorem polling_reconciles_pending user tid w t s :
  fault env (dbCalls w) (CGetTransaction tid) = false ->
  fault env (S (dbCalls w)) (CUpdateTransaction tid) = false ->
  find_transaction tid (transactions w) = Some t ->
  paymentController.access_denied user t = false ->
  tx_status t = "pending" -> truthy_ostring (tx_paymentId t) = true ->
  efi_getPaymentStatus (or_string (tx_paymentId t) "") = Some s -> s <> "pending" ->
  exists w',
    paymentController.getPaymentStatus env efi_getPaymentStatus (Some user) tid w
      = (Ok (mkReply 200 (PaymentStatus tid s)), w') /\
    stored_status w' tid = Some s /\
    users w' = users w /\ products w' = products w /\ deliveries w' = deliveries w.
Proof.
  intros Hf1 Hf2 Ht Hacc Hst Hpid Hefi Hnew.
  pose proof (getPaymentStatus_keeps users (Some user) tid) as Hu.
  pose proof (getPaymentStatus_keeps products (Some user) tid) as Hp.
  pose proof (getPaymentStatus_keeps deliveries (Some user) tid) as Hd.
  unfold keeps in Hu, Hp, Hd.
  specialize (Hu ltac:(reflexivity) ltac:(reflexivity) ltac:(reflexivity)
                 ltac:(reflexivity) ltac:(reflexivity) w).
  specialize (Hp ltac:(reflexivity) ltac:(reflexivity) ltac:(reflexivity)
                 ltac:(reflexivity) ltac:(reflexivity) w).
  specialize (Hd ltac:(reflexivity) ltac:(reflexivity) ltac:(reflexivity)
                 ltac:(reflexivity) ltac:(reflexivity) w).
  revert Hu Hp Hd.
  unfold paymentController.getPaymentStatus, getTransaction. monad_norm.
  rewrite db_run, Hf1. world_simpl. rewrite Ht, Hacc.
  unfold paymentController.reconcile. rewrite Hst, Hpid, Hefi.
  assert (Hs : (s =? "pending")%string = false) by (apply String.eqb_neq; exact Hnew).
  change ("pending" =? "pending")%string with true. cbn [andb]. rewrite Hs.
  unfold updateTransaction. monad_norm. rewrite db_run. world_simpl. rewrite Hf2.
  monad_norm.
  set (w1 := set_transactions _ _).
  assert (Hstored : stored_status w1 tid = Some s).
  { subst w1. unfold stored_status. world_simpl. apply stored_status_update.
    unfold stored_status. rewrite Ht. discriminate. }
  rewrite (find_transaction_id _ _ _ Ht).
  destruct (s =? "approved")%string.
  - destruct (backup_returns env tid w1) as (w2 & Hrun). rewrite Hrun.
    intros Hu Hp Hd. exists w2. split; [reflexivity|]. cbn [snd] in *.
    split; [|auto].
    pose proof (backup_keeps env transactions tid) as Hk. unfold keeps in Hk.
    specialize (Hk ltac:(reflexivity) ltac:(reflexivity) ltac:(reflexivity)
                   ltac:(reflexivity) w1).
    rewrite Hrun in Hk. cbn [snd] in Hk. unfold stored_status in *. rewrite Hk.
    exact Hstored.
  - intros Hu Hp Hd. exists w1. split; [reflexivity|]. cbn [snd] in *. auto.
Qed.

(** X21: cancelling is for pending transactions only.  If the stored status
    is not "pending", nothing is written and the reply is not a success; a
    success means that the transaction was pending and the caller its owner
    or an administrator, that it is stored as "cancelled" afterwards, and
    that no grant, account or stock changed. *)
Theorem cancelPayment_only_from_pending user tid w :
  let run := paymentController.cancelPayment env (Some user) tid w in
  (stored_status w tid <> Some "pending" ->
   tables (snd run) = tables w /\
   forall x, fst run <> Ok (mkReply 200 x)) /\
  (forall x, fst run = Ok (mkReply 200 x) ->
     (exists t, find_transaction tid (transactions w) = Some t /\
                tx_status t = "pending" /\
                paymentController.access_denied user t = false) /\
     stored_status (snd run) tid = Some "cancelled" /\
     grants (snd run) = grants w /\ users (snd run) = users w /\
     products (snd run) = products w).
Proof.
  unfold paymentController.cancelPayment, getTransaction, stored_status. monad_norm.
  rewrite db_run.
  destruct (fault env _ _);
    [split; [intros _; split; [reflexivity|discriminate]|discriminate]|].
  world_simpl.
  destruct (find_transaction tid (transactions w)) as [t|] eqn:Ht;
    [|split; [intros _; split; [reflexivity|discriminate]|discriminate]].
  destruct (paymentController.access_denied user t) eqn:Hacc;
    [split; [intros _; split; [reflexivity|discriminate]|discriminate]|].
  destruct (tx_status t =? "pending")%string eqn:Es;
    [|split; [intros _; split; [reflexivity|discriminate]|discriminate]].
  apply String.eqb_eq in Es. split.
  { intros Hnot. exfalso. apply Hnot. cbn [option_map]. rewrite Es. reflexivity. }
  unfold updateTransaction. rewrite db_run. world_simpl.
  destruct (fault env _ _); [discriminate|]. monad_norm.
  unfold logActivity. rewrite db_run. world_simpl.
  destruct (fault env _ _); [discriminate|]. monad_norm.
  intros x _. split; [exists t; auto|]. cbn [snd]. world_simpl.
  split; [|auto].
  apply (stored_status_update w tid "cancelled").
  unfold stored_status. rewrite Ht. discriminate.
Qed.

(** X22: a payment that polling finds approved is never fulfilled.  Polling
    stores "approved" and records pending grants; the provider's "approved"
    webhook for the same transaction then sees the status already approved
    and skips the fulfillment, so no coins are credited, no VIP is set, no
    stock is taken and nothing is sent to the game server. *)
Theorem polled_approval_is_never_fulfilled user tid w t req e :
  fault env (dbCalls w) (CGetTransaction tid) = false ->
  fault env (S (dbCalls w)) (CUpdateTransaction tid) = false ->
  find_transaction tid (transactions w) = Some t ->
  paymentController.access_denied user t = false ->
  tx_status t = "pending" -> truthy_ostring (tx_paymentId t) = true ->
  efi_getPaymentStatus (or_string (tx_paymentId t) "") = Some "approved" ->
  JSON_parse_efi env (req_payload req) = ParsedObject e ->
  wd_status (parseWebhookData e) = "approved" ->
  resolved_transaction w (parseWebhookData e) = Some t ->
  let w1 := snd (paymentController.getPaymentStatus env efi_getPaymentStatus
                   (Some user) tid w) in
  let w2 := snd (handleEfiBankWebhook env req w1) in
  stored_status w1 tid = Some "approved" /\
  users w2 = users w /\ products w2 = products w /\ deliveries w2 = deliveries w.
Proof.
  intros Hf1 Hf2 Ht Hacc Hst Hpid Hefi Hparse Hs Hres w1 w2.
  assert (Htx : transactions w1 =
    map (fun t => if (tx_id t =? tid)%string
                  then apply_transaction_update (status_only "approved") (clock w) t
                  else t) (transactions w)).
  { subst w2 w1.
    unfold paymentController.getPaymentStatus, getTransaction. monad_norm.
    rewrite db_run, Hf1. world_simpl. rewrite Ht, Hacc.
    unfold paymentController.reconcile. rewrite Hst, Hpid, Hefi.
    change ("pending" =? "pending")%string with true.
    change ("approved" =? "pending")%string with false.
    change ("approved" =? "approved")%string with true. cbn [andb].
    unfold updateTransaction. monad_norm. rewrite db_run. world_simpl. rewrite Hf2.
    monad_norm. set (w0 := set_transactions _ _).
    destruct (backup_returns env tid w0) as (w' & Hrun).
    pose proof (backup_keeps env transactions tid) as Hk. unfold keeps in Hk.
    specialize (Hk ltac:(reflexivity) ltac:(reflexivity) ltac:(reflexivity)
                   ltac:(reflexivity) w0).
    rewrite Hrun in *. cbn [snd] in *. rewrite Hk. subst w0. world_simpl. reflexivity. }
  assert (Hkeep : users w1 = users w /\ products w1 = products w /\
                  deliveries w1 = deliveries w).
  { subst w1.
    pose proof (getPaymentStatus_keeps users (Some user) tid) as Hu.
    pose proof (getPaymentStatus_keeps products (Some user) tid) as Hp.
    pose proof (getPaymentStatus_keeps deliveries (Some user) tid) as Hd.
    unfold keeps in Hu, Hp, Hd.
    repeat split; [apply Hu|apply Hp|apply Hd]; reflexivity. }
  assert (Hid : tx_id t = tid) by (exact (find_transaction_id _ _ _ Ht)).
  split.
  { unfold stored_status. rewrite Htx.
    apply (stored_status_update w tid "approved").
    unfold stored_status. rewrite Ht. discriminate. }
  pose proof (resolved_transaction_update w w1 (parseWebhookData e) tid "approved"
                (clock w) Htx) as Hres1.
  rewrite Hres in Hres1. cbn [option_map] in Hres1. rewrite Hid, String.eqb_refl in Hres1.
  destruct Hkeep as (Hu & Hp & Hd). rewrite <- Hu, <- Hp, <- Hd.
  subst w2. clearbody w1. clear Htx Hu Hp Hd Hres Hf1 Hf2.
  unfold handleEfiBankWebhook, efibank_process.
  destruct (validateWebhookSignature env _ _) as [[|]|]; monad_norm;
    try (repeat split; reflexivity).
  rewrite Hparse. monad_norm.
  unfold getAllTransactions. rewrite db_run.
  destruct (fault env _ _); [repeat split; reflexivity|]. monad_norm.
  change (find _ _) with (resolved_transaction w1 (parseWebhookData e)).
  rewrite Hres1, Hs. cbn [tx_status tx_id tx_userId apply_transaction_update
                          status_only upd_status]. monad_norm.
  unfold updateTransaction. rewrite db_run.
  destruct (fault env _ _); [repeat split; reflexivity|]. monad_norm.
  unfold logActivity. rewrite db_run.
  destruct (fault env _ _); [repeat split; reflexivity|]. monad_norm.
  repeat split; reflexivity.
Qed.

End PaymentEndpoints.

(** ** The checkout, continued *)

Section CheckoutRejections.
Context {N : Number}.
Variable env : Env.

Lemma validate_items_reads_only items : forall cart total,
  keeps (fun w => (tables w, uuidCount w)) (validate_items env items cart total).
Proof.
  induction items as [|item items IH]; intros cart total; cbn [validate_items].
  - apply keeps_ret.
  - apply keeps_bind; [apply getProduct_keeps; intros; reflexivity|].
    intros [p|]; [|apply keeps_ret].
    destruct (negb (prod_active p)); [apply keeps_ret|].
    destruct (andb _ _); [apply keeps_ret|]. apply IH.
Qed.

Lemma validate_items_rejects items : forall cart total w,
  existsb (fun i => negb (orderable (products w) i)) items = true ->
  match fst (validate_items env items cart total w) with
  | Ok (inl r) => status r = 404 \/ status r = 400
  | Ok (inr _) => False
  | Thrown _ => True
  end.
Proof.
  induction items as [|item items IH]; intros cart total w; cbn [validate_items existsb];
    [discriminate|].
  intros Hbad. unfold getProduct. monad_norm. rewrite db_run.
  destruct (fault env _ _); [exact I|]. world_simpl.
  unfold orderable in Hbad at 1.
  destruct (find_product (item_productId item) (products w)) as [p|]; [|left; reflexivity].
  cbv beta iota.
  destruct (prod_active p); cbn [negb andb]; [|right; reflexivity].
  cbn [andb negb] in Hbad.
  destruct (prod_stock p =? -1) eqn:E1; cbn [negb andb orb] in *.
  - apply (IH _ _ (set_dbCalls (S (dbCalls w)) w)). exact Hbad.
  - rewrite Z.leb_antisym in Hbad. rewrite negb_involutive in Hbad.
    destruct (prod_stock p <? item_quantity item); cbn [orb] in Hbad; [right; reflexivity|].
    apply (IH _ _ (set_dbCalls (S (dbCalls w)) w)). exact Hbad.
Qed.

(** X23: the checkout is all or nothing.  If one requested item names a
    product that is missing, inactive or short of stock, the request is
    answered 404 or 400 (or fails in the database), and nothing is created:
    no transaction, no id drawn, no table changed. *)
Theorem checkout_is_all_or_nothing user items paymentMethod w :
  existsb (fun i => negb (orderable (products w) i)) items = true ->
  let run := createPayment env (Some user) items paymentMethod w in
  tables (snd run) = tables w /\ uuidCount (snd run) = uuidCount w /\
  match fst run with
  | Ok r => status r = 404 \/ status r = 400
  | Thrown _ => True
  end.
Proof.
  intros Hbad. unfold createPayment. monad_norm.
  pose proof (validate_items_rejects items [] num_zero w Hbad) as Hr.
  pose proof (validate_items_reads_only items [] num_zero w) as Hk.
  destruct (validate_items env items [] num_zero w) as [[[r|[cart total]]|e] w0];
    cbn [fst snd] in *; try contradiction.
  - split; [exact (f_equal fst Hk)|]. split; [exact (f_equal snd Hk)|exact Hr].
  - split; [exact (f_equal fst Hk)|]. split; [exact (f_equal snd Hk)|exact I].
Qed.

(** X24: when the PIX charge cannot be created, the transaction that was
    just recorded stays in the ledger as "failed" and the request is
    answered 500; no grant and no account changes. *)
Theorem failed_charge_leaves_failed_transaction user items paymentMethod w cart total w0 :
  no_faults env ->
  validate_items env items [] num_zero w = (Ok (inr (cart, total)), w0) ->
  num_le_zero total = false ->
  find_transaction (uuids env (uuidCount w)) (transactions w) = None ->
  createPixPayment env (uuids env (uuidCount w)) total = None ->
  exists w',
    createPayment env (Some user) items paymentMethod w
      = (Ok (mkResponse 500 (ErrorBody "Failed to create payment")), w') /\
    stored_status w' (uuids env (uuidCount w)) = Some "failed" /\
    grants w' = grants w /\ users w' = users w /\ products w' = products w.
Proof.
  intros Hnf Hv Hpos Hnew Hpix.
  pose proof (validate_items_reads_only items [] num_zero w) as Hk.
  rewrite Hv in Hk. cbn [snd] in Hk. unfold tables in Hk.
  injection Hk as Hu Hp Ht Hg _ _ _ Hc.
  unfold createPayment. monad_norm. rewrite Hv. cbv beta iota. rewrite Hpos.
  unfold generateUUID, Date_now. monad_norm. rewrite Hc.
  unfold createTransaction. rewrite db_run, Hnf. world_simpl. rewrite Ht, Hnew.
  monad_norm. rewrite Hpix. monad_norm.
  unfold updateTransaction. rewrite db_run, Hnf. world_simpl.
  eexists. split; [reflexivity|]. cbn [snd]. world_simpl.
  split; [|auto].
  unfold stored_status. world_simpl. rewrite find_transaction_update, find_transaction_app, Hnew.
  unfold find_transaction. cbn [find tx_id]. rewrite String.eqb_refl. reflexivity.
Qed.

End CheckoutRejections.

(** ** Signatures of the generic webhooks (utils/crypto.ts) *)

Section SignatureProofs.
Context {N : Number}.
Variable env : Env.

Lemma bytes_eqb_length a : forall b, bytes_eqb a b = true -> List.length a = List.length b.
Proof. intros b H. apply bytes_eqb_eq in H. subst. reflexivity. Qed.

(** X25: [verifyWebhookSignature] accepts a signature exactly when it is,
    character for character, the digest [hashWebhookPayload] computes for
    the payload and the secret; in particular the digest itself is always
    accepted. *)
Theorem verifyWebhookSignature_exact payload signature secret :
  verifyWebhookSignature env payload (hashWebhookPayload env payload secret) secret = Ok true /\
  (verifyWebhookSignature env payload signature secret = Ok true <->
   signature = hashWebhookPayload env payload secret).
Proof.
  assert (Hself : forall s, timingSafeEqual (utf8_bytes s) (utf8_bytes s) = Some true).
  { intros s. unfold timingSafeEqual. rewrite Nat.eqb_refl. f_equal.
    apply bytes_eqb_eq. reflexivity. }
  split.
  - unfold verifyWebhookSignature. rewrite Hself. reflexivity.
  - split.
    + unfold verifyWebhookSignature, timingSafeEqual.
      destruct (_ =? _)%nat; [|discriminate].
      intros [= H]. apply bytes_eqb_eq in H. apply utf8_bytes_inj. exact H.
    + intros ->. unfold verifyWebhookSignature. rewrite Hself. reflexivity.
Qed.

End SignatureProofs.

(** ** The balance endpoint *)

Section BalanceProofs.
Context {N : Number}.
Variable env : Env.

Lemma updateCoins_stores requester amount o newCoins w u :
  no_faults env ->
  find_user (au_id requester) (users w) = Some u ->
  0 < amount ->
  ((o =? "add")%string = true /\ newCoins = coins u + amount \/
   (o =? "add")%string = false /\ (o =? "subtract")%string = true /\
   newCoins = Z.max 0 (coins u - amount)) ->
  exists w' u',
    userController.updateCoins env (Some requester) (Some amount) (Some o) w
      = (Ok (mkReply 200 (CoinsUpdated newCoins)), w') /\
    find_user (au_id requester) (users w') = Some u' /\ coins u' = newCoins.
Proof.
  intros Hnf Hu Hpos Ho.
  assert (Hamt : (amount =? 0) || (amount <=? 0) = false).
  { apply orb_false_iff. split; [apply Z.eqb_neq|apply Z.leb_gt]; lia. }
  unfold userController.updateCoins. rewrite Hamt.
  unfold getUser. monad_norm. rewrite db_run, Hnf. world_simpl. rewrite Hu.
  cbv beta iota.
  assert (Hfin : exists w' u',
    bind (updateUser env (au_id requester) (mkUserUpdate (Some newCoins) None None))
      (fun _ => bind (logActivity env (Some (au_id requester)) "coins_updated"
                        [("operation", o)])
                  (fun _ => ret (mkReply 200 (CoinsUpdated newCoins))))
      (set_dbCalls (S (dbCalls w)) w)
      = (Ok (mkReply 200 (CoinsUpdated newCoins)), w') /\
    find_user (au_id requester) (users w') = Some u' /\ coins u' = newCoins).
  { unfold updateUser, logActivity. monad_norm. rewrite db_run, Hnf. world_simpl.
    monad_norm. rewrite db_run, Hnf. world_simpl.
    eexists. eexists. split; [reflexivity|]. world_simpl.
    rewrite find_user_update, Hu. split; reflexivity. }
  destruct Ho as [[-> ->]|(-> & -> & ->)]; exact Hfin.
Qed.

(** X26: a signed-in user changes their own balance.  An amount that is
    absent, zero or negative is answered 400 with nothing written.  With a
    positive amount, "add" (also the default) stores the balance plus the
    amount, "subtract" the balance minus the amount but never less than
    zero, and any other operation writes nothing. *)
Theorem updateCoins_changes_own_balance requester w u :
  no_faults env ->
  find_user (au_id requester) (users w) = Some u ->
  (forall a op, a = None \/ (exists n, a = Some n /\ n <= 0) ->
     userController.updateCoins env (Some requester) a op w
       = (Ok (mkReply 400 (Failure "Invalid amount")), w)) /\
  (forall amount, 0 < amount ->
     (forall op, op = None \/ op = Some "add" ->
        exists w' u',
          userController.updateCoins env (Some requester) (Some amount) op w
            = (Ok (mkReply 200 (CoinsUpdated (coins u + amount))), w') /\
          find_user (au_id requester) (users w') = Some u' /\
          coins u' = coins u + amount) /\
     (exists w' u',
        userController.updateCoins env (Some requester) (Some amount) (Some "subtract") w
          = (Ok (mkReply 200 (CoinsUpdated (Z.max 0 (coins u - amount)))), w') /\
        find_user (au_id requester) (users w') = Some u' /\
        coins u' = Z.max 0 (coins u - amount) /\ 0 <= coins u') /\
     (forall op, op <> "add" -> op <> "subtract" ->
        tables (snd (userController.updateCoins env (Some requester) (Some amount)
                       (Some op) w)) = tables w)).
Proof.
  intros Hnf Hu. split.
  - intros a op [->|(n & -> & Hn)]; unfold userController.updateCoins; [reflexivity|].
    assert (Hamt : (n =? 0) || (n <=? 0) = true).
    { apply orb_true_iff. right. apply Z.leb_le. exact Hn. }
    rewrite Hamt. reflexivity.
  - intros amount Hpos. split; [|split].
    + intros op Hop.
      destruct (updateCoins_stores requester amount "add" (coins u + amount) w u Hnf Hu Hpos)
        as (w' & u' & H1 & H2 & H3); [left; split; reflexivity|].
      exists w', u'. split; [|split; assumption].
      destruct Hop as [-> | ->]; exact H1.
    + destruct (updateCoins_stores requester amount "subtract"
                  (Z.max 0 (coins u - amount)) w u Hnf Hu Hpos)
        as (w' & u' & H1 & H2 & H3); [right; repeat split; reflexivity|].
      exists w', u'. repeat split; try assumption. lia.
    + intros op Hadd Hsub. unfold userController.updateCoins.
      destruct ((amount =? 0) || (amount <=? 0)); [reflexivity|].
      unfold getUser. monad_norm. rewrite db_run, Hnf. world_simpl. rewrite Hu.
      apply String.eqb_neq in Hadd, Hsub. rewrite Hadd, Hsub. reflexivity.
Qed.

End BalanceProofs.

(** ** Grants by an administrator, continued *)

Section AdminGrantProofs.
Context {N : Number}.
Variable env : Env.

(** The grant row of an administrator's grant, after the delivery attempt. *)
Lemma admin_grant_row gid uid ty data by_ now rows :
  find_grant gid rows = None ->
  find_grant gid
    (map (fun g => if (grant_id g =? gid)%string then set_grant_status "delivered" g else g)
         (rows ++ [mkGrant gid None uid ty data "pending" by_ now]))
  = Some (mkGrant gid None uid ty data "delivered" by_ now).
Proof.
  intros Hnew. rewrite find_grant_update, find_grant_app, Hnew.
  unfold find_grant. cbn [find grant_id]. rewrite String.eqb_refl. reflexivity.
Qed.

(** X27: an administrator's grant of coins credits the balance at once and
    is always reported as delivered, while the grant row is stored as
    "delivered" only if the user has a game identity and the game server
    accepted the one delivery attempt; otherwise the row stays "pending",
    for [manualGrant] and [grantItemsToUser] alike. *)
Theorem admin_coin_grant_reports_delivered admin uid d w u :
  no_faults env ->
  find_user uid (users w) = Some u ->
  find_grant (uuids env (uuidCount w)) (grants w) = None ->
  let gid := uuids env (uuidCount w) in
  let accepted :=
    truthy_ostring (fivemIdentifier u) &&
    dr_delivered (attempt_result env (List.length (deliveries w))
                    (mkDeliveryData (or_string (fivemIdentifier u) "") "coins"
                                    (Some d) None)) in
  (exists w' u' g,
     adminController.manualGrant env (Some admin) uid "coins" (Some d) w
       = (Ok (mkReply 200 (ManualGrant gid true)), w') /\
     find_user uid (users w') = Some u' /\
     coins u' = coins u + or_int (gd_amount d) 0 /\
     find_grant gid (grants w') = Some g /\
     grant_status g = if accepted then "delivered" else "pending") /\
  (exists w' u' g,
     grantItemsToUser env (Some admin) uid "coins" (Some d) w
       = (Ok (mkResponse 200 (GrantCreated gid true)), w') /\
     find_user uid (users w') = Some u' /\
     coins u' = coins u + or_int (gd_amount d) 0 /\
     find_grant gid (grants w') = Some g /\
     grant_status g = if accepted then "delivered" else "pending").
Proof.
  intros Hnf Hu Hnew gid accepted. subst gid accepted. split.
  - unfold adminController.manualGrant, getUser, generateUUID, createGrant.
    change ("coins" =? "coins")%string with true.
    monad_norm. rewrite db_run, Hnf. world_simpl. rewrite Hu. monad_norm.
    rewrite db_run, Hnf. world_simpl. rewrite Hnew. monad_norm.
    destruct (truthy_ostring (fivemIdentifier u)); cbn [andb].
    + rewrite deliverItems_run. world_simpl.
      destruct (dr_delivered _).
      * unfold updateGrant, updateUser, logActivity. monad_norm.
        rewrite db_run, Hnf. world_simpl. monad_norm.
        rewrite db_run, Hnf. world_simpl. monad_norm.
        rewrite db_run, Hnf. world_simpl.
        eexists. eexists. eexists. split; [reflexivity|]. world_simpl.
        rewrite find_user_update, Hu, admin_grant_row by exact Hnew.
        repeat split.
      * unfold updateUser, logActivity. monad_norm.
        rewrite db_run, Hnf. world_simpl. monad_norm.
        rewrite db_run, Hnf. world_simpl.
        eexists. eexists. eexists. split; [reflexivity|]. world_simpl.
        rewrite find_user_update, Hu, find_grant_app, Hnew.
        unfold find_grant. cbn [find grant_id]. rewrite String.eqb_refl.
        repeat split.
    + unfold updateUser, logActivity. monad_norm.
      rewrite db_run, Hnf. world_simpl. monad_norm.
      rewrite db_run, Hnf. world_simpl.
      eexists. eexists. eexists. split; [reflexivity|]. world_simpl.
      rewrite find_user_update, Hu, find_grant_app, Hnew.
      unfold find_grant. cbn [find grant_id]. rewrite String.eqb_refl.
      repeat split.
  - unfold grantItemsToUser, getUser, generateUUID, createGrant.
    change ("coins" =? "coins")%string with true.
    change ("coins" =? "vip")%string with false.
    monad_norm. rewrite db_run, Hnf. world_simpl. rewrite Hu. monad_norm.
    rewrite db_run, Hnf. world_simpl. rewrite Hnew. monad_norm.
    destruct (truthy_ostring (fivemIdentifier u)); cbn [andb].
    + rewrite deliverItems_run. world_simpl.
      destruct (dr_delivered _).
      * unfold updateGrant, updateUser, logActivity. monad_norm.
        rewrite db_run, Hnf. world_simpl. monad_norm.
        rewrite db_run, Hnf. world_simpl. monad_norm.
        rewrite db_run, Hnf. world_simpl.
        eexists. eexists. eexists. split; [reflexivity|]. world_simpl.
        rewrite find_user_update, Hu, admin_grant_row by exact Hnew.
        repeat split.
      * unfold updateUser, logActivity. monad_norm.
        rewrite db_run, Hnf. world_simpl. monad_norm.
        rewrite db_run, Hnf. world_simpl.
        eexists. eexists. eexists. split; [reflexivity|]. world_simpl.
        rewrite find_user_update, Hu, find_grant_app, Hnew.
        unfold find_grant. cbn [find grant_id]. rewrite String.eqb_refl.
        repeat split.
    + unfold updateUser, logActivity. monad_norm.
      rewrite db_run, Hnf. world_simpl. monad_norm.
      rewrite db_run, Hnf. world_simpl.
      eexists. eexists. eexists. split; [reflexivity|]. world_simpl.
      rewrite find_user_update, Hu, find_grant_app, Hnew.
      unfold find_grant. cbn [find grant_id]. rewrite String.eqb_refl.
      repeat split.
Qed.

End AdminGrantProofs.



(** ** The theorems at work on the concrete store *)

Import Demo.

(** C1 at work: the first "approved" webhook fulfills the pending order of
    the store (two grants, 100 coins); delivered a second time, it changes
    nothing of that. *)
Lemma duplicate_approved_webhook_is_inert_witness :
  let req := approved_webhook good_signature in
  let w1 := snd (handleEfiBankWebhook env req (store "pending")) in
  let w2 := snd (handleEfiBankWebhook env req w1) in
  stored_status w1 "tx-1" = Some "approved" /\
  List.length (grants w1) = 2%nat /\
  option_map coins (find_user 1 (users w1)) = Some 110 /\
  grants w2 = grants w1 /\ users w2 = users w1 /\ products w2 = products w1 /\
  deliveries w2 = deliveries w1 /\ outbox w2 = outbox w1.
Proof.
  split; [reflexivity|]. split; [reflexivity|]. split; [reflexivity|].
  apply (duplicate_approved_webhook_is_inert env (approved_webhook good_signature)
           (snd (handleEfiBankWebhook env (approved_webhook good_signature) (store "pending")))
           (mkEfiEnvelope (Str "pix") Undefined
              (Some (mkEfiPix (Str "pay-1") (Str "CONCLUIDA"))))
           (apply_transaction_update (status_only "approved") now (tx "pending")));
    reflexivity.
Defined.



(** C3 fails on the code: without a configured secret a request whose
    signature is not the HMAC of its payload is processed, the transaction
    becomes approved and the order is fulfilled. *)
Lemma unsigned_webhook_accepted_without_secret :
  let req := approved_webhook "deadbeef" in
  let w := store "pending" in
  let run := handleEfiBankWebhook env_no_secret req w in
  hex_decode "deadbeef"
    <> hex_decode (hmac_sha256_hex env_no_secret (efiWebhookSecret env_no_secret)
                                   (req_payload req)) /\
  fst run = Ok (mkResponse 200 (WebhookProcessed "tx-1")) /\
  stored_status w "tx-1" = Some "pending" /\
  stored_status (snd run) "tx-1" = Some "approved" /\
  List.length (grants w) = 0%nat /\ List.length (grants (snd run)) = 2%nat /\
  option_map coins (find_user 1 (users (snd run))) = Some 110.
Proof. vm_compute. repeat split; discriminate. Qed.

(** The amended C3 at work.  With a secret, 32 bytes that are not the
    digest are answered 401 and four bytes make the comparison throw, both
    with the store untouched; the digest in upper case is processed; without
    a secret the forged signature is processed. *)
Lemma invalid_signature_rejected_witness :
  let w := store "pending" in
  handleEfiBankWebhook env (approved_webhook forged_signature) w
    = (Ok (mkResponse 401 (ErrorBody "Invalid signature")), w) /\
  snd (handleEfiBankWebhook env (approved_webhook "deadbeef") w) = w /\
  status (fst (asyncHandler (handleEfiBankWebhook env (approved_webhook "deadbeef")) w))
    = 500 /\
  fst (handleEfiBankWebhook env (approved_webhook shouted_signature) w)
    = Ok (mkResponse 200 (WebhookProcessed "tx-1")) /\
  fst (handleEfiBankWebhook env_no_secret (approved_webhook forged_signature) w)
    = Ok (mkResponse 200 (WebhookProcessed "tx-1")).
Proof.
  assert (Hbad : forall s, hex_decode s <> hex_decode good_signature ->
                           ~ signature_matches env approved_body (Some s)).
  { intros s Hne (s' & [= <-] & H). apply Hne. exact H. }
  cbv zeta. split; [|split; [|split; [|split]]].
  - destruct (invalid_signature_rejected env (approved_webhook forged_signature)
                (store "pending")) as [Hsecret _].
    destruct (proj1 (Hsecret eq_refl)) as (Hstore & Hresp & _);
      [apply Hbad; vm_compute; discriminate|].
    specialize (Hresp forged_signature eq_refl ltac:(vm_compute; reflexivity)).
    destruct (handleEfiBankWebhook env (approved_webhook forged_signature)
                (store "pending")) as [r w'].
    cbn [fst snd] in Hstore, Hresp. rewrite Hstore, Hresp. reflexivity.
  - destruct (invalid_signature_rejected env (approved_webhook "deadbeef")
                (store "pending")) as [Hsecret _].
    apply (proj1 (Hsecret eq_refl)). apply Hbad. vm_compute. discriminate.
  - destruct (invalid_signature_rejected env (approved_webhook "deadbeef")
                (store "pending")) as [Hsecret _].
    destruct (proj1 (Hsecret eq_refl)) as (_ & _ & Hthrow);
      [apply Hbad; vm_compute; discriminate|].
    apply Hthrow. right. exists "deadbeef". split; [reflexivity|].
    vm_compute. discriminate.
  - destruct (invalid_signature_rejected env (approved_webhook shouted_signature)
                (store "pending")) as [Hsecret _].
    rewrite (proj2 (Hsecret eq_refl)); [vm_compute; reflexivity|].
    exists shouted_signature. split; [reflexivity|vm_compute; reflexivity].
  - destruct (invalid_signature_rejected env_no_secret (approved_webhook forged_signature)
                (store "pending")) as [_ Hopen].
    rewrite (Hopen eq_refl). vm_compute. reflexivity.
Defined.


(** The UUIDs of the concrete environment do not repeat. *)
Lemma uuid_injective : forall j k, uuid j = uuid k -> j = k.
Proof.
  unfold uuid. intros j k [= H]. revert k H.
  induction j as [|j IH]; intros [|k]; cbn [unary]; intros H;
    try discriminate; [reflexivity|].
  injection H as H. f_equal. apply IH. exact H.
Defined.


(** C5 fails on the code: Alice has ten days of VIP left and buys thirty;
    her expiry becomes now + 30 days, not max(now, expiry) + 30 days. *)
Lemma renewal_does_not_stack :
  let w := store "approved" in
  let run := processApprovedPayment env "tx-1" 1 w in
  let thirty_days := 30 * (24 * 60 * 60 * 1000) in
  option_map vipExpires (find_user 1 (users w)) = Some (Some (now + ten_days)) /\
  fst run = Ok tt /\
  option_map vipLevel (find_user 1 (users (snd run))) = Some "gold" /\
  option_map vipExpires (find_user 1 (users (snd run))) = Some (Some (now + thirty_days)) /\
  option_map vipExpires (find_user 1 (users (snd run)))
    <> Some (Some (Z.max now (now + ten_days) + thirty_days)).
Proof. vm_compute. repeat split; discriminate. Qed.

(** The amended C5 on Alice's purchase and on an administrator's grant
    through [grantItemsToUser]; the same grant through [manualGrant] changes
    no user. *)
Lemma vip_expiry_counts_from_now_witness :
  let vip := mkGrantData None None None None None None (Some "gold") (Some 30) in
  (exists w' u',
     handle_special_product env 1 alice (line_item_of vip_gold 1) (store "approved")
       = (Ok tt, w') /\
     find_user 1 (users w') = Some u' /\
     vipLevel u' = "gold" /\
     vipExpires u' = Some (now + 30 * (24 * 60 * 60 * 1000))) /\
  (exists w' u' r,
     grantItemsToUser env (Some admin) 1 "vip" (Some vip) (store "approved") = (Ok r, w') /\
     find_user 1 (users w') = Some u' /\
     vipLevel u' = "gold" /\
     vipExpires u' = Some (now + 30 * (24 * 60 * 60 * 1000))) /\
  users (snd (adminController.manualGrant env (Some admin) 1 "vip" (Some vip)
                (store "approved")))
    = users (store "approved").
Proof.
  cbv zeta.
  destruct (vip_expiry_counts_from_now env 1 (store "approved") alice)
    as (Hfulfill & Hadmin & Hmanual); [intros n c; reflexivity|reflexivity|].
  split; [|split].
  - apply (Hfulfill alice (line_item_of vip_gold 1)). reflexivity.
  - apply (Hadmin admin
             (mkGrantData None None None None None None (Some "gold") (Some 30))).
    reflexivity.
  - apply Hmanual.
Defined.

(** C6 at work: the server refuses twice and then delivers. *)
Lemma deliverItemsWithRetry_bounded_witness :
  exists r w',
    deliverItemsWithRetry env sword (store "approved") = (Ok (Some r), w') /\
    dr_delivered r = true /\
    deliveries w' = [sword; sword; sword] /\
    timers w' = [5000; 5000].
Proof.
  destruct (deliverItemsWithRetry_bounded env sword (store "approved"))
    as (n & r & w' & Hrun & _ & Hd & _ & _ & _ & _ & Hscenario).
  destruct (Hscenario eq_refl eq_refl eq_refl) as (Hn & Hr & Ht).
  exists r, w'. rewrite Hn in Hd.
  repeat split; assumption.
Defined.

(** C7 at work: a refused connection is a result with a 60 second hint. *)
Lemma deliverItems_classifies_failures_witness :
  exists r w',
    deliverItems env sword (store "approved") = (Ok r, w') /\
    truthy_string (serverToken env) = true /\
    axios_deliver env 0 sword = AxiosError refused /\
    dr_delivered r = false /\ dr_retryAfter r = Some 60.
Proof.
  destruct (deliverItems_classifies_failures env sword (store "approved"))
    as (r & w' & Hrun & Hclass & _).
  destruct (Hclass eq_refl) as [Herr _].
  destruct (Herr refused eq_refl) as [Hd Hh].
  exists r, w'. repeat split; assumption.
Defined.

(** C8 at work: the backlog of five pending grants, two of them for users
    without a game identity. *)
Lemma processPendingDeliveries_counts_witness :
  List.length (pending_grants (grants backlog)) = 5%nat /\
  count_unlinked (users backlog) (pending_grants (grants backlog)) = 2%nat /\
  exists results w',
    processPendingDeliveries env (Some admin) backlog
      = (Ok (mkResponse 200 (BulkDelivery results)), w') /\
    processed results = 5 /\ skipped results = 2 /\
    delivered results + failed results = 3 /\
    List.length (deliveries w') = 3%nat.
Proof.
  split; [reflexivity|]. split; [reflexivity|].
  destruct (processPendingDeliveries_counts env admin backlog)
    as (results & w' & Hrun & _ & _ & _ & _ & _ & _ & Hlinked);
    try (intros; reflexivity).
  destruct Hlinked as (_ & Hdl & Hfive); [intros; reflexivity|].
  destruct (Hfive eq_refl eq_refl) as (Hp & Hs & Hdf).
  exists results, w'. split; [exact Hrun|].
  split; [exact Hp|]. split; [exact Hs|]. split; [exact Hdf|].
  rewrite Hdl. reflexivity.
Defined.

(** C9 at work: two coin packs and one VIP; the stored amount is 2500. *)
Lemma checkout_amount_is_sum_of_subtotals_witness :
  let items := [mkCartRequestItem 1 2; mkCartRequestItem 2 1] in
  let w' := snd (createPayment env (Some customer) items "pix" empty_ledger) in
  find_transaction (uuid 0) (transactions empty_ledger) = None /\
  option_map tx_amount (find_transaction (uuid 0) (transactions w')) = Some 2500 /\
  exists t cart,
    find_transaction (uuid 0) (transactions w') = Some t /\
    tx_products t = ColJson cart /\
    tx_amount t = sum_subtotals cart /\
    Forall2 (priced_from (products empty_ledger)) items cart.
Proof.
  split; [reflexivity|]. split; [reflexivity|].
  destruct (find_transaction (uuid 0)
              (transactions (snd (createPayment env (Some customer)
                 [mkCartRequestItem 1 2; mkCartRequestItem 2 1] "pix" empty_ledger))))
    as [t|] eqn:Hfind; [|vm_compute in Hfind; discriminate Hfind].
  destruct (proj1 (checkout_amount_is_sum_of_subtotals env) customer
              [mkCartRequestItem 1 2; mkCartRequestItem 2 1] "pix" empty_ledger
              (uuid 0) t eq_refl Hfind) as (cart & Hp & Ha & Hitems).
  exists t, cart. repeat split; assumption.
Defined.

(** C10 at work: with a secret configured, a request without a signature
    header still cancels the approved transaction, while a request with a
    wrong signature is answered 401. *)
Lemma generic_webhook_verification_is_optional_witness :
  let req := mkWebhookRequest None generic_body in
  truthy_ostring (req_signature req) = false /\
  (exists w',
     handleGenericPaymentWebhook env_generic_secret req (store "approved")
       = (Ok (mkResponse 200 (WebhookProcessed "tx-1")), w') /\
     stored_status w' "tx-1" = Some "cancelled") /\
  handleGenericPaymentWebhook env_generic_secret
    (mkWebhookRequest (Some forged_signature) generic_body) (store "approved")
    = (Ok (mkResponse 401 (ErrorBody "Invalid signature")), store "approved").
Proof.
  split; [reflexivity|]. split.
  - destruct (generic_webhook_verification_is_optional env_generic_secret
                (mkWebhookRequest None generic_body) (store "approved"))
      as [Hskip _].
    destruct (Hskip (or_intror eq_refl)) as [_ Hrun].
    destruct (Hrun (mkGenericEnvelope (Str "tx-1") (Str "cancelled") Undefined)
                "tx-1" "cancelled" (tx "approved"))
      as (w' & Hw & Hst); try reflexivity; [intros n c; reflexivity|].
    exists w'. split; [exact Hw|].
    destruct Hst as [Hst|(Habs & _)]; [exact Hst|discriminate Habs].
  - destruct (generic_webhook_verification_is_optional env_generic_secret
                (mkWebhookRequest (Some forged_signature) generic_body) (store "approved"))
      as [_ Hverify].
    destruct (Hverify "k3y" forged_signature eq_refl eq_refl eq_refl eq_refl) as [Hs Hr];
      [discriminate|].
    specialize (Hr eq_refl).
    destruct (handleGenericPaymentWebhook env_generic_secret _ _) as [r w'].
    cbn [fst snd] in Hs, Hr. rewrite Hs, Hr. reflexivity.
Defined.

(** ** The further theorems at work *)

Import Scenarios.


(** X1 at work: the five pending grants of the backlog, newest first. *)
Lemma getPendingGrants_newest_pending_witness :
  exists l w',
    getPendingGrants env backlog = (Ok l, w') /\
    map grant_id l = ["g5"; "g4"; "g3"; "g2"; "g1"] /\
    Sorted (newest_first grant_grantedAt) l.
Proof.
  destruct (getPendingGrants_newest_pending env backlog eq_refl)
    as (l & w' & Hrun & _ & _ & Hsorted & _).
  exists l, w'. split; [exact Hrun|]. split; [|exact Hsorted].
  injection Hrun as <- _. reflexivity.
Defined.

(** X2 at work: a page of the one-row ledger. *)
Lemma getAllTransactions_page_witness :
  exists l w',
    getAllTransactions env 1000 0 (store "pending") = (Ok l, w') /\
    Permutation l [tx "pending"].
Proof.
  destruct (getAllTransactions_page env 1000 0 (store "pending") eq_refl)
    as (l & w' & Hrun & _ & _ & _ & Hall & _).
  exists l, w'. split; [exact Hrun|].
  apply Hall; [reflexivity|]. cbn. lia.
Defined.

(** X3 at work: a first insertion succeeds, a second one under the same id
    and one under the id in use throw. *)
Lemma createTransaction_primary_key_witness :
  (exists t w',
     createTransaction env "tx-2" 1 700 "BRL" "pending" "pix" ColNull None (store "pending")
       = (Ok t, w') /\
     transactions w' = [tx "pending"; t] /\
     exists e w'',
       createTransaction env "tx-2" 2 900 "BRL" "pending" "pix" ColNull None w'
         = (Thrown e, w'') /\
       transactions w'' = transactions w') /\
  (exists e w',
     createTransaction env "tx-1" 1 700 "BRL" "pending" "pix" ColNull None (store "pending")
       = (Thrown e, w') /\
     transactions w' = transactions (store "pending")).
Proof.
  split.
  - destruct (proj1 (createTransaction_primary_key env "tx-2" 1 700 "BRL" "pending" "pix"
                       ColNull None (store "pending") eq_refl) eq_refl)
      as (t & w' & Hrun & Htx & _ & _ & _ & Hagain).
    exists t, w'. split; [exact Hrun|]. split; [rewrite Htx; reflexivity|].
    apply Hagain.
  - apply (proj2 (createTransaction_primary_key env "tx-1" 1 700 "BRL" "pending" "pix"
                    ColNull None (store "pending") eq_refl)).
    discriminate.
Defined.

(** X4 at work on the backlog. *)
Lemma ledger_ids_stay_unique_witness :
  NoDup (map grant_id (grants (snd (createGrant env "g1" None 1 "item" None "pending" None
                                                backlog)))) /\
  NoDup (map grant_id (grants (snd (createGrant env "g7" None 1 "item" None "pending" None
                                                backlog)))).
Proof.
  assert (Htx : NoDup (map tx_id (transactions backlog))) by constructor.
  assert (Hg : NoDup (map grant_id (grants backlog))).
  { cbn. repeat constructor; cbn; intuition discriminate. }
  destruct (ledger_ids_stay_unique env backlog Htx Hg) as (_ & _ & Hcreate & _).
  split; apply Hcreate.
Defined.


(** X6 at work: a new grant of the backlog, delivered at once. *)
Lemma grant_insert_update_lookup_witness :
  exists g w1 w2 w3,
    createGrant env "g7" None 2 "item" None "pending" None backlog = (Ok g, w1) /\
    updateGrant env "g7" "delivered" w1 = (Ok (Some (set_grant_status "delivered" g)), w2) /\
    getGrant env "g7" w2 = (Ok (Some (set_grant_status "delivered" g)), w3).
Proof.
  destruct (grant_insert_update_lookup env "g7" None 2 "item" None "pending" None
              "delivered" backlog)
    as (g & w1 & w2 & w3 & updated & H1 & _ & H2 & H3 & Hupd & _);
    [intros n c; reflexivity|reflexivity|].
  subst updated. exists g, w1, w2, w3. repeat split; assumption.
Defined.

(** X7 at work: a bare Steam id gets its namespace; an IP address is no
    identifier. *)
Lemma identifier_namespaces_witness :
  formatIdentifier "110000103fa1337" = "steam:110000103fa1337"%string /\
  validateIdentifier (formatIdentifier "110000103fa1337") = true /\
  validateIdentifier "license:" = true /\
  validateIdentifier "ip:127.0.0.1" = false.
Proof.
  destruct (identifier_namespaces "110000103fa1337") as (_ & _ & _ & Hvalid & Hany & _).
  split; [reflexivity|]. split; [apply Hvalid; reflexivity|].
  split; [|reflexivity].
  apply (Hany "license" ""). cbn. tauto.
Defined.

(** X8 at work: without a token the sword is "delivered" to an offline
    player. *)
Lemma mock_mode_always_delivers_witness :
  exists r w',
    deliverItemsWithRetry env_mock sword (store "approved") = (Ok (Some r), w') /\
    dr_delivered r = true /\ deliveries w' = [sword] /\ timers w' = [].
Proof.
  destruct (mock_mode_always_delivers env_mock sword (store "approved") eq_refl)
    as (r & Hrun & _ & _ & Hd & _).
  exists r. eexists. split; [exact Hrun|]. split; [exact Hd|]. split; reflexivity.
Defined.

(** X9 at work: a server that is down costs three requests and two
    sleeps. *)
Lemma deliverItemsWithRetry_waits_witness :
  let w' := snd (deliverItemsWithRetry env_down sword (store "approved")) in
  timers w' = [5000; 5000] /\ deliveries w' = [sword; sword; sword] /\
  users w' = users (store "approved").
Proof.
  destruct (deliverItemsWithRetry_waits env_down sword (store "approved"))
    as (Hu & _ & _ & _ & _ & _ & _ & Hdown).
  destruct Hdown as (Ht & Hd & _); [intros k _; reflexivity|].
  split; [exact Ht|]. split; [exact Hd|exact Hu].
Defined.

(** X10 at work: the sword for Alice is delivered on the third attempt and
    the grant stored as delivered; an IP address is refused. *)
Lemma manual_delivery_settles_grant_witness :
  (exists r g w',
     serverController.deliverItems env (Some admin) "steam:110000103fa1337" "item" None None
                                   (store "approved")
       = (Ok (mkReply 200 (Delivery (uuid 0) (dr_delivered r) (dr_retryAfter r))), w') /\
     grants w' = [g] /\ grant_status g = "delivered") /\
  serverController.deliverItems env (Some admin) "ip:127.0.0.1" "item" None None
                                (store "approved")
    = (Ok (mkReply 400 (Failure "Invalid FiveM identifier format")), store "approved").
Proof.
  split.
  - destruct (manual_delivery_settles_grant env admin "steam:110000103fa1337" "item" None
                None (store "approved")) as (_ & _ & Hdeliver).
    destruct (Hdeliver alice) as (r & g & w' & Hrun & Hg & Hrow & _);
      [reflexivity|intros n c; reflexivity|reflexivity|reflexivity|].
    exists r, g, w'. split; [exact Hrun|]. split; [exact Hg|].
    assert (Hd : dr_delivered r = true).
    { clear Hg Hrow. apply (f_equal fst) in Hrun.
      destruct r as [ok d msg hint]. vm_compute in Hrun. cbn [dr_delivered].
      congruence. }
    rewrite Hrow, Hd. reflexivity.
  - apply (manual_delivery_settles_grant env admin "ip:127.0.0.1" "item" None None
             (store "approved")). reflexivity.
Defined.

(** X11 at work: an unsigned confirmation sets the delivered grant of the
    backlog back to pending. *)
Lemma delivery_confirmation_overwrites_status_witness :
  exists w' g,
    webhookController.handleDeliveryConfirmation env (Some "k3y") parse_delivery
        (confirmation reopen_body) backlog
      = (Ok (mkReply 200 (DeliveryConfirmed "g6")), w') /\
    option_map grant_status (find_grant "g6" (grants backlog)) = Some "delivered" /\
    find_grant "g6" (grants w') = Some g /\ grant_status g = "pending".
Proof.
  destruct (delivery_confirmation_overwrites_status env (Some "k3y") parse_delivery
              (confirmation reopen_body) backlog
              (mkDeliveryEnvelope (Str "g6") (Str "pending") (Str "steam:110000103fa1337"))
              "g6" "pending" "steam:110000103fa1337"
              (mkGrant "g6" None 1 "item" None "delivered" None 6))
    as (w' & Hrun & Hg & _);
    [intros n c; reflexivity|right; reflexivity|reflexivity|reflexivity|reflexivity
    |reflexivity|reflexivity|reflexivity|reflexivity|reflexivity|].
  exists w'. eexists. split; [exact Hrun|]. split; [reflexivity|].
  split; [exact Hg|reflexivity].
Defined.

(** X12 at work: with the secret configured, a body that is no JSON is
    answered 500 without a signature header and 401 under a signature that
    is not the digest. *)
Lemma delivery_confirmation_rejections_witness :
  webhookController.handleDeliveryConfirmation env (Some "k3y") parse_delivery
      (confirmation "junk") backlog
    = (Ok (mkReply 500 (Failure "Webhook processing failed")), backlog) /\
  webhookController.handleDeliveryConfirmation env (Some "k3y") parse_delivery
      (mkWebhookRequest (Some forged_signature) "junk") backlog
    = (Ok (mkReply 401 (Failure "Invalid signature")), backlog).
Proof.
  split.
  - apply (delivery_confirmation_rejections env (Some "k3y") parse_delivery
             (confirmation "junk") backlog).
    + right. left. reflexivity.
    + left. reflexivity.
  - destruct (proj1 (delivery_confirmation_rejections env (Some "k3y") parse_delivery
                       (mkWebhookRequest (Some forged_signature) "junk") backlog)
                "k3y" forged_signature eq_refl eq_refl eq_refl eq_refl)
      as [Hstore Hresp]; [vm_compute; discriminate|].
    specialize (Hresp ltac:(vm_compute; reflexivity)).
    destruct (webhookController.handleDeliveryConfirmation env (Some "k3y") parse_delivery
                (mkWebhookRequest (Some forged_signature) "junk") backlog) as [r w'].
    cbn [fst snd] in Hstore, Hresp. rewrite Hstore, Hresp. reflexivity.
Defined.

(** X13 at work: a "removed" webhook grants nothing. *)
Lemma only_concluida_fulfills_witness :
  let w' := snd (handleEfiBankWebhook env (cancelled_webhook good_signature) (store "pending")) in
  stored_status w' "tx-1" = Some "cancelled" /\
  grants w' = [] /\ users w' = users (store "pending").
Proof.
  destruct (proj2 (only_concluida_fulfills env (cancelled_webhook good_signature)
                     (store "pending")))
    as (Hg & Hu & _).
  - intros e p He Hp Hc. vm_compute in He. injection He as <-.
    injection Hp as <-. discriminate Hc.
  - split; [reflexivity|]. split; [exact Hg|exact Hu].
Defined.

(** X14 at work: a signed body that is no JSON. *)
Lemma efibank_webhook_rejections_witness :
  handleEfiBankWebhook env (mkWebhookRequest (Some good_signature) "junk") (store "pending")
    = (Ok (mkResponse 500 (ErrorBody "Webhook processing failed")), store "pending").
Proof.
  apply (efibank_webhook_rejections env (mkWebhookRequest (Some good_signature) "junk")
           (store "pending")).
  - reflexivity.
  - left. reflexivity.
Defined.

(** X15 at work: an unsigned body that is no JSON. *)
Lemma generic_webhook_rejections_witness :
  handleGenericPaymentWebhook env (mkWebhookRequest None "junk") (store "pending")
    = (Ok (mkResponse 500 (ErrorBody "Webhook processing failed")), store "pending").
Proof.
  apply (generic_webhook_rejections env (mkWebhookRequest None "junk") (store "pending")).
  - left. reflexivity.
  - left. reflexivity.
Defined.

(** X16 at work: one and three coin packs, worth 100 coins each, add 100
    coins to Alice's 10. *)
Lemma several_coin_packs_credit_the_last_witness :
  exists w' u',
    processApprovedPayment env "tx-1" 1 two_packs_store = (Ok tt, w') /\
    find_user 1 (users w') = Some u' /\ coins u' = 110.
Proof.
  destruct (several_coin_packs_credit_the_last env "tx-1" 1 two_packs_store
              two_packs_tx alice two_packs)
    as (w' & u' & Hrun & Hu & Hc).
  - intros n c. reflexivity.
  - split; [exact uuid_injective|]. intros k _. reflexivity.
  - reflexivity.
  - reflexivity.
  - reflexivity.
  - exists w', u'. split; [exact Hrun|]. split; [exact Hu|]. rewrite Hc. reflexivity.
Defined.

(** X17 at work: the fulfillment takes one of the five VIP products and
    leaves the unlimited coin pack alone. *)
Lemma fulfillment_keeps_stock_floor_witness :
  let w' := snd (processApprovedPayment env "tx-1" 1 (store "approved")) in
  Forall (fun p => -1 <= prod_stock p) (products w') /\
  find_product 1 (products w') = Some coin_pack /\
  option_map prod_stock (find_product 2 (products w')) = Some 4.
Proof.
  destruct (fulfillment_keeps_stock_floor env "tx-1" 1 (store "approved"))
    as [Hfloor Hsame].
  - repeat constructor; cbn; lia.
  - split; [exact Hfloor|]. split; [|reflexivity].
    apply Hsame; [reflexivity|cbn; lia].
Defined.

(** X18 at work: the backup fulfillment of Alice's order records two
    pending grants and credits nothing. *)
Lemma polling_fulfillment_records_pending_grants_witness :
  let w' := snd (paymentController.processApprovedPayment env "tx-1" (store "approved")) in
  (exists news, grants w' = news /\ Forall2 (recorded_grant_of_item "tx-1" 1) order news) /\
  users w' = users (store "approved").
Proof.
  destruct (polling_fulfillment_records_pending_grants env "tx-1" (store "approved"))
    as [(w1 & Hrun & Hu & _) Hgrants].
  split.
  - destruct (Hgrants (tx "approved") alice order) as (news & Hg & Hall).
    + intros n c. reflexivity.
    + split; [exact uuid_injective|]. intros k _. reflexivity.
    + reflexivity.
    + reflexivity.
    + reflexivity.
    + exists news. split; [exact Hg|exact Hall].
  - cbv zeta. rewrite Hrun. exact Hu.
Defined.

(** X19 at work: the provider is down; polling reports the stored status
    and writes nothing. *)
Lemma polling_is_idle_without_news_witness :
  let run := paymentController.getPaymentStatus env provider_down (Some customer) "tx-1"
               (store "pending") in
  tables (snd run) = tables (store "pending") /\
  fst run = Ok (mkReply 200 (PaymentStatus "tx-1" "pending")).
Proof.
  destruct (polling_is_idle_without_news env provider_down customer "tx-1" (store "pending"))
    as [Hsame Hreply].
  - intros t _ _ _. left. reflexivity.
  - split; [exact Hsame|]. apply (Hreply (tx "pending")); reflexivity.
Defined.

(** X20 at work: the provider reports the pending payment as approved. *)
Lemma polling_reconciles_pending_witness :
  exists w',
    paymentController.getPaymentStatus env (provider_says "approved") (Some customer) "tx-1"
        (store "pending")
      = (Ok (mkReply 200 (PaymentStatus "tx-1" "approved")), w') /\
    stored_status w' "tx-1" = Some "approved" /\
    users w' = users (store "pending").
Proof.
  destruct (polling_reconciles_pending env (provider_says "approved") customer "tx-1"
              (store "pending") (tx "pending") "approved")
    as (w' & Hrun & Hst & Hu & _);
    [reflexivity|reflexivity|reflexivity|reflexivity|reflexivity|reflexivity|reflexivity
    |discriminate|].
  exists w'. split; [exact Hrun|]. split; [exact Hst|exact Hu].
Defined.

(** X21 at work: an approved payment cannot be cancelled, a pending one
    can. *)
Lemma cancelPayment_only_from_pending_witness :
  tables (snd (paymentController.cancelPayment env (Some customer) "tx-1" (store "approved")))
    = tables (store "approved") /\
  stored_status
    (snd (paymentController.cancelPayment env (Some customer) "tx-1" (store "pending")))
    "tx-1" = Some "cancelled".
Proof.
  split.
  - apply (proj1 (cancelPayment_only_from_pending env customer "tx-1" (store "approved"))).
    discriminate.
  - apply (proj2 (cancelPayment_only_from_pending env customer "tx-1" (store "pending"))
             (PaymentCancelled "tx-1")).
    reflexivity.
Defined.

(** X22 at work: Alice polls, the payment is found approved, and the
    provider's webhook arrives afterwards: her 10 coins stay 10. *)
Lemma polled_approval_is_never_fulfilled_witness :
  let w1 := snd (paymentController.getPaymentStatus env (provider_says "approved")
                   (Some customer) "tx-1" (store "pending")) in
  let w2 := snd (handleEfiBankWebhook env (approved_webhook good_signature) w1) in
  stored_status w2 "tx-1" = Some "approved" /\
  option_map coins (find_user 1 (users w2)) = Some 10 /\
  deliveries w2 = [].
Proof.
  destruct (polled_approval_is_never_fulfilled env (provider_says "approved") customer "tx-1"
              (store "pending") (tx "pending") (approved_webhook good_signature)
              (mkEfiEnvelope (Str "pix") Undefined
                 (Some (mkEfiPix (Str "pay-1") (Str "CONCLUIDA")))))
    as (_ & Hu & _ & Hd);
    [reflexivity|reflexivity|reflexivity|reflexivity|reflexivity|reflexivity|reflexivity
    |reflexivity|reflexivity|reflexivity|].
  split; [reflexivity|]. split; [rewrite Hu; reflexivity|exact Hd].
Defined.

(** X23 at work: nine VIP products are requested and five are in stock; the
    two coin packs of the same request are not sold either. *)
Lemma checkout_is_all_or_nothing_witness :
  let run := createPayment env (Some customer)
               [mkCartRequestItem 1 2; mkCartRequestItem 2 9] "pix" empty_ledger in
  tables (snd run) = tables empty_ledger /\
  fst run = Ok (mkResponse 400 (ErrorBody "Insufficient stock")).
Proof.
  destruct (checkout_is_all_or_nothing env customer
              [mkCartRequestItem 1 2; mkCartRequestItem 2 9] "pix" empty_ledger eq_refl)
    as (Hsame & _ & _).
  split; [exact Hsame|reflexivity].
Defined.

(** X24 at work: the provider cannot create the charge. *)
Lemma failed_charge_leaves_failed_transaction_witness :
  exists w',
    createPayment env_no_pix (Some customer) [mkCartRequestItem 1 2] "pix" empty_ledger
      = (Ok (mkResponse 500 (ErrorBody "Failed to create payment")), w') /\
    stored_status w' (uuid 0) = Some "failed".
Proof.
  edestruct (failed_charge_leaves_failed_transaction env_no_pix customer
               [mkCartRequestItem 1 2] "pix" empty_ledger)
    as (w' & Hrun & Hst & _).
  - intros n c. reflexivity.
  - vm_compute. reflexivity.
  - reflexivity.
  - reflexivity.
  - reflexivity.
  - exists w'. split; [exact Hrun|exact Hst].
Defined.

(** X25 at work: the digest is accepted, the same digest in upper case is
    not. *)
Lemma verifyWebhookSignature_exact_witness :
  verifyWebhookSignature env generic_body good_signature "k3y" = Ok true /\
  verifyWebhookSignature env generic_body shouted_signature "k3y" <> Ok true.
Proof.
  split.
  - apply (proj2 (verifyWebhookSignature_exact env generic_body good_signature "k3y")).
    reflexivity.
  - intros H.
    apply (proj2 (verifyWebhookSignature_exact env generic_body shouted_signature "k3y")) in H.
    discriminate H.
Defined.

(** X26 at work: Alice has 10 coins; she adds 990, or subtracts 50 and is
    left with none. *)
Lemma updateCoins_changes_own_balance_witness :
  (exists w', userController.updateCoins env (Some customer) (Some 990) None (store "approved")
              = (Ok (mkReply 200 (CoinsUpdated 1000)), w')) /\
  (exists w', userController.updateCoins env (Some customer) (Some 50) (Some "subtract")
                (store "approved")
              = (Ok (mkReply 200 (CoinsUpdated 0)), w')) /\
  userController.updateCoins env (Some customer) (Some (-5)) None (store "approved")
    = (Ok (mkReply 400 (Failure "Invalid amount")), store "approved").
Proof.
  destruct (updateCoins_changes_own_balance env customer (store "approved") alice)
    as [Hbad Hgood]; [intros n c; reflexivity|reflexivity|].
  split; [|split].
  - destruct (Hgood 990) as (Hadd & _); [lia|].
    destruct (Hadd None) as (w' & u' & Hrun & _); [left; reflexivity|].
    exists w'. exact Hrun.
  - destruct (Hgood 50) as (_ & (w' & u' & Hrun & _) & _); [lia|].
    exists w'. exact Hrun.
  - apply Hbad. right. exists (-5). split; [reflexivity|lia].
Defined.

(** X27 at work: a hundred coins for Bob, who has no game identity: the
    reply says delivered, the grant stays pending. *)
Lemma admin_coin_grant_reports_delivered_witness :
  exists w' u' g,
    adminController.manualGrant env (Some admin) 2 "coins" (Some hundred_coins)
        (store "approved")
      = (Ok (mkReply 200 (ManualGrant (uuid 0) true)), w') /\
    find_user 2 (users w') = Some u' /\ coins u' = 100 /\
    find_grant (uuid 0) (grants w') = Some g /\ grant_status g = "pending".
Proof.
  destruct (admin_coin_grant_reports_delivered env admin 2 hundred_coins (store "approved")
              bob)
    as [(w' & u' & g & Hrun & Hu & Hc & Hg & Hs) _];
    [intros n c; reflexivity|reflexivity|reflexivity|].
  exists w', u', g. repeat split; assumption.
Defined.
